(** * Render-job lifecycle of the real-estate video application

    A shallow embedding of the three code paths that write or read a
    row of the [videos] table:

    - [src/app/api/creatomate/generate/route.ts]  (the generation gateway),
    - [src/app/api/creatomate/webhook/route.ts]   (the webhook receiver),
    - [src/hooks/use-video-status.ts]             (the status poller),

    together with the part of the JavaScript runtime they rely on
    (JSON values, truthiness, property reads, [String(v)], [JSON.parse]
    and [JSON.stringify]).

    Domain of the model.  JSON numbers are the integers; a JavaScript
    string is a Rocq [string] whose characters stand for the code units
    U+0000..U+00FF.  [JSON.parse] accepts the JSON grammar over these
    values (any white space, every escape, [\u00XX]); a text with a
    fraction, an exponent or a [\u] escape above U+00FF lies outside the
    model, and so does a number that is not a safe integer: [Fragment]
    singles out the texts and values on which the model is exact, and
    the statements that read a job id or a number from a request are
    made for these.  [console.warn]/[console.error] calls are not modelled: they
    touch neither the table nor the response. *)

From Stdlib Require Import ZArith Ascii String DecimalString DecimalZ DecimalPos List Sorted Lia.
From stdpp Require Import gmap strings list.

#[local] Set Warnings "-register-all".
Open Scope string_scope.
Open Scope list_scope.
Open Scope Z_scope.

(* ===================================================================== *)
(** ** JSON values as the handlers see them                              *)
(* ===================================================================== *)

(** The TypeScript type [Json] of the data layer.  Members of an object
    are kept in the order of the text; when a key occurs twice the last
    member is the one a property read returns, as [JSON.parse] does. *)
Inductive json : Type :=
| JNull
| JBool (b : bool)
| JNum (n : Z)
| JStr (s : string)
| JArr (items : list json)
| JObj (members : list (string * json)).

(** A JavaScript value that may be [undefined]. *)
Abbreviation jsval := (option json).
Abbreviation undefined := (@None json).

(** [ToBoolean]: [undefined], [null], [false], [0] and the empty string
    are falsy, everything else (every array and object) is truthy. *)
Definition truthy (v : jsval) : bool :=
  match v with
  | None => false
  | Some JNull => false
  | Some (JBool b) => b
  | Some (JNum n) => negb (n =? 0)
  | Some (JStr s) => negb (String.eqb s "")
  | Some (JArr _) => true
  | Some (JObj _) => true
  end.

(** The last member with key [k]. *)
Fixpoint lookup_member (k : string) (ms : list (string * json)) : jsval :=
  match ms with
  | [] => None
  | (k', v) :: rest =>
      match lookup_member k rest with
      | Some v' => Some v'
      | None => if String.eqb k k' then Some v else None
      end
  end.

(** [v?.k] on a value that may be [undefined] or [null]: both give
    [undefined].  Only objects carry the keys read by the handlers
    ([id], [status], [url], [metadata], [videoId], [error], ...): none of
    them is a member of a built-in prototype. *)
Definition opt_get (k : string) (v : jsval) : jsval :=
  match v with
  | Some (JObj ms) => lookup_member k ms
  | _ => None
  end.

(** Thrown values.  Only [message] is ever read from them. *)
Inductive Exn : Type :=
| Error (message : string)
| TypeError (message : string)
| SyntaxError (message : string)
| PostgrestError (message : string).

Definition message (e : Exn) : string :=
  match e with
  | Error m | TypeError m | SyntaxError m | PostgrestError m => m
  end.

(** [v.k] (also the destructuring [const { k } = v]) on a value that is
    not [undefined]: reading a property of [null] throws. *)
Definition get_prop (k : string) (v : json) : Exn + jsval :=
  match v with
  | JNull =>
      inl (TypeError ("Cannot read properties of null (reading '" +:+ k +:+ "')"))
  | _ => inr (opt_get k (Some v))
  end.

(** Decimal numeral of an integer, as [String(n)] prints it for the
    safe integers ([Fragment.value]); beyond them [String] rounds or
    turns to the exponent form. *)
Definition string_of_Z (n : Z) : string := NilZero.string_of_int (Z.to_int n).

Fixpoint join (sep : string) (parts : list string) : string :=
  match parts with
  | [] => ""
  | [p] => p
  | p :: rest => p +:+ sep +:+ join sep rest
  end.

(** [String(v)], used by template literals, by [new Error(v)] and by the
    query filter [eq(column, v)].  An array prints its items separated by
    commas, [null] items as nothing; an object prints as
    [[object Object]]. *)
Fixpoint ToString (v : json) : string :=
  match v with
  | JNull => "null"
  | JBool true => "true"
  | JBool false => "false"
  | JNum n => string_of_Z n
  | JStr s => s
  | JArr items =>
      join "," (List.map (fun x => match x with JNull => "" | _ => ToString x end) items)
  | JObj _ => "[object Object]"
  end.

(* ===================================================================== *)
(** ** The [videos] table                                                *)
(* ===================================================================== *)

(** [create type video_status as enum (...)] / the [status] union type. *)
Inductive video_status : Type :=
| draft | pending | processing | completed | failed.

#[global] Instance video_status_eq_dec : EqDecision video_status.
Proof. solve_decision. Defined.

Definition status_name (s : video_status) : string :=
  match s with
  | draft => "draft"
  | pending => "pending"
  | processing => "processing"
  | completed => "completed"
  | failed => "failed"
  end.

Definition terminal (s : video_status) : bool :=
  match s with
  | completed | failed => true
  | _ => false
  end.

(** A JSON object held in a [jsonb] column: [jsonb] keeps neither the
    order of the members nor duplicate keys, so it is a finite map. *)
Abbreviation jsonb_object := (gmap string json).

Module Videos.
(** [Database['public']['Tables']['videos']['Row']], restricted to the
    columns the Creatomate routes and the poller touch.  [None] is SQL
    [NULL] for [status] and [meta]; a [meta] that is not [NULL] holds an
    object, as every writer in the repository stores one.  [video_url]
    and [property_id] hold the JSON value that was written ([JNull] for
    [NULL]), as neither route validates it. *)
Record Row : Type := mkRow {
  id : string;
  user_id : string;
  property_id : json;
  status : option video_status;
  script_content : option string;
  video_url : json;
  meta : option jsonb_object
}.

(** The argument of [.update(...)]: a column is written only when its
    key is present with a value other than [undefined] (the client
    serialises the object with [JSON.stringify], which drops such
    keys). *)
Record Update : Type := mkUpdate {
  set_meta : option jsonb_object;
  set_status : option video_status;
  set_video_url : jsval
}.

Definition apply (u : Update) (r : Row) : Row :=
  {| id := id r;
     user_id := user_id r;
     property_id := property_id r;
     status := match set_status u with Some s => Some s | None => status r end;
     script_content := script_content r;
     video_url := match set_video_url u with Some v => v | None => video_url r end;
     meta := match set_meta u with Some m => Some m | None => meta r end |}.
End Videos.

(** What a handler does to the outside world besides the table: the
    waits and the HTTP calls of the retry loop, in order.  A call
    carries the object passed to [JSON.stringify] as request body. *)
Inductive Effect : Type :=
| Delay (ms : Z)
| Fetch (data : json).

Record World : Type := mkWorld {
  videos : gmap string Videos.Row;
  effects : list Effect
}.

(* ===================================================================== *)
(** ** A state and exception monad for the route handlers                *)
(* ===================================================================== *)

Inductive Completion (A : Type) : Type :=
| Normal (a : A)
| Throw (e : Exn).
Arguments Normal {A} a.
Arguments Throw {A} e.

Definition M (A : Type) : Type := World -> Completion A * World.

Definition ret {A} (a : A) : M A := fun w => (Normal a, w).
Definition throw {A} (e : Exn) : M A := fun w => (Throw e, w).
Definition bind {A B} (c : M A) (k : A -> M B) : M B :=
  fun w =>
    match c w with
    | (Normal a, w') => k a w'
    | (Throw e, w') => (Throw e, w')
    end.
(** [try { c } catch (e) { h e }] *)
Definition try_catch {A} (c : M A) (h : Exn -> M A) : M A :=
  fun w =>
    match c w with
    | (Normal a, w') => (Normal a, w')
    | (Throw e, w') => h e w'
    end.
(** An awaited value that is either rejected or fulfilled. *)
Definition await {A} (r : Exn + A) : M A :=
  match r with
  | inl e => throw e
  | inr a => ret a
  end.

Declare Scope js_scope.
Delimit Scope js_scope with js.
Notation "'let*' x ':=' c 'in' k" := (bind c (fun x => k))
  (at level 10, x pattern, c at level 100, k at level 200) : js_scope.
Notation "c ';;' k" := (bind c (fun _ => k))
  (at level 100, k at level 200, right associativity) : js_scope.

Definition emit (e : Effect) : M unit :=
  fun w => (Normal tt, {| videos := videos w; effects := effects w ++ [e] |}).

(** [supabase.from('videos').select(...).eq('id', v).single()]: [data]
    is the row whose id is [String(v)], or [null] when there is none or
    the store fails ([fails]). *)
Definition select_single (fails : bool) (v : json) : M (option Videos.Row) :=
  fun w => (Normal (if fails then None else videos w !! ToString v), w).

(** [supabase.from('videos').update(u).eq('id', v)]: resolves to
    [{ error }].  When the store rejects the statement nothing is
    written; otherwise the matching row, if any, is updated, and no
    matching row is not an error. *)
Definition update_eq (rejected : option string) (u : Videos.Update) (v : json)
  : M (option Exn) :=
  fun w =>
    match rejected with
    | Some m => (Normal (Some (PostgrestError m)), w)
    | None =>
        (Normal None,
         {| videos := alter (Videos.apply u) (ToString v) (videos w);
            effects := effects w |})
    end.

(** [NextResponse.json(body, { status })] *)
Record Response : Type := mkResponse {
  resp_status : Z;
  resp_body : json
}.
Definition NextResponse_json (body : json) (status : Z) : Response :=
  {| resp_status := status; resp_body := body |}.

(** An incoming request: the outcome of [await req.json()] and the
    [origin] header. *)
Record Request : Type := mkRequest {
  req_json : Exn + json;
  req_origin : option string
}.

(** A property of an object literal: a value that is [undefined] is left
    out when the object is serialised, and hides an earlier member with
    the same key. *)
Definition obj_put (k : string) (v : jsval) (o : jsonb_object) : jsonb_object :=
  match v with
  | Some x => <[k := x]> o
  | None => delete k o
  end.

(** [{ ...meta }] for a [meta] column that is [null] or an object. *)
Definition spread (meta : option jsonb_object) : jsonb_object :=
  match meta with
  | Some o => o
  | None => ∅
  end.

(* ===================================================================== *)
(** ** [JSON.stringify] and [JSON.parse]                                 *)
(* ===================================================================== *)

Module JSON.
#[local] Open Scope list_scope.

Definition is_ws (c : ascii) : bool :=
  Ascii.eqb c " " || Ascii.eqb c "009" || Ascii.eqb c "010" || Ascii.eqb c "013".

Fixpoint skip_ws (s : list ascii) : list ascii :=
  match s with
  | c :: r => if is_ws c then skip_ws r else s
  | [] => []
  end.

Definition hex_digit (n : N) : ascii :=
  ascii_of_N (if (n <? 10)%N then 48 + n else 87 + n).

Definition hex_value (c : ascii) : option N :=
  let n := N_of_ascii c in
  if ((48 <=? n) && (n <=? 57))%N then Some (n - 48)%N
  else if ((97 <=? n) && (n <=? 102))%N then Some (n - 87)%N
  else if ((65 <=? n) && (n <=? 70))%N then Some (n - 55)%N
  else None.

(** [QuoteJSONString] on one code unit. *)
Definition escape_char (c : ascii) : list ascii :=
  if Ascii.eqb c "034" then ["\"; "034"]%char
  else if Ascii.eqb c "\" then ["\"; "\"]%char
  else if Ascii.eqb c "008" then ["\"; "b"]%char
  else if Ascii.eqb c "009" then ["\"; "t"]%char
  else if Ascii.eqb c "010" then ["\"; "n"]%char
  else if Ascii.eqb c "012" then ["\"; "f"]%char
  else if Ascii.eqb c "013" then ["\"; "r"]%char
  else if (N_of_ascii c <? 32)%N then
    ["\"; "u"; "0"; "0"; hex_digit (N_of_ascii c / 16); hex_digit (N_of_ascii c mod 16)]%char
  else [c].

Fixpoint escape (s : string) : list ascii :=
  match s with
  | EmptyString => []
  | String c r => escape_char c ++ escape r
  end.

Definition quote (s : string) : list ascii :=
  "034"%char :: escape s ++ ["034"%char].

(** The text [JSON.stringify(v)] without indentation. *)
Fixpoint print (v : json) : list ascii :=
  match v with
  | JNull => list_ascii_of_string "null"
  | JBool true => list_ascii_of_string "true"
  | JBool false => list_ascii_of_string "false"
  | JNum n => list_ascii_of_string (string_of_Z n)
  | JStr s => quote s
  | JArr items =>
      "["%char ::
      (fix elems (l : list json) : list ascii :=
         match l with
         | [] => []
         | [x] => print x
         | x :: rest => print x ++ ","%char :: elems rest
         end) items ++ ["]"%char]
  | JObj ms =>
      "{"%char ::
      (fix membs (l : list (string * json)) : list ascii :=
         match l with
         | [] => []
         | [(k, x)] => quote k ++ ":"%char :: print x
         | (k, x) :: rest => quote k ++ ":"%char :: print x ++ ","%char :: membs rest
         end) ms ++ ["}"%char]
  end.

Definition stringify (v : json) : string := string_of_list_ascii (print v).

Fixpoint strip_prefix (p s : list ascii) : option (list ascii) :=
  match p, s with
  | [], _ => Some s
  | a :: p', b :: s' => if Ascii.eqb a b then strip_prefix p' s' else None
  | _ :: _, [] => None
  end.

(** The characters of a string literal after its opening quote, up to
    and including the closing quote. *)
Fixpoint parse_chars (s : list ascii) : option (string * list ascii) :=
  match s with
  | [] => None
  | c :: r =>
      if Ascii.eqb c "034" then Some (EmptyString, r)
      else if Ascii.eqb c "\" then
        match r with
        | e :: r1 =>
            let continue (d : ascii) (tl : option (string * list ascii)) :=
              match tl with
              | Some (str, r') => Some (String d str, r')
              | None => None
              end in
            if Ascii.eqb e "034" then continue "034"%char (parse_chars r1)
            else if Ascii.eqb e "\" then continue "\"%char (parse_chars r1)
            else if Ascii.eqb e "/" then continue "/"%char (parse_chars r1)
            else if Ascii.eqb e "b" then continue "008"%char (parse_chars r1)
            else if Ascii.eqb e "f" then continue "012"%char (parse_chars r1)
            else if Ascii.eqb e "n" then continue "010"%char (parse_chars r1)
            else if Ascii.eqb e "r" then continue "013"%char (parse_chars r1)
            else if Ascii.eqb e "t" then continue "009"%char (parse_chars r1)
            else if Ascii.eqb e "u" then
              match r1 with
              | h1 :: h2 :: h3 :: h4 :: r2 =>
                  match hex_value h1, hex_value h2, hex_value h3, hex_value h4 with
                  | Some 0%N, Some 0%N, Some a, Some b =>
                      continue (ascii_of_N (16 * a + b)) (parse_chars r2)
                  | _, _, _, _ => None
                  end
              | _ => None
              end
            else None
        | [] => None
        end
      else if (N_of_ascii c <? 32)%N then None
      else
        match parse_chars r with
        | Some (str, r') => Some (String c str, r')
        | None => None
        end
  end.

Definition is_num_char (c : ascii) : bool :=
  Ascii.eqb c "-" || ((48 <=? N_of_ascii c) && (N_of_ascii c <=? 57))%N.

Fixpoint span_num (s : list ascii) : list ascii * list ascii :=
  match s with
  | c :: r =>
      if is_num_char c then let '(tok, rest) := span_num r in (c :: tok, rest)
      else ([], s)
  | [] => ([], [])
  end.

(** An integer literal: an optional minus sign, then either a single
    zero or digits that do not start with a zero. *)
Definition number_of_token (tok : string) : option Z :=
  match NilZero.int_of_string tok with
  | Some d =>
      let n := Z.of_int d in
      if String.eqb (string_of_Z n) tok || String.eqb tok "-0" then Some n else None
  | None => None
  end.

Definition parse_number (s : list ascii) : option (Z * list ascii) :=
  let '(tok, rest) := span_num s in
  match number_of_token (string_of_list_ascii tok) with
  | Some n => Some (n, rest)
  | None => None
  end.

(** Recursive descent; [fuel] bounds the number of nested calls. *)
Fixpoint parse_value (fuel : nat) (s : list ascii) : option (json * list ascii) :=
  match fuel with
  | O => None
  | S fuel' =>
      match skip_ws s with
      | [] => None
      | c :: r =>
          if Ascii.eqb c "n" then
            match strip_prefix (list_ascii_of_string "ull") r with
            | Some r' => Some (JNull, r') | None => None end
          else if Ascii.eqb c "t" then
            match strip_prefix (list_ascii_of_string "rue") r with
            | Some r' => Some (JBool true, r') | None => None end
          else if Ascii.eqb c "f" then
            match strip_prefix (list_ascii_of_string "alse") r with
            | Some r' => Some (JBool false, r') | None => None end
          else if Ascii.eqb c "034" then
            match parse_chars r with
            | Some (str, r') => Some (JStr str, r') | None => None end
          else if Ascii.eqb c "[" then
            match skip_ws r with
            | c' :: r' =>
                if Ascii.eqb c' "]" then Some (JArr [], r')
                else match parse_elements fuel' r with
                     | Some (items, r'') => Some (JArr items, r'')
                     | None => None
                     end
            | [] => None
            end
          else if Ascii.eqb c "{" then
            match skip_ws r with
            | c' :: r' =>
                if Ascii.eqb c' "}" then Some (JObj [], r')
                else match parse_members fuel' r with
                     | Some (ms, r'') => Some (JObj ms, r'')
                     | None => None
                     end
            | [] => None
            end
          else if is_num_char c then
            match parse_number (c :: r) with
            | Some (n, r') => Some (JNum n, r') | None => None end
          else None
      end
  end
with parse_elements (fuel : nat) (s : list ascii) : option (list json * list ascii) :=
  match fuel with
  | O => None
  | S fuel' =>
      match parse_value fuel' s with
      | Some (v, r) =>
          match skip_ws r with
          | c :: r' =>
              if Ascii.eqb c "," then
                match parse_elements fuel' r' with
                | Some (vs, r'') => Some (v :: vs, r'')
                | None => None
                end
              else if Ascii.eqb c "]" then Some ([v], r')
              else None
          | [] => None
          end
      | None => None
      end
  end
with parse_members (fuel : nat) (s : list ascii)
  : option (list (string * json) * list ascii) :=
  match fuel with
  | O => None
  | S fuel' =>
      match skip_ws s with
      | q :: r0 =>
          if Ascii.eqb q "034" then
            match parse_chars r0 with
            | Some (k, r1) =>
                match skip_ws r1 with
                | colon :: r2 =>
                    if Ascii.eqb colon ":" then
                      match parse_value fuel' r2 with
                      | Some (v, r3) =>
                          match skip_ws r3 with
                          | c :: r4 =>
                              if Ascii.eqb c "," then
                                match parse_members fuel' r4 with
                                | Some (ms, r5) => Some ((k, v) :: ms, r5)
                                | None => None
                                end
                              else if Ascii.eqb c "}" then Some ([(k, v)], r4)
                              else None
                          | [] => None
                          end
                      | None => None
                      end
                    else None
                | [] => None
                end
            | None => None
            end
          else None
      | [] => None
      end
  end.

(** [JSON.parse(text)]: [None] stands for the [SyntaxError].  On the
    texts of [Fragment.text] this is what [JSON.parse] does; a text
    with a fraction, an exponent or a [\u] escape above U+00FF is
    refused here though it is JSON, and an integer beyond the safe ones
    is kept exact here though [JSON.parse] rounds it. *)
Definition parse (text : string) : option json :=
  let s := list_ascii_of_string text in
  match parse_value (2 * List.length s + 2) s with
  | Some (v, r) =>
      match skip_ws r with
      | [] => Some v
      | _ :: _ => None
      end
  | None => None
  end.

(** *** Measures and shapes used to show that [parse] reads back what
    [stringify] prints *)

(** Induction on a value, with the hypothesis for every item of an
    array and every member of an object. *)
Definition json_ind' (P : json -> Prop)
  (HNull : P JNull) (HBool : forall b, P (JBool b)) (HNum : forall n, P (JNum n))
  (HStr : forall s, P (JStr s))
  (HArr : forall items, Forall P items -> P (JArr items))
  (HObj : forall ms, Forall (fun kv => P (snd kv)) ms -> P (JObj ms))
  : forall v, P v :=
  fix F (v : json) : P v :=
    match v with
    | JNull => HNull
    | JBool b => HBool b
    | JNum n => HNum n
    | JStr s => HStr s
    | JArr items =>
        HArr items
          ((fix G (l : list json) : Forall P l :=
              match l with
              | [] => @List.Forall_nil _ P
              | x :: r => @List.Forall_cons _ P x r (F x) (G r)
              end) items)
    | JObj ms =>
        HObj ms
          ((fix G (l : list (string * json)) : Forall (fun kv => P (snd kv)) l :=
              match l with
              | [] => @List.Forall_nil _ (fun kv => P (snd kv))
              | kv :: r =>
                  @List.Forall_cons _ (fun kv => P (snd kv)) kv r (F (snd kv)) (G r)
              end) ms)
    end.

(** Fuel that suffices to parse the text of a value. *)
Fixpoint size (v : json) : nat :=
  match v with
  | JArr items =>
      S ((fix go (l : list json) : nat :=
            match l with [] => O | x :: r => S (size x + go r) end) items)
  | JObj ms =>
      S ((fix go (l : list (string * json)) : nat :=
            match l with [] => O | (_, x) :: r => S (size x + go r) end) ms)
  | _ => 1%nat
  end.

Definition sizes (l : list json) : nat :=
  (fix go (l : list json) : nat :=
     match l with [] => O | x :: r => S (size x + go r) end) l.
Definition msizes (l : list (string * json)) : nat :=
  (fix go (l : list (string * json)) : nat :=
     match l with [] => O | (_, x) :: r => S (size x + go r) end) l.

(** The two local loops of [print]. *)
Definition print_elems : list json -> list ascii :=
  fix elems (l : list json) : list ascii :=
    match l with
    | [] => []
    | [x] => print x
    | x :: rest => print x ++ ","%char :: elems rest
    end.
Definition print_membs : list (string * json) -> list ascii :=
  fix membs (l : list (string * json)) : list ascii :=
    match l with
    | [] => []
    | [(k, x)] => quote k ++ ":"%char :: print x
    | (k, x) :: rest => quote k ++ ":"%char :: print x ++ ","%char :: membs rest
    end.

(** A text that may follow a number: it does not go on with a digit. *)
Definition ok_rest (rest : list ascii) : Prop :=
  match rest with
  | [] => True
  | c :: _ => is_num_char c = false
  end.

(** The first character of the text of a value. *)
Definition value_start (c : ascii) : bool :=
  Ascii.eqb c "n" || Ascii.eqb c "t" || Ascii.eqb c "f" || Ascii.eqb c "034"
  || Ascii.eqb c "[" || Ascii.eqb c "{" || is_num_char c.

(** [v] is read back from its text, whatever follows it. *)
Definition parses (v : json) : Prop :=
  forall fuel rest, (size v <= fuel)%nat -> ok_rest rest ->
    parse_value fuel (print v ++ rest) = Some (v, rest).

End JSON.

(* ===================================================================== *)
(** ** Where the model of numbers and texts is exact                     *)
(* ===================================================================== *)

(** A JavaScript number is a double, and [JSON.parse] reads every JSON
    text.  The model has the integers for numbers and reads the texts
    whose numbers are integers and whose [\u] escapes stay below
    U+0100.  The two agree on the values and texts singled out here;
    statements that read a number or a text from a request and depend
    on its exact value are made for these. *)
Module Fragment.
#[local] Open Scope list_scope.

(** [Number.MAX_SAFE_INTEGER] *)
Definition MAX_SAFE_INTEGER : Z := 9007199254740991.

(** Every number in [v] is a safe integer: a double holds it exactly
    and [String] prints it digit by digit. *)
Fixpoint value (v : json) : bool :=
  match v with
  | JNum n => Z.abs n <=? MAX_SAFE_INTEGER
  | JArr items => forallb value items
  | JObj members => forallb (fun member => value (snd member)) members
  | _ => true
  end.

Definition is_digit (c : ascii) : bool :=
  ((48 <=? N_of_ascii c) && (N_of_ascii c <=? 57))%N.

(** One pass over a text.  [inside] tells whether the position is
    inside a string literal; outside, [run] is the number the digits
    just before the position denote, if there are any.  The pass fails
    on a digit followed by a point or by an exponent mark, on digits
    that denote more than [MAX_SAFE_INTEGER], and on a [\u] escape
    whose first two digits are not zeros. *)
Fixpoint scan (inside : bool) (run : option Z) (s : list ascii) : bool :=
  match s with
  | [] => true
  | c :: r =>
      if inside then
        if Ascii.eqb c "034" then scan false None r
        else if Ascii.eqb c "\" then
          match r with
          | e :: r1 =>
              if Ascii.eqb e "u" then
                match r1 with
                | h1 :: h2 :: _ =>
                    Ascii.eqb h1 "0" && Ascii.eqb h2 "0" && scan true None r1
                | _ => false
                end
              else scan true None r1
          | [] => true
          end
        else scan true None r
      else if Ascii.eqb c "034" then scan true None r
      else if is_digit c then
        let n := 10 * match run with Some m => m | None => 0 end
                 + (Z.of_N (N_of_ascii c) - 48) in
        (n <=? MAX_SAFE_INTEGER) && scan false (Some n) r
      else
        match run with
        | Some _ =>
            negb (Ascii.eqb c "." || Ascii.eqb c "e" || Ascii.eqb c "E")
            && scan false None r
        | None => scan false None r
        end
  end.

(** The text has no number with a fraction or an exponent, no integer
    beyond the safe ones and no [\u] escape above U+00FF: on such a
    text [JSON.parse] of the model is [JSON.parse]. *)
Definition text (s : string) : bool := scan false None (list_ascii_of_string s).

End Fragment.

(* ===================================================================== *)
(** ** Helpers shared by the route handlers                              *)
(* ===================================================================== *)

(** [const { k, ... } = source]: destructuring [null] throws before any
    property is read. *)
Definition destructure (k source : string) (v : json) : Exn + jsval :=
  match v with
  | JNull =>
      inl (TypeError ("Cannot destructure property '" +:+ k +:+ "' of '"
                      +:+ source +:+ "' as it is null."))
  | _ => inr (opt_get k (Some v))
  end.

(** [v === 'lit'] for a string literal. *)
Definition strict_eq_lit (v : jsval) (lit : string) : bool :=
  match v with
  | Some (JStr s) => String.eqb s lit
  | _ => false
  end.

(** [if (v) { yes v } else { no }] *)
Definition if_truthy {A} (v : jsval) (yes : json -> M A) (no : M A) : M A :=
  match v with
  | Some x => if truthy v then yes x else no
  | None => no
  end.

Definition obj1 (k : string) (v : json) : json := JObj [(k, v)].

(** A text written as its pieces between double quotes: [text ["{"; "a";
    ":1}"]] is the text of an object with the one key [a]. *)
Definition text (pieces : list string) : string := join (String "034" "") pieces.

(* ===================================================================== *)
(** ** The webhook receiver: [api/creatomate/webhook/route.ts]           *)
(* ===================================================================== *)

Module Webhook.

(** How the store answers the two statements of one delivery. *)
Record Env : Type := mkEnv {
  select_fails : bool;
  update_rejected : option string
}.
Definition healthy : Env := {| select_fails := false; update_rejected := None |}.

(** Line 30: the provider's vocabulary mapped to the internal one. *)
Definition internal_status (status : jsval) : video_status :=
  if strict_eq_lit status "succeeded" then completed
  else if strict_eq_lit status "failed" then failed
  else pending.

(** Lines 16-23: a string is parsed, and kept as it is when it does not
    parse; anything else is used as it is. *)
Definition parsedMetadata (metadata : jsval) : jsval :=
  match metadata with
  | Some (JStr s) =>
      match JSON.parse s with
      | Some v => Some v
      | None => metadata
      end
  | _ => metadata
  end.

(** Line 25 *)
Definition videoId (metadata : jsval) : jsval :=
  opt_get "videoId" (parsedMetadata metadata).

(** Lines 39-44: [{ ...currentVideo.meta, creatomate_id: id,
    render_url: url, last_webhook_status: status }] *)
Definition merged_meta (current : option jsonb_object) (id url status : jsval)
  : jsonb_object :=
  obj_put "last_webhook_status" status
    (obj_put "render_url" url
       (obj_put "creatomate_id" id (spread current))).

(** Lines 29-45 *)
Definition updateData (currentVideo : option Videos.Row) (id url status : jsval)
  : Videos.Update :=
  {| Videos.set_status := Some (internal_status status);
     Videos.set_video_url := url;
     Videos.set_meta :=
       match currentVideo with
       | Some row => Some (merged_meta (Videos.meta row) id url status)
       | None => None
       end |}.

(** Lines 6-63, the [try] block. *)
Definition try_block (env : Env) (req : Request) : M Response :=
  (let* body := await (req_json req) in
   let* id := await (destructure "id" "body" body) in
   let* status := await (destructure "status" "body" body) in
   let* url := await (destructure "url" "body" body) in
   let* metadata := await (destructure "metadata" "body" body) in
   if negb (truthy id) || negb (truthy status) then
     ret (NextResponse_json (obj1 "error" (JStr "Invalid payload")) 400)
   else
     (if_truthy (videoId metadata)
        (fun vid =>
           let* currentVideo := select_single (select_fails env) vid in
           let* error :=
             update_eq (update_rejected env)
                       (updateData currentVideo id url status) vid in
           match error with
           | Some e => throw e
           | None => ret tt
           end)
        (ret tt)) ;;
     ret (NextResponse_json (obj1 "received" (JBool true)) 200))%js.

(** Lines 4-69 *)
Definition POST (env : Env) (req : Request) : M Response :=
  try_catch (try_block env req)
    (fun error =>
       ret (NextResponse_json (obj1 "error" (JStr (message error))) 500)).

End Webhook.

(* ===================================================================== *)
(** ** The status poller: [hooks/use-video-status.ts]                    *)
(* ===================================================================== *)

Module UseVideoStatus.

(** The two [useState] cells of the hook. *)
Record State : Type := mkState {
  status : string;
  video : option Videos.Row
}.
Definition initial : State := {| status := "pending"; video := None |}.

(** Lines 12-23 *)
Definition fetchStatus (select_fails : bool) (videoId : string) (st : State)
  : M State :=
  (let* data := select_single select_fails (JStr videoId) in
   match data with
   | Some row =>
       ret {| video := Some row;
              status := match Videos.status row with
                        | Some s => status_name s
                        | None => "pending"
                        end |}
   | None => ret st
   end)%js.

(** One firing of the effect body or of the 3 s interval: nothing is
    fetched for an empty [videoId] (line 10). *)
Definition tick (select_fails : bool) (videoId : string) (st : State) : M State :=
  if String.eqb videoId "" then ret st else fetchStatus select_fails videoId st.

End UseVideoStatus.

(* ===================================================================== *)
(** ** The generation gateway: [api/creatomate/generate/route.ts]        *)
(* ===================================================================== *)

Module Generate.

(** What [fetch] resolves to: [status], and the outcome of
    [response.json()]. *)
Record FetchResponse : Type := mkFetchResponse {
  status : Z;
  json_body : Exn + json
}.
(** [response.ok] *)
Definition ok (r : FetchResponse) : bool := (200 <=? status r) && (status r <=? 299).

Inductive FetchOutcome : Type :=
| Rejected (err : Exn)            (* transport failure: [fetch] rejects *)
| Responded (r : FetchResponse).

(** The call was answered with a 2xx status. *)
Definition is_success (o : FetchOutcome) : bool :=
  match o with
  | Rejected _ => false
  | Responded r => ok r
  end.

(** Everything outside the handler.  [getTemplate] and [applyTemplate]
    are the two methods of the [TemplateManager] class, which reads a
    template file and rewrites its strings: the handler only passes
    their results on, so it is parameterised by them ([JNull] is the
    [null] of a missing template).  [renderer i] is how the external
    renderer answers the call of loop index [i]. *)
Record Env : Type := mkEnv {
  user : option string;                       (* [user.id], or no user *)
  CREATOMATE_API_KEY : option string;
  NEXT_PUBLIC_APP_URL : option string;
  getTemplate : json -> json;
  applyTemplate : json -> json -> Exn + json;
  insert_result : string + string;            (* error message, or new id *)
  renderer : nat -> FetchOutcome;
  update_rejected : option string
}.

(** [supabase.from('videos').insert(row).select().single()]: resolves
    to [{ data, error }]. *)
Definition insert_select_single (result : string + string)
    (row : string -> Videos.Row) : M (option Videos.Row * option Exn) :=
  fun w =>
    match result with
    | inl m => (Normal (None, Some (PostgrestError m)), w)
    | inr new_id =>
        match videos w !! new_id with
        | Some _ =>
            (Normal (None, Some (PostgrestError
               "duplicate key value violates unique constraint videos_pkey")), w)
        | None =>
            (Normal (Some (row new_id), None),
             {| videos := <[new_id := row new_id]> (videos w);
                effects := effects w |})
        end
    end.

Definition maxRetries : nat := 3.

(** The loop variables declared on lines 69-70. *)
Record LoopVars : Type := mkLoopVars {
  response : option FetchResponse;
  lastError : option Exn
}.

Section Handler.
Variable env : Env.

(** Lines 74-93, the [try] block of iteration [i]: the value of
    [response] when the block completes, and how it completes
    ([Normal true] is the [break]). *)
Definition try_block (data : json) (i : nat) (response : option FetchResponse)
  : M (option FetchResponse * Completion bool) :=
  ((if (0 <? i)%nat then emit (Delay (500 * 2 ^ (Z.of_nat i - 1))) else ret tt) ;;
   emit (Fetch data) ;;
   match renderer env i with
   | Rejected err => ret (response, Throw err)
   | Responded r =>
       if ok r then ret (Some r, Normal true)
       else if status r <? 500 then
         match json_body r with
         | inl err => ret (Some r, Throw err)
         | inr result =>
             match get_prop "error" result with
             | inl err => ret (Some r, Throw err)
             | inr error =>
                 ret (Some r,
                      Throw (Error
                        (match error with
                         | Some e =>
                             if truthy error then ToString e
                             else "Request failed with status " +:+ string_of_Z (status r)
                         | None =>
                             "Request failed with status " +:+ string_of_Z (status r)
                         end)))
             end
         end
       else ret (Some r, Normal false)
   end)%js.

(** Lines 73-97: the [try] block and its [catch] clause, which
    records the error and lets the loop go on. *)
Definition iteration (data : json) (i : nat) (v : LoopVars) : M (LoopVars * bool) :=
  (let* (response', completion) := try_block data i (response v) in
   match completion with
   | Normal break => ret ({| response := response'; lastError := lastError v |}, break)
   | Throw err => ret ({| response := response'; lastError := Some err |}, false)
   end)%js.

(** Line 72: [for (let i = ...; i < maxRetries; i++)], with
    [remaining = maxRetries - i]. *)
Fixpoint for_loop (data : json) (remaining i : nat) (v : LoopVars) : M LoopVars :=
  match remaining with
  | O => ret v
  | S remaining' =>
      (let* (v', break) := iteration data i v in
       if break then ret v' else for_loop data remaining' (S i) v')%js
  end.

(** Lines 68-102: the loop and the check after it. *)
Definition fetch_with_retry (data : json) : M FetchResponse :=
  (let* v := for_loop data maxRetries 0%nat {| response := None; lastError := None |} in
   match response v with
   | Some r =>
       if ok r then ret r
       else throw (match lastError v with
                   | Some e => e
                   | None => Error "Failed to connect to Creatomate API"
                   end)
   | None =>
       throw (match lastError v with
              | Some e => e
              | None => Error "Failed to connect to Creatomate API"
              end)
   end)%js.

(** Line 105: [Array.isArray(result) ? result[0] : result] *)
Definition first_render (result : json) : jsval :=
  match result with
  | JArr [] => None
  | JArr (x :: _) => Some x
  | _ => Some result
  end.

(** Lines 50-56: the row that is inserted. *)
Definition new_row (user_id : string) (propertyId templateId modifications : jsval)
    (new_id : string) : Videos.Row :=
  {| Videos.id := new_id;
     Videos.user_id := user_id;
     Videos.property_id := match propertyId with Some p => p | None => JNull end;
     Videos.status := Some pending;
     Videos.script_content :=
       Some (match templateId with
             | Some t => if truthy templateId then "Template: " +:+ ToString t
                         else "Creatomate Video Edit"
             | None => "Creatomate Video Edit"
             end);
     Videos.video_url := JNull;
     Videos.meta :=
       Some (obj_put "templateId" templateId
               (obj_put "modifications" modifications
                  (obj_put "template" (Some (JStr "CREATOMATE_EDIT")) ∅))) |}.

(** Lines 60-66: the request body sent to the renderer. *)
Definition request_data (creatomateTemplateId : json) (modifications : jsval)
    (video_id user_id : string) (origin : option string) : json :=
  JObj ([("template_id", creatomateTemplateId)]
        ++ match modifications with Some m => [("modifications", m)] | None => [] end
        ++ [("metadata",
             JStr (JSON.stringify
                     (JObj [("videoId", JStr video_id); ("userId", JStr user_id)])));
            ("webhook_url",
             JStr (match origin with
                   | Some o =>
                       if String.eqb o "" then
                         match NEXT_PUBLIC_APP_URL env with
                         | Some u => u | None => "undefined" end
                       else o
                   | None =>
                       match NEXT_PUBLIC_APP_URL env with
                       | Some u => u | None => "undefined" end
                   end +:+ "/api/creatomate/webhook"))])%list.

(** Lines 109-119: the update after a successful call. *)
Definition render_update (video : Videos.Row) (render : json) : Videos.Update :=
  {| Videos.set_meta :=
       Some (obj_put "render_url" (opt_get "url" (Some render))
               (obj_put "creatomate_id" (opt_get "id" (Some render))
                  (spread (Videos.meta video))));
     Videos.set_status :=
       Some (if strict_eq_lit (opt_get "status" (Some render)) "succeeded"
             then completed else pending);
     Videos.set_video_url := opt_get "url" (Some render) |}.

(** Lines 34-122: from the API key to the response. *)
Definition generate (user_id : string) (origin : option string)
    (propertyId templateId modifications : jsval) : M Response :=
  (match CREATOMATE_API_KEY env with
   | None => throw (Error "Missing CREATOMATE_API_KEY")
   | Some apiKey =>
       if String.eqb apiKey "" then throw (Error "Missing CREATOMATE_API_KEY")
       else
         let creatomateTemplateId :=
           match templateId with
           | Some t =>
               if truthy templateId then
                 match opt_get "id" (Some (getTemplate env t)) with
                 | Some tid =>
                     if truthy (Some tid) then tid
                     else JStr "6ac80fd5-c928-4640-ac1c-c3a0bafac3c5"
                 | None => JStr "6ac80fd5-c928-4640-ac1c-c3a0bafac3c5"
                 end
               else JStr "6ac80fd5-c928-4640-ac1c-c3a0bafac3c5"
           | None => JStr "6ac80fd5-c928-4640-ac1c-c3a0bafac3c5"
           end in
         let* (data_video, dbError) :=
           insert_select_single (insert_result env)
             (new_row user_id propertyId templateId modifications) in
         match dbError, data_video with
         | Some e, _ => throw e
         | None, None => throw (TypeError "Cannot read properties of null (reading 'id')")
         | None, Some video =>
             let data := request_data creatomateTemplateId modifications
                           (Videos.id video) user_id origin in
             let* response := fetch_with_retry data in
             let* result := await (json_body response) in
             (if_truthy (first_render result)
                (fun render =>
                   update_eq (update_rejected env) (render_update video render)
                             (JStr (Videos.id video)) ;;
                   ret tt)
                (ret tt)) ;;
             ret (NextResponse_json
                    (JObj [("success", JBool true); ("videoId", JStr (Videos.id video))])
                    200)
         end
   end)%js.

Definition POST (req : Request) : M Response :=
  match user env with
  | None => ret (NextResponse_json (obj1 "error" (JStr "Unauthorized")) 401)
  | Some user_id =>
      (try_catch
         (let* body := await (req_json req) in
          let* modifications := await (destructure "modifications" "body" body) in
          let* propertyId := await (destructure "propertyId" "body" body) in
          let* templateId := await (destructure "templateId" "body" body) in
          let* templateData := await (destructure "data" "body" body) in
          if_truthy templateId
            (fun t =>
               let template := getTemplate env t in
               if truthy (Some template) then
                 let* applied :=
                   await (applyTemplate env template
                            (match templateData with
                             | Some d => if truthy templateData then d else JObj []
                             | None => JObj []
                             end)) in
                 generate user_id (req_origin req) propertyId templateId (Some applied)
               else
                 ret (NextResponse_json
                        (obj1 "error" (JStr ("Template '" +:+ ToString t +:+ "' not found")))
                        404))
            (generate user_id (req_origin req) propertyId templateId modifications))
         (fun error =>
            ret (NextResponse_json (obj1 "error" (JStr (message error))) 500)))%js
  end.

End Handler.

End Generate.

(* ===================================================================== *)
(** ** The template registry: class [TemplateManager]                    *)
(* ===================================================================== *)

(** The class the gateway imports from [lib/creatomate/template-manager];
    its text is lines 903-942 of [components/wizard/video-editor.tsx]:
    [getTemplate] on lines 910-922, [applyTemplate] on lines 924-941. *)

Module TemplateManager.

(** [k] as an array index: the decimal numeral, without sign or leading
    zero, of a number below 2^32 - 1. *)
Definition array_index (k : string) : option N :=
  match JSON.number_of_token k with
  | Some n =>
      if (0 <=? n) && (n <? 4294967295) && String.eqb (string_of_Z n) k
      then Some (Z.to_N n) else None
  | None => None
  end.

Definition index_key (i : nat) : string := string_of_Z (Z.of_nat i).

Fixpoint indexed {A} (i : nat) (l : list A) : list (string * A) :=
  match l with
  | [] => []
  | x :: rest => (index_key i, x) :: indexed (S i) rest
  end.

(** The code units of a string, each as a string of length one. *)
Fixpoint chars (s : string) : list json :=
  match s with
  | EmptyString => []
  | String c rest => JStr (String c EmptyString) :: chars rest
  end.

(** The keys of the members, each once, in the order of their first
    occurrence. *)
Fixpoint distinct_keys (ms : list (string * json)) (seen : list string) : list string :=
  match ms with
  | [] => []
  | (k, _) :: rest =>
      if existsb (String.eqb k) seen then distinct_keys rest seen
      else k :: distinct_keys rest (k :: seen)
  end.

Fixpoint insert_index (x : N * string) (l : list (N * string)) : list (N * string) :=
  match l with
  | [] => [x]
  | y :: rest => if (fst x <=? fst y)%N then x :: l else y :: insert_index x rest
  end.

(** The own property keys of an object in the order of the language:
    array indices first, ascending, then the other keys in the order of
    their creation. *)
Definition own_keys (ms : list (string * json)) : list string :=
  let ks := distinct_keys ms [] in
  List.map snd
    (fold_right insert_index []
       (flat_map (fun k => match array_index k with
                           | Some i => [(i, k)]
                           | None => []
                           end) ks))
  ++ List.filter (fun k => match array_index k with Some _ => false | None => true end) ks.

(** [Object.entries(v)] for a value that is neither [undefined] nor
    [null]. *)
Definition entries (v : json) : list (string * json) :=
  match v with
  | JObj ms =>
      flat_map (fun k => match lookup_member k ms with
                         | Some x => [(k, x)]
                         | None => []
                         end) (own_keys ms)
  | JArr items => indexed 0 items
  | JStr s => indexed 0 (chars s)
  | _ => []
  end.

(** [x[k]] as far as own properties go: members of an object, items and
    [length] of an array, code units and [length] of a string. *)
Definition own_read (x : json) (k : string) : jsval :=
  match x with
  | JObj ms => lookup_member k ms
  | JArr items =>
      match array_index k with
      | Some i => nth_error items (N.to_nat i)
      | None =>
          if String.eqb k "length" then Some (JNum (Z.of_nat (List.length items)))
          else None
      end
  | JStr s =>
      match array_index k with
      | Some i => nth_error (chars s) (N.to_nat i)
      | None =>
          if String.eqb k "length" then Some (JNum (Z.of_nat (String.length s)))
          else None
      end
  | _ => None
  end.

(** [s.split(sep)] for a separator of one character. *)
Fixpoint split_on (sep : ascii) (s : string) : list string :=
  match s with
  | EmptyString => [EmptyString]
  | String c rest =>
      if Ascii.eqb c sep then EmptyString :: split_on sep rest
      else match split_on sep rest with
           | seg :: segs => String c seg :: segs
           | [] => [String c EmptyString]
           end
  end.

(** The characters up to the first closing brace, and what follows. *)
Fixpoint span_path (s : string) : string * string :=
  match s with
  | EmptyString => (EmptyString, EmptyString)
  | String c rest =>
      if Ascii.eqb c "}" then (EmptyString, s)
      else let '(p, tail) := span_path rest in (String c p, tail)
  end.

(** A match of the pattern (two opening braces, one or more characters
    other than a closing brace, two closing braces) at the start of
    [s]: the captured path and the text after the match.  The run of
    characters is greedy and cannot give back, as what follows it must
    be a closing brace. *)
Definition match_placeholder (s : string) : option (string * string) :=
  match s with
  | String a (String b r) =>
      if Ascii.eqb a "{" && Ascii.eqb b "{" then
        match span_path r with
        | (String c p, String _ (String e tail)) =>
            if Ascii.eqb e "}" then Some (String c p, tail) else None
        | _ => None
        end
      else None
  | _ => None
  end.

(** [value.replace(pattern, callback)] with the global flag, scanning
    from the left: [skip] counts the characters of a match that are
    still to be passed over.  The callback runs once for each match,
    in this order, and what it throws ends the replacement. *)
Fixpoint replace_from (callback : string -> Exn + string) (skip : nat) (s : string)
  : Exn + string :=
  match s with
  | EmptyString => inr EmptyString
  | String c rest =>
      match skip with
      | S n => replace_from callback n rest
      | O =>
          match match_placeholder (String c rest) with
          | Some (path, _) =>
              match callback path with
              | inl e => inl e
              | inr t =>
                  match replace_from callback (String.length path + 3) rest with
                  | inl e => inl e
                  | inr r => inr (t +:+ r)
                  end
              end
          | None =>
              match replace_from callback 0 rest with
              | inl e => inl e
              | inr r => inr (String c r)
              end
          end
      end
  end.

Definition replace_placeholders (callback : string -> Exn + string) (s : string)
  : Exn + string :=
  replace_from callback 0 s.


Fixpoint occurs (c : ascii) (s : string) : bool :=
  match s with
  | EmptyString => false
  | String d rest => Ascii.eqb d c || occurs c rest
  end.

(** Two opening braces in a row somewhere in [s]. *)
Fixpoint has_opening (s : string) : bool :=
  match s with
  | String a ((String b _) as rest) =>
      (Ascii.eqb a "{" && Ascii.eqb b "{") || has_opening rest
  | _ => false
  end.

Section Runtime.

(** The two things the class takes from its surroundings.  [files name]
    is the content of the file that [name] leads to from the template
    directory, when there is such a file and it can be read.
    [inherited x ks] stands for the members a value has from its
    prototype, which depend on the runtime: when the walk of a path is
    at [x] and [x] has no own property named by the first of the
    remaining keys [ks], it is how the walk ends (with a text, or by
    throwing) if [x] inherits a member of that name, and [None] if it
    does not. *)
Variable files : string -> option string.
Variable inherited : json -> list string -> option (Exn + string).

(** [getTemplate]: [null] when the file is missing or when reading or
    parsing it throws. *)
Definition getTemplate (templateName : json) : json :=
  match files (ToString templateName +:+ ".json") with
  | Some fileContent =>
      match JSON.parse fileContent with
      | Some template => template
      | None => JNull
      end
  | None => JNull
  end.

(** The callback of [applyTemplate]: the walk
    [path.split('.').reduce((obj, k) => (obj || {})[k], data)] and the
    text that takes the place of the match. *)
Fixpoint walk (obj : jsval) (ks : list string) : Exn + string :=
  match ks with
  | [] =>
      inr match obj with
          | None | Some JNull => ""
          | Some val => ToString val
          end
  | k :: rest =>
      let x := match obj with
               | Some v => if truthy obj then v else JObj []
               | None => JObj []
               end in
      match own_read x k with
      | Some v => walk (Some v) rest
      | None =>
          match inherited x ks with
          | Some r => r
          | None => walk None rest
          end
      end
  end.

Definition callback (data : json) (path : string) : Exn + string :=
  walk (Some data) (split_on "." path).

(** The loop of [applyTemplate] over the entries.  An assignment to
    the key [__proto__] sets no property of the result. *)
Fixpoint assign_entries (data : json) (es : list (string * json))
  : Exn + list (string * json) :=
  match es with
  | [] => inr []
  | (key, value) :: rest =>
      match match value with
            | JStr s =>
                match replace_placeholders (callback data) s with
                | inl e => inl e
                | inr t => inr (JStr t)
                end
            | _ => inr value
            end with
      | inl e => inl e
      | inr v =>
          match assign_entries data rest with
          | inl e => inl e
          | inr ms => inr (if String.eqb key "__proto__" then ms else (key, v) :: ms)
          end
      end
  end.

Definition applyTemplate (template data : json) : Exn + json :=
  match get_prop "modifications" template with
  | inl e => inl e
  | inr None | inr (Some JNull) =>
      inl (TypeError "Cannot convert undefined or null to object")
  | inr (Some modifications) =>
      match assign_entries data (entries modifications) with
      | inl e => inl e
      | inr ms => inr (JObj ms)
      end
  end.

(** An environment of the gateway with this registry in it. *)
Definition install (env : Generate.Env) : Generate.Env :=
  {| Generate.user := Generate.user env;
     Generate.CREATOMATE_API_KEY := Generate.CREATOMATE_API_KEY env;
     Generate.NEXT_PUBLIC_APP_URL := Generate.NEXT_PUBLIC_APP_URL env;
     Generate.getTemplate := getTemplate;
     Generate.applyTemplate := applyTemplate;
     Generate.insert_result := Generate.insert_result env;
     Generate.renderer := Generate.renderer env;
     Generate.update_rejected := Generate.update_rejected env |}.

End Runtime.

End TemplateManager.

(* ===================================================================== *)
(** ** The property wizard: the amenities field                          *)
(* ===================================================================== *)

(** [components/wizard/video-editor.tsx], lines 358-376 (the list and
    [handleAmenityChange]) and line 668 (the check boxes). *)

Module PropertyWizard.

Definition AMENITY_LIST : list string :=
  ["Swimming Pool"; "Gym"; "Clubhouse"; "Play Area";
   "CCTV"; "Security"; "Power Backup"; "Lift";
   "Parking"; "Garden"].

(** [pattern] at the start of [s]. *)
Fixpoint starts_with (pattern s : string) : bool :=
  match pattern, s with
  | EmptyString, _ => true
  | String _ _, EmptyString => false
  | String a pattern', String b s' => Ascii.eqb a b && starts_with pattern' s'
  end.

(** [s.includes(pattern)] *)
Fixpoint includes (s pattern : string) : bool :=
  starts_with pattern s
  || match s with
     | EmptyString => false
     | String _ rest => includes rest pattern
     end.

(** [map.set(key, val)] on a [Map], whose entries keep the order in
    which their keys were first set. *)
Fixpoint map_set (key : string) (val : bool) (entries : list (string * bool))
  : list (string * bool) :=
  match entries with
  | [] => [(key, val)]
  | (k, v) :: rest =>
      if String.eqb k key then (key, val) :: rest
      else (k, v) :: map_set key val rest
  end.

(** The check of the box of [amenity]:
    [formData.amenities?.includes(`${amenity}:Yes`)], with the empty
    text for a field that is not set. *)
Definition isChecked (amenities amenity : string) : bool :=
  includes amenities (amenity +:+ ":Yes").

(** One entry of the map as a text. *)
Definition entry_text (entry : string * bool) : string :=
  let (key, val) := entry in key +:+ ":" +:+ (if val then "Yes" else "No").

(** [handleAmenityChange]: the text it hands to
    [handleInput('amenities', ...)], from the text of the field
    ([formData.amenities || '']). *)
Definition handleAmenityChange (amenities amenity : string) (checked : bool) : string :=
  let currentString := amenities in
  let newMap :=
    fold_left (fun m a => map_set a (includes currentString (a +:+ ":Yes")) m)
      AMENITY_LIST [] in
  let newMap := map_set amenity checked newMap in
  join " | " (List.map entry_text newMap).

End PropertyWizard.

(* ===================================================================== *)
(** ** The earlier gateway: second handler of [generate/route.ts]        *)
(* ===================================================================== *)

(** Lines 134-228 of the same file: the handler without the template
    registry.  The API key and the template id are literals in it, and
    no [webhook_url] is sent; from the retry loop to the end (lines
    168-227) it is, character for character, lines 68-127 of the
    current handler.  Of its environment it reads the user, the store
    and the renderer. *)
Module LegacyGenerate.

(** Lines 151-157: the row that is inserted. *)
Definition new_row (user_id : string) (propertyId modifications : jsval)
    (new_id : string) : Videos.Row :=
  {| Videos.id := new_id;
     Videos.user_id := user_id;
     Videos.property_id := match propertyId with Some p => p | None => JNull end;
     Videos.status := Some pending;
     Videos.script_content := Some "Creatomate Video Edit";
     Videos.video_url := JNull;
     Videos.meta :=
       Some (obj_put "modifications" modifications
               (obj_put "template" (Some (JStr "CREATOMATE_EDIT")) ∅)) |}.

(** Lines 161-166: the request body sent to the renderer. *)
Definition request_data (modifications : jsval) (video_id user_id : string) : json :=
  JObj ([("template_id", JStr "6ac80fd5-c928-4640-ac1c-c3a0bafac3c5")]
        ++ match modifications with Some m => [("modifications", m)] | None => [] end
        ++ [("metadata",
             JStr (JSON.stringify
                     (JObj [("videoId", JStr video_id); ("userId", JStr user_id)])))]).

Definition POST (env : Generate.Env) (req : Request) : M Response :=
  match Generate.user env with
  | None => ret (NextResponse_json (obj1 "error" (JStr "Unauthorized")) 401)
  | Some user_id =>
      (try_catch
         (let* body := await (req_json req) in
          let* modifications := await (destructure "modifications" "body" body) in
          let* propertyId := await (destructure "propertyId" "body" body) in
          let* (data_video, dbError) :=
            Generate.insert_select_single (Generate.insert_result env)
              (new_row user_id propertyId modifications) in
          match dbError, data_video with
          | Some e, _ => throw e
          | None, None => throw (TypeError "Cannot read properties of null (reading 'id')")
          | None, Some video =>
              let data := request_data modifications (Videos.id video) user_id in
              let* response := Generate.fetch_with_retry env data in
              let* result := await (Generate.json_body response) in
              (if_truthy (Generate.first_render result)
                 (fun render =>
                    update_eq (Generate.update_rejected env)
                              (Generate.render_update video render)
                              (JStr (Videos.id video)) ;;
                    ret tt)
                 (ret tt)) ;;
              ret (NextResponse_json
                     (JObj [("success", JBool true); ("videoId", JStr (Videos.id video))])
                     200)
          end)
         (fun error =>
            ret (NextResponse_json (obj1 "error" (JStr (message error))) 500)))%js
  end.

End LegacyGenerate.

(* ===================================================================== *)
(** ** Scenarios                                                         *)
(* ===================================================================== *)

Module Scenario.

(** Record [V1] as the gateway leaves it when the renderer answers
    ["queued"]. *)
Definition V1 (st : video_status) (url : json) : Videos.Row :=
  {| Videos.id := "V1";
     Videos.user_id := "U1";
     Videos.property_id := JStr "P1";
     Videos.status := Some st;
     Videos.script_content := Some "Creatomate Video Edit";
     Videos.video_url := url;
     Videos.meta :=
       Some (<["template" := JStr "CREATOMATE_EDIT"]>
               (<["creatomate_id" := JStr "R1"]> ∅)) |}.

Definition world (st : video_status) (url : json) : World :=
  {| videos := {[ "V1" := V1 st url ]}; effects := [] |}.

(** A callback of the renderer for [V1]. *)
Definition callback (status : string) (members : list (string * json)) : Request :=
  {| req_json := inr (JObj ([("id", JStr "R1"); ("status", JStr status)] ++ members)%list);
     req_origin := None |}.

Definition metadata_object : json :=
  JObj [("videoId", JStr "V1"); ("userId", JStr "U1")].

(** An empty table. *)
Definition empty : World := {| videos := ∅; effects := [] |}.

(** A signed-in user [U1] submits property [P1] without a template; the
    store creates the row under id [V1]. *)
Definition gateway (renderer : nat -> Generate.FetchOutcome) : Generate.Env :=
  {| Generate.user := Some "U1";
     Generate.CREATOMATE_API_KEY := Some "secret";
     Generate.NEXT_PUBLIC_APP_URL := Some "https://app.example";
     Generate.getTemplate := fun _ => JNull;
     Generate.applyTemplate := fun _ data => inr data;
     Generate.insert_result := inr "V1";
     Generate.renderer := renderer;
     Generate.update_rejected := None |}.

Definition modifications : json := JObj [("Title.text", JStr "Sea view")].

Definition submit : Request :=
  {| req_json := inr (JObj [("propertyId", JStr "P1"); ("modifications", modifications)]);
     req_origin := Some "https://app.example" |}.

(** The request body the gateway sends for it. *)
Definition data : json :=
  JObj [("template_id", JStr "6ac80fd5-c928-4640-ac1c-c3a0bafac3c5");
        ("modifications", modifications);
        ("metadata", JStr (JSON.stringify metadata_object));
        ("webhook_url", JStr "https://app.example/api/creatomate/webhook")].

(** Answers of the renderer. *)
Definition created (status : string) (members : list (string * json))
  : Generate.FetchResponse :=
  {| Generate.status := 200;
     Generate.json_body :=
       inr (JObj ([("id", JStr "R1"); ("status", JStr status)] ++ members)) |}.

Definition bad_request : Generate.FetchResponse :=
  {| Generate.status := 400;
     Generate.json_body := inr (JObj [("error", JStr "Invalid template")]) |}.

Definition always (r : Generate.FetchResponse) : nat -> Generate.FetchOutcome :=
  fun _ => Generate.Responded r.

Definition after_failures (f : nat) (r : Generate.FetchResponse)
  : nat -> Generate.FetchOutcome :=
  fun i => if (i <? f)%nat then Generate.Rejected (TypeError "fetch failed")
           else Generate.Responded r.

Definition bad_request_then (r : Generate.FetchResponse) : nat -> Generate.FetchOutcome :=
  fun i => match i with
           | O => Generate.Responded bad_request
           | S _ => Generate.Responded r
           end.

End Scenario.

(** A registry with one template file, [villa.json], in a runtime in
    which the keys of the data name no inherited member. *)
Module Registry.

Definition villa : json :=
  JObj [("id", JStr "T-villa");
        ("name", JStr "Villa tour");
        ("modifications",
         JObj [("Title.text", JStr "{{title}} in {{address.city}}");
               ("Title.duration", JNull);
               ("Price.text", JStr "from {{price}}")])].

Definition files (name : string) : option string :=
  if String.eqb name "villa.json" then Some (JSON.stringify villa) else None.

Definition inherited (x : json) (ks : list string) : option (Exn + string) := None.

Definition gateway : Generate.Env :=
  TemplateManager.install files inherited
    (Scenario.gateway (Scenario.always (Scenario.created "planned" []))).

Definition body (templateId : string) : json :=
  JObj [("propertyId", JStr "P1");
        ("templateId", JStr templateId);
        ("modifications", Scenario.modifications);
        ("data", JObj [("title", JStr "Sea view");
                       ("address", JObj [("city", JStr "Goa")])])].

Definition submit (templateId : string) : Request :=
  {| req_json := inr (body templateId); req_origin := Some "https://app.example" |}.

(** What the registry makes of [villa] and the data of [submit]. *)
Definition applied : json :=
  JObj [("Title.text", JStr "Sea view in Goa");
        ("Title.duration", JNull);
        ("Price.text", JStr "from ")].

End Registry.

(** A store that takes reads and inserts but rejects every update, and
    renderers whose answers end the example runs of the gateway. *)
Module Faults.

Definition read_only (env : Generate.Env) : Generate.Env :=
  {| Generate.user := Generate.user env;
     Generate.CREATOMATE_API_KEY := Generate.CREATOMATE_API_KEY env;
     Generate.NEXT_PUBLIC_APP_URL := Generate.NEXT_PUBLIC_APP_URL env;
     Generate.getTemplate := Generate.getTemplate env;
     Generate.applyTemplate := Generate.applyTemplate env;
     Generate.insert_result := Generate.insert_result env;
     Generate.renderer := Generate.renderer env;
     Generate.update_rejected := Some "permission denied for table videos" |}.


End Faults.

(* ===================================================================== *)
(** ** Observations and properties as the specification words them      *)
(* ===================================================================== *)

(** The number of HTTP calls in a trace. *)
Fixpoint attempts (tr : list Effect) : nat :=
  match tr with
  | [] => O
  | Fetch _ :: rest => S (attempts rest)
  | Delay _ :: rest => attempts rest
  end.

(** The waits of a trace, in order. *)
Fixpoint delays (tr : list Effect) : list Z :=
  match tr with
  | [] => []
  | Delay ms :: rest => ms :: delays rest
  | Fetch _ :: rest => delays rest
  end.

(** The wait before the call of loop index [i] (line 75). *)
Definition backoff (i : nat) : Z := 500 * 2 ^ (Z.of_nat i - 1).

(** The trace of a call followed by [retries] retries, each after its
    wait. *)
Definition retry_trace (data : json) (retries : nat) : list Effect :=
  Fetch data :: flat_map (fun i => [Delay (backoff i); Fetch data]) (seq 1 retries).

(** The two paths that touch a record after its creation, and a
    history of them. *)
Inductive Event : Type :=
| Delivery (env : Webhook.Env) (req : Request)
| Read (fails : bool) (videoId : string) (st : UseVideoStatus.State).

Definition step (e : Event) (w : World) : World :=
  match e with
  | Delivery env req => snd (Webhook.POST env req w)
  | Read fails videoId st => snd (UseVideoStatus.tick fails videoId st w)
  end.

Definition run (history : list Event) (w : World) : World :=
  fold_left (fun w e => step e w) history w.

(** The three states of the observed flow. *)
Definition in_lifecycle (s : option video_status) : Prop :=
  s = Some pending \/ s = Some completed \/ s = Some failed.

(** Lines 39-45: the renderer's template id, the one of the registered
    template when the request names one that has a truthy [id]. *)
Definition creatomateTemplateId (env : Generate.Env) (templateId : jsval) : json :=
  match templateId with
  | Some t =>
      if truthy templateId then
        match opt_get "id" (Some (Generate.getTemplate env t)) with
        | Some tid =>
            if truthy (Some tid) then tid
            else JStr "6ac80fd5-c928-4640-ac1c-c3a0bafac3c5"
        | None => JStr "6ac80fd5-c928-4640-ac1c-c3a0bafac3c5"
        end
      else JStr "6ac80fd5-c928-4640-ac1c-c3a0bafac3c5"
  | None => JStr "6ac80fd5-c928-4640-ac1c-c3a0bafac3c5"
  end.

(** What a run of lines 34-122 for user [uid] leaves behind once the
    insert went through: one new row under the id the store issued (as
    inserted, or with the update of lines 109-119 applied) and the trace
    of the retry loop. *)
Definition left_by_generate (env : Generate.Env) (uid : string) (origin : option string)
    (pid tid mods : jsval) (new_id : string) (w w' : World) : Prop :=
  exists ctid k row1,
    Generate.insert_result env = inr new_id
    /\ videos w !! new_id = None
    /\ (k < Generate.maxRetries)%nat
    /\ (row1 = Generate.new_row uid pid tid mods new_id
        \/ exists render,
             row1 = Videos.apply
                      (Generate.render_update
                         (Generate.new_row uid pid tid mods new_id) render)
                      (Generate.new_row uid pid tid mods new_id))
    /\ w' = {| videos := <[new_id := row1]> (videos w);
               effects :=
                 effects w ++
                 retry_trace (Generate.request_data env ctid mods new_id uid origin) k |}.

(** The ten boxes as the form shows them for a text of the field. *)
Definition ticks (amenities : string) : list bool :=
  List.map (PropertyWizard.isChecked amenities) PropertyWizard.AMENITY_LIST.

(** The search for [pattern] in the texts [es] joined by [" | "], one
    text at a time, each with the blank that comes before and after
    it; [pre] is what stands before the first. *)
Fixpoint scan (pre : string) (es : list string) (pattern : string) : bool :=
  match es with
  | [] => PropertyWizard.includes pre pattern
  | [e] => PropertyWizard.includes (pre +:+ e +:+ "") pattern
  | e :: rest =>
      PropertyWizard.includes (pre +:+ e +:+ " ") pattern || scan " " rest pattern
  end.

(** The entry of amenity [k], with or without a blank before and after
    it, holds the pattern of amenity [a] only when [k] is [a] and the
    entry says yes: checked for all amenities. *)
Definition entries_checked : bool :=
  forallb (fun k =>
    forallb (fun a =>
      forallb (fun b =>
        forallb (fun pre =>
          forallb (fun post =>
            Bool.eqb (PropertyWizard.includes
                        (pre +:+ PropertyWizard.entry_text (k, b) +:+ post)
                        (a +:+ ":Yes"))
                     (String.eqb k a && b))
            [""; " "])
          [""; " "])
        [true; false])
      PropertyWizard.AMENITY_LIST)
    PropertyWizard.AMENITY_LIST.

(** The metadata of a payload names the job [vid]: [videoId] is a
    member of the metadata itself when that is not a text, and of the
    value the text stands for when it is a text of the exact
    fragment. *)
Definition names_job (metadata : jsval) (vid : json) : Prop :=
  (exists v, metadata = Some v /\ (forall s, v <> JStr s)
             /\ opt_get "videoId" (Some v) = Some vid)
  \/ (exists s v, metadata = Some (JStr s) /\ Fragment.text s = true
                  /\ JSON.parse s = Some v /\ opt_get "videoId" (Some v) = Some vid).

(** The metadata of a payload carries no internal job id: there is no
    metadata; or it is not a text and has no truthy [videoId]; or it is
    a text of the exact fragment that is not JSON or stands for a value
    without a truthy [videoId]. *)
Definition carries_no_job_id (metadata : jsval) : Prop :=
  metadata = None
  \/ (exists v, metadata = Some v /\ (forall s, v <> JStr s)
                /\ truthy (opt_get "videoId" (Some v)) = false)
  \/ (exists s, metadata = Some (JStr s) /\ Fragment.text s = true
                /\ match JSON.parse s with
                   | Some v => truthy (opt_get "videoId" (Some v)) = false
                   | None => True
                   end).

(** A request that gets as far as the renderer: a signed-in user, a
    body that is read as JSON and is not [null], the template (when
    one is named) found and applied, an API key, and an insert that the
    store serves under a fresh id. *)
Definition reaches_renderer (env : Generate.Env) (req : Request) (w : World)
    (uid : string) (body : json) (new_id : string) : Prop :=
  Generate.user env = Some uid
  /\ req_json req = inr body
  /\ body <> JNull
  /\ (truthy (opt_get "templateId" (Some body)) = false
      \/ exists t applied,
           opt_get "templateId" (Some body) = Some t
           /\ truthy (Some t) = true
           /\ truthy (Some (Generate.getTemplate env t)) = true
           /\ Generate.applyTemplate env (Generate.getTemplate env t)
                match opt_get "data" (Some body) with
                | Some d => if truthy (opt_get "data" (Some body)) then d else JObj []
                | None => JObj []
                end = inr applied)
  /\ (exists apiKey, Generate.CREATOMATE_API_KEY env = Some apiKey /\ apiKey <> "")
  /\ Generate.insert_result env = inr new_id
  /\ videos w !! new_id = None.


(** The first 2xx answer of the renderer is [r], to call [f] of the
    budget: every call before it fails in transport or is answered
    with another status. *)
Definition first_success (env : Generate.Env) (f : nat) (r : Generate.FetchResponse)
  : Prop :=
  (f < Generate.maxRetries)%nat
  /\ (forall j, (j < f)%nat ->
                match Generate.renderer env j with
                | Generate.Rejected _ => True
                | Generate.Responded r' => Generate.ok r' = false
                end)
  /\ Generate.renderer env f = Generate.Responded r
  /\ Generate.ok r = true.

(** The render that the body [result] of an answer reports is the
    object with the members [render]: the body itself, or the first
    item of the body when that is an array. *)
Definition reports (result : json) (render : list (string * json)) : Prop :=
  result = JObj render \/ exists rest, result = JArr (JObj render :: rest).


(** "For every authenticated generation request in which the provider's
    synchronous creation response reports status 'succeeded' and a
    result URL, the resulting job record has status 'completed' and
    video_url equal to that URL; for every other synchronous provider
    status, the record's status remains 'pending'." *)
Definition synchronous_status_is_recorded : Prop :=
  forall (env : Generate.Env) (req : Request) (w : World) (uid : string) (body : json)
         (new_id : string) (f : nat) (r : Generate.FetchResponse) (result : json),
    reaches_renderer env req w uid body new_id ->
    first_success env f r ->
    Generate.json_body r = inr result ->
    exists row,
      videos (snd (Generate.POST env req w)) !! new_id = Some row
      /\ (forall render url,
            reports result render ->
            lookup_member "status" render = Some (JStr "succeeded") ->
            lookup_member "url" render = Some url ->
            Videos.status row = Some completed /\ Videos.video_url row = url)
      /\ ((forall render, reports result render ->
                          lookup_member "status" render <> Some (JStr "succeeded")) ->
          Videos.status row = Some pending).

(** "No transition out of a terminal state is possible through the
    webhook or poller paths." *)
Definition terminal_states_are_final : Prop :=
  forall (env : Webhook.Env) (req : Request) (fails : bool) (videoId : string)
         (st : UseVideoStatus.State) (w : World) (vid : string) (row : Videos.Row)
         (s : video_status),
    videos w !! vid = Some row ->
    Videos.status row = Some s ->
    terminal s = true ->
    (forall row', videos (snd (Webhook.POST env req w)) !! vid = Some row' ->
                  Videos.status row' = Some s) /\
    (forall row', videos (snd (UseVideoStatus.tick fails videoId st w)) !! vid = Some row' ->
                  Videos.status row' = Some s).

(* ===================================================================== *)
(** ** [JSON.parse] reads back what [JSON.stringify] prints              *)
(* ===================================================================== *)

Example parse_metadata_sample :
  JSON.parse (text ["{ "; "videoId"; ": "; "V1"; ", "; "userId"; " :"; "U1"; ",";
                    "n"; ":[-12, 0,true,null,{}] }"])
  = Some (JObj [("videoId", JStr "V1"); ("userId", JStr "U1");
                ("n", JArr [JNum (-12); JNum 0; JBool true; JNull; JObj []])]).
Proof. vm_compute. reflexivity. Qed.

Example stringify_sample :
  JSON.stringify (JObj [("videoId", JStr (text ["V"; "1"]));
                        ("k", JArr [JNum (-3); JNull])])
  = text ["{"; "videoId"; ":"; "V\"; "1"; ","; "k"; ":[-3,null]}"].
Proof. vm_compute. reflexivity. Qed.

Example parse_rejects :
  JSON.parse "{videoId:1}" = None /\ JSON.parse "01" = None /\
  JSON.parse "[1,]" = None /\ JSON.parse "V1" = None /\ JSON.parse "" = None /\
  JSON.parse "1 2" = None /\ JSON.parse "-" = None.
Proof. vm_compute. repeat split. Qed.

Example parse_escapes_and_duplicates :
  JSON.parse (text ["["; "a\u0041\n\/"; ", {"; "k"; ":1,"; "k"; ":2} ]"])
  = Some (JArr [JStr (String "a" (String "A" (String "010" (String "/" ""))));
                JObj [("k", JNum 1); ("k", JNum 2)]])
  /\ opt_get "k" (Some (JObj [("k", JNum 1); ("k", JNum 2)])) = Some (JNum 2).
Proof. vm_compute. split; reflexivity. Qed.

Section JSON_roundtrip.
Import JSON.
#[local] Open Scope list_scope.

(** *** Strings *)

Lemma parse_chars_escape_char c rest :
  parse_chars (escape_char c ++ rest)
  = match parse_chars rest with
    | Some (s, r) => Some (String c s, r)
    | None => None
    end.
Proof.
  destruct c as [[] [] [] [] [] [] [] []]; reflexivity.
Qed.

Lemma parse_chars_escape s rest :
  parse_chars (escape s ++ "034"%char :: rest) = Some (s, rest).
Proof.
  induction s as [|c s IH]; [reflexivity|].
  cbn [escape]. rewrite <- app_assoc, parse_chars_escape_char, IH. reflexivity.
Qed.

(** *** Numbers *)

Lemma span_num_app tok rest :
  forallb is_num_char tok = true -> ok_rest rest ->
  span_num (tok ++ rest) = (tok, rest).
Proof.
  intros Htok Hrest. induction tok as [|c tok IH]; cbn in *.
  - destruct rest as [|c r]; [done|]. cbn in *. by rewrite Hrest.
  - apply andb_prop in Htok as [Hc Htok]. by rewrite Hc, IH.
Qed.

Lemma digits_num_chars d :
  forallb is_num_char (list_ascii_of_string (NilEmpty.string_of_uint d)) = true.
Proof. induction d; cbn; done. Qed.

Lemma nz_digits_num_chars d :
  forallb is_num_char (list_ascii_of_string (NilZero.string_of_uint d)) = true.
Proof. destruct d; try apply (digits_num_chars (_ d)); reflexivity. Qed.

Lemma string_of_Z_num_chars n :
  forallb is_num_char (list_ascii_of_string (string_of_Z n)) = true.
Proof.
  unfold string_of_Z. destruct n as [|p|p]; [reflexivity| |].
  - apply nz_digits_num_chars.
  - cbn [Z.to_int NilZero.string_of_int list_ascii_of_string forallb].
    by rewrite nz_digits_num_chars.
Qed.

Lemma number_of_token_string_of_Z n : number_of_token (string_of_Z n) = Some n.
Proof.
  unfold number_of_token, string_of_Z.
  rewrite NilZero.isi.
  - rewrite DecimalZ.of_to. by rewrite String.eqb_refl.
  - destruct n; cbn; try discriminate. intros [= H]. by apply Unsigned.to_uint_nonnil in H.
  - destruct n; cbn; try discriminate. intros [= H]. by apply Unsigned.to_uint_nonnil in H.
Qed.

Lemma parse_number_print n rest :
  ok_rest rest ->
  parse_number (list_ascii_of_string (string_of_Z n) ++ rest) = Some (n, rest).
Proof.
  intros Hrest. unfold parse_number.
  rewrite span_num_app by (apply string_of_Z_num_chars || done).
  by rewrite string_of_list_ascii_of_string, number_of_token_string_of_Z.
Qed.

Lemma string_of_Z_nonempty n :
  exists c l, list_ascii_of_string (string_of_Z n) = c :: l /\ is_num_char c = true.
Proof.
  pose proof (string_of_Z_num_chars n) as H.
  destruct (list_ascii_of_string (string_of_Z n)) as [|c l] eqn:E.
  - exfalso. unfold string_of_Z in E. destruct n as [|p|p]; cbn in E; try discriminate.
    destruct (Pos.to_uint p) eqn:Ep; cbn in E; try discriminate.
  - exists c, l. split; [done|]. cbn in H. by apply andb_prop in H as [? _].
Qed.

(** *** Values *)

Lemma print_JArr items : print (JArr items) = "["%char :: print_elems items ++ ["]"%char].
Proof. reflexivity. Qed.
Lemma print_JObj ms : print (JObj ms) = "{"%char :: print_membs ms ++ ["}"%char].
Proof. reflexivity. Qed.

Lemma print_starts v : exists c l, print v = c :: l /\ value_start c = true.
Proof.
  destruct v as [| [] | n | s | items | ms]; try (eexists _, _; split; [reflexivity|reflexivity]).
  destruct (string_of_Z_nonempty n) as (c & l & E & Hc).
  exists c, l. split; [exact E|]. unfold value_start. rewrite Hc. by rewrite !orb_true_r.
Qed.

Lemma value_start_facts c :
  value_start c = true ->
  is_ws c = false /\ Ascii.eqb c "]" = false /\ Ascii.eqb c "}" = false.
Proof. destruct c as [[] [] [] [] [] [] [] []]; cbv; intros; try discriminate; done. Qed.

Lemma num_char_facts c :
  is_num_char c = true ->
  is_ws c = false /\ Ascii.eqb c "n" = false /\ Ascii.eqb c "t" = false /\
  Ascii.eqb c "f" = false /\ Ascii.eqb c "034" = false /\ Ascii.eqb c "[" = false /\
  Ascii.eqb c "{" = false.
Proof. destruct c as [[] [] [] [] [] [] [] []]; cbv; intros; try discriminate; done. Qed.

Lemma skip_ws_print v rest : skip_ws (print v ++ rest) = print v ++ rest.
Proof.
  destruct (print_starts v) as (c & l & -> & Hc).
  apply value_start_facts in Hc as (Hws & _). cbn. by rewrite Hws.
Qed.

Lemma parse_value_leaf_num fuel n rest :
  ok_rest rest ->
  parse_value (S fuel) (print (JNum n) ++ rest) = Some (JNum n, rest).
Proof.
  intros Hrest. pose proof (parse_number_print n rest Hrest) as Hp.
  cbn [print] in *.
  destruct (string_of_Z_nonempty n) as (c & l & E & Hc). rewrite E in *.
  apply num_char_facts in Hc as Hf. destruct Hf as (Hws & H1 & H2 & H3 & H4 & H5 & H6).
  cbn [parse_value app skip_ws]. rewrite Hws, H1, H2, H3, H4, H5, H6, Hc.
  cbn [app] in Hp. by rewrite Hp.
Qed.

Lemma sizes_cons x r : sizes (x :: r) = S (size x + sizes r).
Proof. reflexivity. Qed.
Lemma msizes_cons k x r : msizes ((k, x) :: r) = S (size x + msizes r).
Proof. reflexivity. Qed.
Lemma size_JArr items : size (JArr items) = S (sizes items).
Proof. reflexivity. Qed.
Lemma size_JObj ms : size (JObj ms) = S (msizes ms).
Proof. reflexivity. Qed.

Lemma print_elems_cons2 x y r :
  print_elems (x :: y :: r) = print x ++ ","%char :: print_elems (y :: r).
Proof. reflexivity. Qed.
Lemma print_membs_cons2 k x kv r :
  print_membs ((k, x) :: kv :: r)
  = quote k ++ ":"%char :: print x ++ ","%char :: print_membs (kv :: r).
Proof. reflexivity. Qed.

Lemma parse_elements_S fuel s :
  parse_elements (S fuel) s
  = match parse_value fuel s with
    | Some (v, r) =>
        match skip_ws r with
        | c :: r' =>
            if Ascii.eqb c "," then
              match parse_elements fuel r' with
              | Some (vs, r'') => Some (v :: vs, r'')
              | None => None
              end
            else if Ascii.eqb c "]" then Some ([v], r')
            else None
        | [] => None
        end
    | None => None
    end.
Proof. reflexivity. Qed.

Lemma parse_elements_print items :
  Forall parses items -> items <> [] ->
  forall fuel rest, (sizes items <= fuel)%nat ->
    parse_elements fuel (print_elems items ++ "]"%char :: rest) = Some (items, rest).
Proof.
  induction 1 as [|x r Hx Hr IH]; [done|]. intros _ fuel rest Hfuel.
  rewrite sizes_cons in Hfuel.
  destruct fuel as [|fuel]; [lia|]. rewrite parse_elements_S.
  destruct r as [|y r'].
  - cbn [print_elems]. rewrite Hx by (lia || done). reflexivity.
  - rewrite print_elems_cons2, <- app_assoc. cbn [app].
    rewrite Hx by (lia || done). cbn [skip_ws is_ws Ascii.eqb Bool.eqb orb].
    rewrite IH by (done || lia). reflexivity.
Qed.

Lemma parse_members_S fuel s :
  parse_members (S fuel) s
  = match skip_ws s with
    | q :: r0 =>
        if Ascii.eqb q "034" then
          match parse_chars r0 with
          | Some (k, r1) =>
              match skip_ws r1 with
              | colon :: r2 =>
                  if Ascii.eqb colon ":" then
                    match parse_value fuel r2 with
                    | Some (v, r3) =>
                        match skip_ws r3 with
                        | c :: r4 =>
                            if Ascii.eqb c "," then
                              match parse_members fuel r4 with
                              | Some (ms, r5) => Some ((k, v) :: ms, r5)
                              | None => None
                              end
                            else if Ascii.eqb c "}" then Some ([(k, v)], r4)
                            else None
                        | [] => None
                        end
                    | None => None
                    end
                  else None
              | [] => None
              end
          | None => None
          end
        else None
    | [] => None
    end.
Proof. reflexivity. Qed.

Ltac flat := rewrite <- ?app_assoc; cbn [app skip_ws is_ws Ascii.eqb Bool.eqb orb].

Lemma parse_members_print ms :
  Forall (fun kv => parses (snd kv)) ms -> ms <> [] ->
  forall fuel rest, (msizes ms <= fuel)%nat ->
    parse_members fuel (print_membs ms ++ "}"%char :: rest) = Some (ms, rest).
Proof.
  induction 1 as [|[k x] r Hx Hr IH]; [done|]. intros _ fuel rest Hfuel.
  rewrite msizes_cons in Hfuel. cbn [snd] in Hx.
  destruct fuel as [|fuel]; [lia|]. rewrite parse_members_S.
  destruct r as [|kv r'].
  - cbn [print_membs]. unfold quote. flat. flat. rewrite parse_chars_escape. flat.
    rewrite Hx by (lia || done). reflexivity.
  - rewrite print_membs_cons2. unfold quote at 1. flat. flat.
    rewrite parse_chars_escape. flat. flat.
    rewrite Hx by (lia || done). flat.
    rewrite IH by (done || lia). reflexivity.
Qed.

Lemma parse_value_print v : parses v.
Proof.
  induction v as [| b | n | s | items IH | ms IH] using json_ind'; intros fuel rest Hfuel Hrest;
    (destruct fuel as [|fuel]; [cbn in Hfuel; lia|]).
  - reflexivity.
  - by destruct b.
  - by apply parse_value_leaf_num.
  - cbn [print]. unfold quote. cbn [app parse_value skip_ws is_ws Ascii.eqb Bool.eqb orb].
    flat. by rewrite parse_chars_escape.
  - rewrite print_JArr, size_JArr in *. cbn [app parse_value skip_ws is_ws Ascii.eqb Bool.eqb orb].
    rewrite <- app_assoc. cbn [app].
    destruct items as [|x r]; [reflexivity|].
    destruct (print_starts x) as (c & l & E & Hc).
    assert (Hs : exists l', print_elems (x :: r) = c :: l').
    { destruct r; [cbn [print_elems]|rewrite print_elems_cons2]; rewrite E; eauto. }
    destruct Hs as (l' & Hl').
    pose proof (parse_elements_print (x :: r) IH ltac:(done) fuel rest ltac:(lia)) as Hp.
    rewrite Hl' in *. cbn [app] in *.
    apply value_start_facts in Hc as (Hws & Hb & _).
    cbn [skip_ws]. rewrite Hws, Hb, Hp. reflexivity.
  - rewrite print_JObj, size_JObj in *. cbn [app parse_value skip_ws is_ws Ascii.eqb Bool.eqb orb].
    rewrite <- app_assoc. cbn [app].
    destruct ms as [|[k x] r]; [reflexivity|].
    assert (Hs : exists l', print_membs ((k, x) :: r) = "034"%char :: l').
    { destruct r; [cbn [print_membs]|rewrite print_membs_cons2]; unfold quote; cbn [app]; eauto. }
    destruct Hs as (l' & Hl').
    pose proof (parse_members_print ((k, x) :: r) IH ltac:(done) fuel rest ltac:(lia)) as Hp.
    rewrite Hl' in *. cbn [app] in *.
    cbn [skip_ws is_ws Ascii.eqb Bool.eqb orb]. rewrite Hp. reflexivity.
Qed.

Lemma length_escape_char c : (1 <= List.length (escape_char c))%nat.
Proof. destruct c as [[] [] [] [] [] [] [] []]; cbv; lia. Qed.

Lemma size_le_print v : (size v <= 2 * List.length (print v))%nat.
Proof.
  induction v as [| b | n | s | items IH | ms IH] using json_ind'.
  - cbn; lia.
  - destruct b; cbn; lia.
  - destruct (string_of_Z_nonempty n) as (c & l & E & _). cbn [print size]. rewrite E. cbn; lia.
  - cbn [print size]. unfold quote. cbn; lia.
  - rewrite print_JArr, size_JArr. cbn [List.length]. rewrite length_app. cbn [List.length].
    assert (sizes items <= 2 * List.length (print_elems items) + 1)%nat; [|lia].
    induction IH as [|x r Hx Hr IHr]; [cbn; lia|].
    rewrite sizes_cons. destruct r as [|y r'].
    + cbn [print_elems sizes]. lia.
    + rewrite print_elems_cons2, length_app. cbn [List.length]. lia.
  - rewrite print_JObj, size_JObj. cbn [List.length]. rewrite length_app. cbn [List.length].
    assert (msizes ms <= 2 * List.length (print_membs ms) + 1)%nat; [|lia].
    induction IH as [|[k x] r Hx Hr IHr]; [cbn; lia|]. cbn [snd] in Hx.
    rewrite msizes_cons. destruct r as [|y r'].
    + cbn [print_membs msizes]. rewrite length_app. cbn [List.length]. lia.
    + rewrite print_membs_cons2, length_app. cbn [List.length]. rewrite length_app.
      cbn [List.length]. lia.
Qed.

(** [JSON.parse(JSON.stringify(v))] gives [v] back. *)
Lemma parse_stringify v : JSON.parse (JSON.stringify v) = Some v.
Proof.
  unfold JSON.parse, JSON.stringify. rewrite list_ascii_of_string_of_list_ascii.
  pose proof (parse_value_print v (2 * List.length (print v) + 2)%nat []) as H.
  rewrite app_nil_r in H. rewrite H; [reflexivity| |exact I].
  pose proof (size_le_print v). lia.
Qed.

End JSON_roundtrip.

(* ===================================================================== *)
(** ** The webhook receiver                                              *)
(* ===================================================================== *)

Ltac run :=
  cbv beta iota delta
    [bind try_catch await ret throw if_truthy select_single update_eq emit];
  cbn beta iota delta [req_json req_origin fst snd videos effects].

Lemma destructure_nonnull k src v :
  v <> JNull -> destructure k src v = inr (opt_get k (Some v)).
Proof. destruct v; simpl; congruence. Qed.

Lemma null_or_not (v : json) : v = JNull \/ v <> JNull.
Proof. destruct v; (by left) || (by right). Qed.

Lemma truthy_get_nonnull k v : truthy (opt_get k (Some v)) = true -> v <> JNull.
Proof. by intros H ->. Qed.

(** The state after a delivery: one statement applied to the row the
    metadata names, or nothing. *)
Lemma webhook_state env req w :
  snd (Webhook.POST env req w)
  = match req_json req with
    | inl _ => w
    | inr body =>
        match Webhook.videoId (opt_get "metadata" (Some body)) with
        | Some vid =>
            if truthy (opt_get "id" (Some body)) && truthy (opt_get "status" (Some body))
               && truthy (Some vid)
            then match Webhook.update_rejected env with
                 | Some _ => w
                 | None =>
                     {| videos :=
                          alter (Videos.apply
                                   (Webhook.updateData
                                      (if Webhook.select_fails env then None
                                       else videos w !! ToString vid)
                                      (opt_get "id" (Some body)) (opt_get "url" (Some body))
                                      (opt_get "status" (Some body))))
                                (ToString vid) (videos w);
                        effects := effects w |}
                 end
            else w
        | None => w
        end
    end.
Proof.
  unfold Webhook.POST, Webhook.try_block. destruct req as [[e|body] origin]; run; [done|].
  destruct (null_or_not body) as [->|Hn]; [done|].
  rewrite !destructure_nonnull by done.
  destruct (truthy (opt_get "id" (Some body))); [|by destruct (Webhook.videoId _)].
  destruct (truthy (opt_get "status" (Some body))); [|by destruct (Webhook.videoId _)].
  cbn [negb orb andb].
  destruct (Webhook.videoId _) as [vid|] eqn:Hvid; [|done].
  destruct (truthy (Some vid)) eqn:Ht; [|done].
  destruct (Webhook.update_rejected env); done.
Qed.

(** The response does not depend on the table. *)
Lemma webhook_response env req w w' :
  fst (Webhook.POST env req w) = fst (Webhook.POST env req w').
Proof.
  unfold Webhook.POST, Webhook.try_block. destruct req as [[e|body] origin]; run; [done|].
  destruct (null_or_not body) as [->|Hn]; [done|].
  rewrite !destructure_nonnull by done.
  destruct (negb _ || negb _); [done|].
  destruct (Webhook.videoId _) as [vid|] eqn:Hvid; [|done].
  destruct (truthy (Some vid)) eqn:Ht; [|done].
  destruct (Webhook.update_rejected env); done.
Qed.

(** The handler reads the payload through four properties only. *)
Lemma webhook_ext env b1 b2 origin w :
  b1 <> JNull -> b2 <> JNull ->
  opt_get "id" (Some b1) = opt_get "id" (Some b2) ->
  opt_get "status" (Some b1) = opt_get "status" (Some b2) ->
  opt_get "url" (Some b1) = opt_get "url" (Some b2) ->
  Webhook.videoId (opt_get "metadata" (Some b1))
  = Webhook.videoId (opt_get "metadata" (Some b2)) ->
  Webhook.POST env {| req_json := inr b1; req_origin := origin |} w
  = Webhook.POST env {| req_json := inr b2; req_origin := origin |} w.
Proof.
  intros H1 H2 Hid Hst Hurl Hvid. unfold Webhook.POST, Webhook.try_block. run.
  rewrite !destructure_nonnull by done. by rewrite Hid, Hst, Hurl, Hvid.
Qed.

(** Falsy [id] or [status]: lines 9-11. *)
Lemma webhook_invalid env body origin w :
  body <> JNull ->
  truthy (opt_get "id" (Some body)) && truthy (opt_get "status" (Some body)) = false ->
  Webhook.POST env {| req_json := inr body; req_origin := origin |} w
  = (Normal (NextResponse_json (obj1 "error" (JStr "Invalid payload")) 400), w).
Proof.
  intros Hn Hf. unfold Webhook.POST, Webhook.try_block. run.
  rewrite !destructure_nonnull by done.
  destruct (truthy (opt_get "id" (Some body))), (truthy (opt_get "status" (Some body)));
    cbn in Hf |- *; done.
Qed.

Lemma lookup_obj_put k v (o : gmap string json) j :
  obj_put k v o !! j = if decide (k = j) then v else o !! j.
Proof.
  unfold obj_put. destruct v.
  - rewrite lookup_insert. by case_decide.
  - rewrite lookup_delete. by case_decide.
Qed.

(** Merging the same three fields again changes nothing. *)
Lemma merged_meta_idem cur id url st :
  Webhook.merged_meta (Some (Webhook.merged_meta cur id url st)) id url st
  = Webhook.merged_meta cur id url st.
Proof.
  unfold Webhook.merged_meta. apply map_eq. intros j. cbn [spread].
  rewrite !lookup_obj_put. repeat case_decide; done.
Qed.

(** The merge leaves every other key as it was. *)
Lemma merged_meta_frame cur id url st k :
  k <> "creatomate_id" -> k <> "render_url" -> k <> "last_webhook_status" ->
  Webhook.merged_meta cur id url st !! k = spread cur !! k.
Proof.
  intros. unfold Webhook.merged_meta. rewrite !lookup_obj_put.
  repeat case_decide; congruence.
Qed.

(** Applying the statement of a delivery to a row it has already been
    applied to gives the same row, whether the select served both times
    or failed both times. *)
Lemma apply_updateData_twice (sf : bool) row id url st :
  let once :=
    Videos.apply (Webhook.updateData (if sf then None else Some row) id url st) row in
  Videos.apply (Webhook.updateData (if sf then None else Some once) id url st) once = once.
Proof.
  destruct row as [i u p s sc vu m]. unfold Videos.apply, Webhook.updateData.
  destruct sf; cbn; f_equal; try by destruct url.
  by rewrite merged_meta_idem.
Qed.

Lemma apply_updateData_again (sf : bool) row id url st :
  let once := Videos.apply (Webhook.updateData (Some row) id url st) row in
  Videos.apply (Webhook.updateData (if sf then None else Some once) id url st) once = once.
Proof.
  destruct row as [i u p s sc vu m]. unfold Videos.apply, Webhook.updateData.
  destruct sf; cbn; f_equal; try by destruct url.
  by rewrite merged_meta_idem.
Qed.

Lemma webhook_second_delivery env req w :
  snd (Webhook.POST env req (snd (Webhook.POST env req w)))
  = snd (Webhook.POST env req w).
Proof.
  rewrite (webhook_state env req (snd _)). rewrite !webhook_state.
  destruct (req_json req) as [e|body]; [done|].
  destruct (Webhook.videoId _) as [vid|]; [|done].
  destruct (_ && _ && _); [|done].
  destruct (Webhook.update_rejected env); [done|].
  cbn [videos effects]. f_equal. apply map_eq. intros j. rewrite !lookup_alter.
  case_decide; [|done]. subst j. rewrite !decide_True by done.
  destruct (videos w !! ToString vid) as [row|] eqn:Hrow; [|done].
  cbn [fmap option_fmap option_map]. f_equal.
  destruct (Webhook.select_fails env) eqn:Hsf.
  - apply (apply_updateData_twice true).
  - apply (apply_updateData_twice false).
Qed.

(** After a delivery that the store served, a second delivery of the
    same payload changes nothing, however the store behaves then. *)
Lemma webhook_redelivery_after_healthy env2 req w :
  let w1 := snd (Webhook.POST Webhook.healthy req w) in
  snd (Webhook.POST env2 req w1) = w1.
Proof.
  intros w1. subst w1. rewrite (webhook_state env2). rewrite !webhook_state.
  destruct (req_json req) as [e|body]; [done|].
  destruct (Webhook.videoId _) as [vid|]; [|done].
  destruct (_ && _ && _); [|done].
  cbn [Webhook.healthy Webhook.update_rejected Webhook.select_fails videos effects].
  destruct (Webhook.update_rejected env2); [done|].
  f_equal. apply map_eq. intros j. rewrite !lookup_alter.
  case_decide; [|done]. subst j. rewrite !decide_True by done.
  destruct (videos w !! ToString vid) as [row|] eqn:Hrow; [|done].
  cbn [fmap option_fmap option_map]. f_equal. apply apply_updateData_again.
Qed.

(** C5: the webhook receiver is idempotent.  Delivering the same
    payload a second time gives the same response and leaves the table
    (status, video_url and merged metadata of every row) exactly as the
    first delivery left it. *)
Theorem webhook_idempotent env req w :
  Webhook.POST env req (snd (Webhook.POST env req w)) = Webhook.POST env req w.
Proof.
  rewrite (surjective_pairing (Webhook.POST env req (snd _))).
  rewrite (surjective_pairing (Webhook.POST env req w)) at 3.
  f_equal; [apply webhook_response | apply webhook_second_delivery].
Qed.

(** C10: a payload that lacks the [id] field or the [status] field is
    answered with status 400 and the message "Invalid payload", and no
    row is written; it is not acknowledged. *)
Theorem webhook_rejects_incomplete_payload env ms origin w :
  lookup_member "id" ms = None \/ lookup_member "status" ms = None ->
  Webhook.POST env {| req_json := inr (JObj ms); req_origin := origin |} w
  = (Normal (NextResponse_json (obj1 "error" (JStr "Invalid payload")) 400), w).
Proof.
  intros H. apply webhook_invalid; [done|]. cbn [opt_get].
  destruct H as [-> | ->]; [done|]. apply andb_false_r.
Qed.

Lemma webhook_rejects_incomplete_payload_witness :
  Webhook.POST Webhook.healthy
    {| req_json := inr (JObj [("id", JStr "R1"); ("metadata", Scenario.metadata_object)]);
       req_origin := None |}
    (Scenario.world pending JNull)
  = (Normal (NextResponse_json (obj1 "error" (JStr "Invalid payload")) 400),
     Scenario.world pending JNull).
Proof.
  apply (webhook_rejects_incomplete_payload Webhook.healthy
           [("id", JStr "R1"); ("metadata", Scenario.metadata_object)]).
  right. reflexivity.
Defined.

(* ===================================================================== *)
(** ** Payloads with and without a job id                                *)
(* ===================================================================== *)

Lemma names_job_videoId metadata vid :
  names_job metadata vid -> Webhook.videoId metadata = Some vid.
Proof.
  unfold Webhook.videoId, Webhook.parsedMetadata.
  intros [(v & -> & Hns & Hv) | (s & v & -> & _ & Hp & Hv)].
  - destruct v; try done; by destruct (Hns s).
  - by rewrite Hp.
Qed.

Lemma carries_no_job_id_videoId metadata :
  carries_no_job_id metadata -> truthy (Webhook.videoId metadata) = false.
Proof.
  unfold Webhook.videoId, Webhook.parsedMetadata.
  intros [-> | [(v & -> & Hns & Hv) | (s & -> & _ & Hp)]].
  - done.
  - destruct v; try done; by destruct (Hns s).
  - by destruct (JSON.parse s).
Qed.



Lemma lookup_member_app k pre k0 x post :
  lookup_member k (pre ++ (k0, x) :: post)
  = match lookup_member k post with
    | Some v => Some v
    | None => if String.eqb k k0 then Some x else lookup_member k pre
    end.
Proof.
  induction pre as [|[k1 v1] pre IH]; cbn [app lookup_member].
  - by destruct (lookup_member k post).
  - rewrite IH. destruct (lookup_member k post); [done|].
    by destruct (String.eqb k k0).
Qed.

(** Lines 16-25 on a metadata string that is the JSON text of [m]. *)
Lemma videoId_of_stringified m :
  (forall s, m <> JStr s) ->
  Webhook.videoId (Some (JStr (JSON.stringify m))) = Webhook.videoId (Some m).
Proof.
  intros Hm. unfold Webhook.videoId, Webhook.parsedMetadata.
  rewrite parse_stringify. destruct m; try done. by destruct (Hm s).
Qed.

(** C7: for every metadata value [m] that is not itself a string (every
    object in particular), the handler behaves in the same way whether
    the [metadata] field holds [m] or the JSON text of [m]: the same
    internal job id is read, and the same statement and the same
    response follow. *)
Theorem webhook_metadata_string_or_object env pre post m origin w :
  (forall s, m <> JStr s) ->
  Webhook.videoId (Some (JStr (JSON.stringify m))) = Webhook.videoId (Some m)
  /\ Webhook.POST env
       {| req_json := inr (JObj (pre ++ ("metadata", JStr (JSON.stringify m)) :: post));
          req_origin := origin |} w
     = Webhook.POST env
         {| req_json := inr (JObj (pre ++ ("metadata", m) :: post));
            req_origin := origin |} w.
Proof.
  intros Hm. split; [by apply videoId_of_stringified|].
  apply webhook_ext; try done; cbn [opt_get]; rewrite !lookup_member_app; try done.
  destruct (lookup_member "metadata" post); [done|].
  cbn [String.eqb Ascii.eqb Bool.eqb]. by apply videoId_of_stringified.
Qed.

Lemma webhook_metadata_string_or_object_witness :
  Webhook.videoId (Some (JStr (JSON.stringify Scenario.metadata_object)))
  = Webhook.videoId (Some Scenario.metadata_object)
  /\ Webhook.POST Webhook.healthy
       (Scenario.callback "succeeded"
          [("url", JStr "https://cdn/x.mp4");
           ("metadata", JStr (JSON.stringify Scenario.metadata_object))])
       (Scenario.world pending JNull)
     = Webhook.POST Webhook.healthy
         (Scenario.callback "succeeded"
            [("url", JStr "https://cdn/x.mp4");
             ("metadata", Scenario.metadata_object)])
         (Scenario.world pending JNull).
Proof.
  apply (webhook_metadata_string_or_object Webhook.healthy
           [("id", JStr "R1"); ("status", JStr "succeeded");
            ("url", JStr "https://cdn/x.mp4")] [] Scenario.metadata_object None
           (Scenario.world pending JNull)).
  intros s. discriminate.
Defined.

(** Where the restriction of C7 comes from: a metadata value that is
    itself a string holding JSON text is parsed when it arrives as it
    is, and is only unquoted when it arrives encoded once more. *)
Example metadata_string_value_differs :
  let m := JStr (text ["{"; "videoId"; ":"; "V1"; "}"]) in
  Webhook.videoId (Some m) = Some (JStr "V1")
  /\ Webhook.videoId (Some (JStr (JSON.stringify m))) = None.
Proof. vm_compute. split; reflexivity. Qed.

(** On a row that exists, a delivery writes at most the three columns
    of [updateData]. *)
Lemma webhook_row_after env req w vid row :
  videos w !! vid = Some row ->
  videos (snd (Webhook.POST env req w)) !! vid = Some row \/
  exists body cur,
    req_json req = inr body /\
    (cur = None \/ cur = Some row) /\
    videos (snd (Webhook.POST env req w)) !! vid
    = Some (Videos.apply
              (Webhook.updateData cur (opt_get "id" (Some body))
                 (opt_get "url" (Some body)) (opt_get "status" (Some body))) row).
Proof.
  intros Hrow. rewrite webhook_state.
  destruct (req_json req) as [e|body]; [by left|].
  destruct (Webhook.videoId _) as [v|]; [|by left].
  destruct (_ && _ && _); [|by left].
  destruct (Webhook.update_rejected env); [by left|].
  cbn [videos]. rewrite lookup_alter. case_decide as Hk; [|by left].
  subst vid. rewrite Hrow. right. exists body.
  destruct (Webhook.select_fails env); eauto.
Qed.

(** C8: a delivery that reaches an existing row keeps every key its
    metadata held before, with its value, except the three merged keys
    [creatomate_id], [render_url] and [last_webhook_status]. *)
Theorem webhook_preserves_prior_metadata env req w vid row m k v :
  videos w !! vid = Some row ->
  Videos.meta row = Some m ->
  m !! k = Some v ->
  k <> "creatomate_id" -> k <> "render_url" -> k <> "last_webhook_status" ->
  exists row' m',
    videos (snd (Webhook.POST env req w)) !! vid = Some row'
    /\ Videos.meta row' = Some m'
    /\ m' !! k = Some v.
Proof.
  intros Hrow Hm Hk H1 H2 H3.
  destruct (webhook_row_after env req w vid row Hrow)
    as [H | (body & cur & _ & [-> | ->] & H)].
  - by exists row, m.
  - eexists _, m. split; [exact H|]. cbn. by rewrite Hm.
  - eexists _, _. split; [exact H|]. cbn. split; [done|].
    rewrite merged_meta_frame by done. by rewrite Hm.
Qed.

Lemma webhook_preserves_prior_metadata_witness :
  exists row' m',
    videos (snd (Webhook.POST Webhook.healthy
                   (Scenario.callback "succeeded"
                      [("url", JStr "https://cdn/x.mp4");
                       ("metadata", Scenario.metadata_object)])
                   (Scenario.world pending JNull))) !! "V1" = Some row'
    /\ Videos.meta row' = Some m'
    /\ m' !! "template" = Some (JStr "CREATOMATE_EDIT").
Proof.
  apply (webhook_preserves_prior_metadata Webhook.healthy _
           (Scenario.world pending JNull) "V1" (Scenario.V1 pending JNull)
           (<["template" := JStr "CREATOMATE_EDIT"]> (<["creatomate_id" := JStr "R1"]> ∅))
           "template" (JStr "CREATOMATE_EDIT"));
    (reflexivity || discriminate).
Defined.

Lemma internal_status_cases st :
  Webhook.internal_status st = pending \/ Webhook.internal_status st = completed
  \/ Webhook.internal_status st = failed.
Proof.
  unfold Webhook.internal_status.
  destruct (strict_eq_lit st "succeeded"); [tauto|].
  destruct (strict_eq_lit st "failed"); tauto.
Qed.

(** A poller read writes nothing. *)
Lemma poller_reads_only fails videoId st w :
  snd (UseVideoStatus.tick fails videoId st w) = w.
Proof.
  unfold UseVideoStatus.tick, UseVideoStatus.fetchStatus.
  destruct (String.eqb videoId ""); run; [done|].
  by destruct (if fails then None else _).
Qed.

(** The hook shows the status of the row it read, ['pending'] for a
    row without one, and keeps what it showed when nothing was read. *)
Lemma poller_shows_row_status videoId st w row :
  videoId <> "" ->
  videos w !! videoId = Some row ->
  fst (UseVideoStatus.tick false videoId st w)
  = Normal {| UseVideoStatus.status :=
                match Videos.status row with
                | Some s => status_name s
                | None => "pending"
                end;
              UseVideoStatus.video := Some row |}.
Proof.
  intros Hne Hrow. unfold UseVideoStatus.tick, UseVideoStatus.fetchStatus.
  apply String.eqb_neq in Hne. rewrite Hne. run. cbn [ToString]. by rewrite Hrow.
Qed.

(** Along any history of deliveries and reads a record stays in the
    table, and once its status is [pending], [completed] or [failed] it
    is one of the three ever after: neither path writes [draft] or
    [processing]. *)
Lemma lifecycle_invariant history :
  forall w vid row,
    videos w !! vid = Some row ->
    in_lifecycle (Videos.status row) ->
    exists row',
      videos (run history w) !! vid = Some row' /\ in_lifecycle (Videos.status row').
Proof.
  unfold run. induction history as [|e history IH]; intros w vid row Hrow Hin;
    cbn [fold_left]; [by exists row|].
  destruct e as [env req | fails videoId st]; cbn [step].
  - destruct (webhook_row_after env req w vid row Hrow) as [H | (body & cur & _ & _ & H)].
    + by apply (IH _ vid row).
    + eapply IH; [exact H|].
      cbn [Videos.apply Videos.status Webhook.updateData Videos.set_status].
      unfold in_lifecycle.
      destruct (internal_status_cases (opt_get "status" (Some body))) as [-> | [-> | ->]];
        tauto.
  - rewrite poller_reads_only. by apply (IH _ vid row).
Qed.

(** C1, as the specification states it, fails: a delivery with status
    ["failed"] for a record that is [completed] makes it [failed]. *)
Lemma terminal_state_is_overwritten : ~ terminal_states_are_final.
Proof.
  intros H.
  destruct (H Webhook.healthy
              (Scenario.callback "failed" [("metadata", Scenario.metadata_object)])
              false "V1" UseVideoStatus.initial
              (Scenario.world completed (JStr "https://cdn/x.mp4")) "V1"
              (Scenario.V1 completed (JStr "https://cdn/x.mp4")) completed
              eq_refl eq_refl eq_refl) as [Hw _].
  specialize (Hw (Videos.apply
                    (Webhook.updateData
                       (Some (Scenario.V1 completed (JStr "https://cdn/x.mp4")))
                       (Some (JStr "R1")) None (Some (JStr "failed")))
                    (Scenario.V1 completed (JStr "https://cdn/x.mp4")))).
  assert (Some failed = Some completed) as E; [|discriminate E].
  apply Hw. vm_compute. reflexivity.
Qed.

(** C1 as amended: a poller read changes no row; a webhook delivery
    leaves the status of a row as it was or sets it to the image of the
    payload's status (["succeeded"] to [completed], ["failed"] to
    [failed], anything else to [pending]), whatever the status was
    before; so a [pending] row stays [pending] or becomes [completed] or
    [failed]. *)
Theorem status_after_delivery_or_read env req fails videoId st w vid row :
  videos w !! vid = Some row ->
  snd (UseVideoStatus.tick fails videoId st w) = w
  /\ exists row',
       videos (snd (Webhook.POST env req w)) !! vid = Some row'
       /\ (Videos.status row' = Videos.status row
           \/ exists body,
                req_json req = inr body
                /\ Videos.status row'
                   = Some (Webhook.internal_status (opt_get "status" (Some body))))
       /\ (Videos.status row = Some pending ->
           Videos.status row' = Some pending
           \/ Videos.status row' = Some completed
           \/ Videos.status row' = Some failed).
Proof.
  intros Hrow. split; [apply poller_reads_only|].
  destruct (webhook_row_after env req w vid row Hrow) as [H | (body & cur & Hb & _ & H)].
  - exists row. split; [done|]. split; [by left|]. tauto.
  - eexists. split; [exact H|]. cbn [Videos.apply Videos.status Webhook.updateData
                                      Videos.set_status].
    split; [right; by exists body|]. intros _.
    destruct (internal_status_cases (opt_get "status" (Some body))) as [-> | [-> | ->]];
      tauto.
Qed.

Lemma status_after_delivery_or_read_witness :
  snd (UseVideoStatus.tick false "V1" UseVideoStatus.initial (Scenario.world pending JNull))
  = Scenario.world pending JNull
  /\ exists row',
       videos (snd (Webhook.POST Webhook.healthy
                      (Scenario.callback "failed" [("metadata", Scenario.metadata_object)])
                      (Scenario.world pending JNull))) !! "V1" = Some row'
       /\ (Videos.status row' = Videos.status (Scenario.V1 pending JNull)
           \/ exists body,
                req_json (Scenario.callback "failed"
                            [("metadata", Scenario.metadata_object)]) = inr body
                /\ Videos.status row'
                   = Some (Webhook.internal_status (opt_get "status" (Some body))))
       /\ (Videos.status (Scenario.V1 pending JNull) = Some pending ->
           Videos.status row' = Some pending
           \/ Videos.status row' = Some completed
           \/ Videos.status row' = Some failed).
Proof.
  apply (status_after_delivery_or_read Webhook.healthy
           (Scenario.callback "failed" [("metadata", Scenario.metadata_object)])
           false "V1" UseVideoStatus.initial (Scenario.world pending JNull) "V1"
           (Scenario.V1 pending JNull)).
  reflexivity.
Defined.

(** The second example scenario of the specification. *)
Example webhook_failed_after_queued :
  let w' := snd (Webhook.POST Webhook.healthy
                   (Scenario.callback "failed" [("metadata", Scenario.metadata_object)])
                   (Scenario.world pending JNull)) in
  Videos.status <$> (videos w' !! "V1") = Some (Some failed).
Proof. vm_compute. reflexivity. Qed.

(* ===================================================================== *)
(** ** The generation gateway                                            *)
(* ===================================================================== *)

(** One iteration of the retry loop: it waits (except at index 0),
    calls the renderer once, touches no row, and asks for a [break]
    exactly when the call was answered with a 2xx status. *)
Lemma iteration_run env data i v w :
  exists v',
    Generate.iteration env data i v w
    = (Normal (v', Generate.is_success (Generate.renderer env i)),
       {| videos := videos w;
          effects := effects w ++
                     (if (0 <? i)%nat then [Delay (backoff i)] else []) ++ [Fetch data] |})
    /\ match Generate.renderer env i with
       | Generate.Rejected err =>
           v' = {| Generate.response := Generate.response v;
                   Generate.lastError := Some err |}
       | Generate.Responded r =>
           Generate.response v' = Some r
           /\ (Generate.ok r = true -> Generate.lastError v' = Generate.lastError v)
       end.
Proof.
  unfold Generate.iteration, Generate.try_block, Generate.is_success, backoff.
  destruct (0 <? i)%nat; run; rewrite <- ?app_assoc; cbn [app];
    (destruct (Generate.renderer env i) as [err|r]; [eauto|]);
    (destruct (Generate.ok r) eqn:Hok; [eauto|]);
    (destruct (Generate.status r <? 500); [|eexists; split; [reflexivity|done]]);
    (destruct (Generate.json_body r) as [e|result]; [eexists; split; [reflexivity|done]|]);
    (destruct (get_prop "error" result) as [e|msg];
       eexists; (split; [reflexivity|done])).
Qed.

(** The loop, when the calls of the first [f] indices from [start] fail
    in any way and the next one is answered with a 2xx status. *)
Lemma for_loop_success env data f :
  forall remaining start v w r,
    (f < remaining)%nat ->
    (forall j, (j < f)%nat ->
               Generate.is_success (Generate.renderer env (start + j)) = false) ->
    Generate.renderer env (start + f)%nat = Generate.Responded r ->
    Generate.ok r = true ->
    exists le,
      Generate.for_loop env data remaining start v w
      = (Normal {| Generate.response := Some r; Generate.lastError := le |},
         {| videos := videos w;
            effects :=
              effects w ++
              flat_map (fun i => (if (0 <? i)%nat then [Delay (backoff i)] else [])
                                 ++ [Fetch data])
                       (seq start (S f)) |}).
Proof.
  induction f as [|f IH]; intros remaining start v w r Hlt Hfail Hr Hok;
    (destruct remaining as [|remaining]; [lia|]); cbn [Generate.for_loop];
    destruct (iteration_run env data start v w) as (v' & Hit & Hv');
    unfold bind; rewrite Hit.
  - rewrite Nat.add_0_r in Hr. rewrite Hr in *. cbn [Generate.is_success]. rewrite Hok.
    destruct Hv' as [Hresp Hle]. destruct v' as [resp le]. cbn in Hresp. subst resp.
    exists le. unfold ret. cbn [seq flat_map]. by rewrite app_nil_r.
  - pose proof (Hfail 0%nat ltac:(lia)) as H0. rewrite Nat.add_0_r in H0. rewrite H0.
    destruct (IH remaining (S start) v'
                {| videos := videos w;
                   effects := effects w ++
                              (if (0 <? start)%nat then [Delay (backoff start)] else [])
                              ++ [Fetch data] |} r) as (le & Hloop).
    + lia.
    + intros j Hj. replace (S start + j)%nat with (start + S j)%nat by lia.
      apply Hfail. lia.
    + by replace (S start + f)%nat with (start + S f)%nat by lia.
    + done.
    + exists le. rewrite Hloop. cbn [videos effects].
      f_equal. f_equal. rewrite <- app_assoc. f_equal.
Qed.

(** Lines 68-102 in that case: the 2xx response is what the loop hands
    on, after one call per index up to the one that succeeded. *)
Lemma fetch_with_retry_success env data f r w :
  (f < Generate.maxRetries)%nat ->
  (forall j, (j < f)%nat -> Generate.is_success (Generate.renderer env j) = false) ->
  Generate.renderer env f = Generate.Responded r ->
  Generate.ok r = true ->
  Generate.fetch_with_retry env data w
  = (Normal r, {| videos := videos w; effects := effects w ++ retry_trace data f |}).
Proof.
  intros Hlt Hfail Hr Hok. unfold Generate.fetch_with_retry.
  destruct (for_loop_success env data f Generate.maxRetries 0%nat
              {| Generate.response := None; Generate.lastError := None |} w r)
    as (le & Hloop); try done.
  unfold bind. rewrite Hloop. cbn [Generate.response]. rewrite Hok. unfold ret.
  f_equal. f_equal. f_equal. unfold retry_trace. cbn [seq flat_map app Nat.ltb Nat.leb].
  f_equal. rewrite <- seq_shift, !flat_map_concat_map, !map_map. reflexivity.
Qed.



Lemma attempts_retry_trace data n : attempts (retry_trace data n) = S n.
Proof.
  unfold retry_trace. cbn [attempts]. f_equal.
  generalize 1%nat. induction n as [|n IH]; intros s; cbn; [done|]. by rewrite IH.
Qed.

Lemma delays_retry_trace data n :
  delays (retry_trace data n) = List.map backoff (seq 1 n).
Proof.
  unfold retry_trace. cbn [delays].
  generalize 1%nat. induction n as [|n IH]; intros s; cbn; [done|]. by rewrite IH.
Qed.

(** A run seen from the caller: two transport failures, then the
    renderer accepts the job, and the gateway answers with the job id
    after three calls and waits of 500 ms and 1000 ms. *)
Example gateway_succeeds_on_third_call :
  Generate.POST
    (Scenario.gateway (Scenario.after_failures 2 (Scenario.created "queued" [])))
    Scenario.submit Scenario.empty
  = (Normal (NextResponse_json
               (JObj [("success", JBool true); ("videoId", JStr "V1")]) 200),
     {| videos :=
          {[ "V1" :=
               {| Videos.id := "V1"; Videos.user_id := "U1";
                  Videos.property_id := JStr "P1";
                  Videos.status := Some pending;
                  Videos.script_content := Some "Creatomate Video Edit";
                  Videos.video_url := JNull;
                  Videos.meta :=
                    Some (<["creatomate_id" := JStr "R1"]>
                            (<["modifications" := Scenario.modifications]>
                               (<["template" := JStr "CREATOMATE_EDIT"]> ∅))) |} ]};
        effects := [Fetch Scenario.data; Delay 500; Fetch Scenario.data;
                    Delay 1000; Fetch Scenario.data] |}).
Proof. vm_compute. reflexivity. Qed.

(** C9: without a signed-in user the gateway answers at once with
    status 401 and the message "Unauthorized"; no row is created and the
    renderer is not called (the table and the trace are unchanged). *)
Theorem gateway_rejects_unauthenticated env req w :
  Generate.user env = None ->
  Generate.POST env req w
  = (Normal (NextResponse_json (obj1 "error" (JStr "Unauthorized")) 401), w).
Proof. intros H. unfold Generate.POST. by rewrite H. Qed.

Lemma gateway_rejects_unauthenticated_witness :
  Generate.POST
    {| Generate.user := None;
       Generate.CREATOMATE_API_KEY := Some "secret";
       Generate.NEXT_PUBLIC_APP_URL := Some "https://app.example";
       Generate.getTemplate := fun _ => JNull;
       Generate.applyTemplate := fun _ data => inr data;
       Generate.insert_result := inr "V1";
       Generate.renderer := Scenario.always (Scenario.created "succeeded" []);
       Generate.update_rejected := None |}
    Scenario.submit Scenario.empty
  = (Normal (NextResponse_json (obj1 "error" (JStr "Unauthorized")) 401), Scenario.empty).
Proof. apply gateway_rejects_unauthenticated. reflexivity. Defined.

(** A 4xx answer to the first call does not end the loop: the error
    thrown on line 92 is caught on line 94, and the next index is tried
    after its wait. *)
Lemma client_error_is_retried env data r0 r1 w :
  Generate.renderer env 0%nat = Generate.Responded r0 ->
  400 <= Generate.status r0 < 500 ->
  Generate.renderer env 1%nat = Generate.Responded r1 ->
  Generate.ok r1 = true ->
  Generate.fetch_with_retry env data w
  = (Normal r1,
     {| videos := videos w;
        effects := effects w ++ [Fetch data; Delay 500; Fetch data] |}).
Proof.
  intros H0 Hs H1 Hok.
  rewrite (fetch_with_retry_success env data 1 r1 w); try done.
  - unfold Generate.maxRetries. lia.
  - intros j Hj. assert (j = 0%nat) as -> by lia. rewrite H0. cbn. unfold Generate.ok.
    apply andb_false_intro2. lia.
Qed.

(** C2 fails on the code.  The renderer answers every call with status
    400 and [{ error: "Invalid template" }]: the gateway calls it three
    times, waiting 500 ms and 1000 ms, before it answers with status 500
    and the renderer's message; the row stays [pending]. *)
Example gateway_retries_client_error :
  let run := Generate.POST (Scenario.gateway (Scenario.always Scenario.bad_request))
               Scenario.submit Scenario.empty in
  fst run = Normal (NextResponse_json (obj1 "error" (JStr "Invalid template")) 500)
  /\ effects (snd run)
     = [Fetch Scenario.data; Delay 500; Fetch Scenario.data;
        Delay 1000; Fetch Scenario.data]
  /\ attempts (effects (snd run)) = 3%nat
  /\ delays (effects (snd run)) = [500; 1000]
  /\ Videos.status <$> (videos (snd run) !! "V1") = Some (Some pending).
Proof. vm_compute. repeat split; reflexivity. Qed.

(** The same defect lets a request through that the renderer refused:
    a 400 answer followed by a 2xx answer ends in success. *)
Example gateway_succeeds_after_client_error :
  let run := Generate.POST
               (Scenario.gateway
                  (Scenario.bad_request_then
                     (Scenario.created "succeeded" [("url", JStr "https://cdn/x.mp4")])))
               Scenario.submit Scenario.empty in
  fst run = Normal (NextResponse_json
                      (JObj [("success", JBool true); ("videoId", JStr "V1")]) 200)
  /\ effects (snd run) = [Fetch Scenario.data; Delay 500; Fetch Scenario.data].
Proof. vm_compute. repeat split; reflexivity. Qed.

(** The metadata string the gateway sends is the one the webhook
    receiver reads the job id from. *)
Lemma webhook_reads_gateway_metadata video_id user_id :
  Webhook.videoId
    (Some (JStr (JSON.stringify
                   (JObj [("videoId", JStr video_id); ("userId", JStr user_id)]))))
  = Some (JStr video_id).
Proof.
  unfold Webhook.videoId, Webhook.parsedMetadata. rewrite parse_stringify.
  cbn. reflexivity.
Qed.

(** The first example scenario of the specification: property [P1],
    record [V1], and a synchronous answer with status ["succeeded"] and
    the URL [https://cdn/x.mp4]. *)
Example gateway_completed_at_once :
  let run := Generate.POST
               (Scenario.gateway
                  (Scenario.always
                     (Scenario.created "succeeded" [("url", JStr "https://cdn/x.mp4")])))
               Scenario.submit Scenario.empty in
  fst run = Normal (NextResponse_json
                      (JObj [("success", JBool true); ("videoId", JStr "V1")]) 200)
  /\ (Videos.status <$> videos (snd run) !! "V1") = Some (Some completed)
  /\ (Videos.video_url <$> videos (snd run) !! "V1") = Some (JStr "https://cdn/x.mp4")
  /\ effects (snd run) = [Fetch Scenario.data].
Proof. vm_compute. repeat split; reflexivity. Qed.

(** A synchronous answer with any other status leaves the row
    [pending]; the URL, when there is one, is stored all the same. *)
Example gateway_queued_stays_pending :
  let run := Generate.POST
               (Scenario.gateway
                  (Scenario.always
                     (Scenario.created "planned" [("url", JStr "https://cdn/x.mp4")])))
               Scenario.submit Scenario.empty in
  (Videos.status <$> videos (snd run) !! "V1") = Some (Some pending)
  /\ (Videos.video_url <$> videos (snd run) !! "V1") = Some (JStr "https://cdn/x.mp4").
Proof. vm_compute. repeat split; reflexivity. Qed.

(* ===================================================================== *)
(** ** More on the webhook receiver                                      *)
(* ===================================================================== *)

Lemma alter_missing {A} (f : A -> A) (k : string) (m : gmap string A) :
  m !! k = None -> alter f k m = m.
Proof.
  intros H. apply map_eq. intros j. rewrite lookup_alter.
  case_decide; [subst j; by rewrite H|done].
Qed.

Lemma alter_present {A} (f : A -> A) (k : string) (m : gmap string A) x :
  m !! k = Some x -> alter f k m = <[k := f x]> m.
Proof.
  intros H. apply map_eq. intros j. rewrite lookup_alter, lookup_insert.
  case_decide; [subst j; by rewrite H|done].
Qed.

Lemma world_eta w : {| videos := videos w; effects := effects w |} = w.
Proof. by destruct w. Qed.

(** A delivery that passes the checks of lines 9 and 27, run to the end
    of the [try] block. *)
Lemma webhook_correlated env body origin w vid :
  truthy (opt_get "id" (Some body)) = true ->
  truthy (opt_get "status" (Some body)) = true ->
  Webhook.videoId (opt_get "metadata" (Some body)) = Some vid ->
  truthy (Some vid) = true ->
  Webhook.POST env {| req_json := inr body; req_origin := origin |} w
  = match Webhook.update_rejected env with
    | Some m => (Normal (NextResponse_json (obj1 "error" (JStr m)) 500), w)
    | None =>
        (Normal (NextResponse_json (obj1 "received" (JBool true)) 200),
         {| videos :=
              alter (Videos.apply
                       (Webhook.updateData
                          (if Webhook.select_fails env then None
                           else videos w !! ToString vid)
                          (opt_get "id" (Some body)) (opt_get "url" (Some body))
                          (opt_get "status" (Some body))))
                    (ToString vid) (videos w);
            effects := effects w |})
    end.
Proof.
  intros Hid Hst Hvid Ht. unfold Webhook.POST, Webhook.try_block. run.
  rewrite !destructure_nonnull by (eapply truthy_get_nonnull; eassumption).
  rewrite Hid, Hst, Hvid, Ht. cbn [negb orb].
  by destruct (Webhook.update_rejected env).
Qed.

(** X1: a delivery that names an existing record, when the store
    serves both the read of line 36 and the update of lines 47-50: the
    answer is the acknowledgment, and the row holds the mapped status,
    the payload's URL when there is one (the old [video_url]
    otherwise), and the provider's id, URL and raw status in its
    metadata; a payload without [url] removes [render_url] from the
    metadata.  The id is one that [String] prints as the model does. *)
Theorem webhook_records_delivery env body origin w vid row :
  truthy (opt_get "id" (Some body)) = true ->
  truthy (opt_get "status" (Some body)) = true ->
  names_job (opt_get "metadata" (Some body)) vid ->
  truthy (Some vid) = true ->
  Fragment.value vid = true ->
  Webhook.select_fails env = false ->
  Webhook.update_rejected env = None ->
  videos w !! ToString vid = Some row ->
  exists row' m',
    Webhook.POST env {| req_json := inr body; req_origin := origin |} w
    = (Normal (NextResponse_json (obj1 "received" (JBool true)) 200),
       {| videos := <[ToString vid := row']> (videos w); effects := effects w |})
    /\ Videos.status row' = Some (Webhook.internal_status (opt_get "status" (Some body)))
    /\ Videos.video_url row'
       = match opt_get "url" (Some body) with
         | Some u => u
         | None => Videos.video_url row
         end
    /\ Videos.meta row' = Some m'
    /\ m' !! "creatomate_id" = opt_get "id" (Some body)
    /\ m' !! "render_url" = opt_get "url" (Some body)
    /\ m' !! "last_webhook_status" = opt_get "status" (Some body).
Proof.
  intros Hid Hst Hvid Ht _ Hsel Hupd Hrow. apply names_job_videoId in Hvid.
  rewrite (webhook_correlated _ _ _ _ vid) by done.
  rewrite Hsel, Hupd, Hrow, (alter_present _ _ _ row Hrow).
  eexists _, _. split; [reflexivity|].
  cbn [Videos.apply Webhook.updateData Videos.status Videos.video_url Videos.meta
       Videos.set_status Videos.set_video_url Videos.set_meta].
  split_and!; try done; unfold Webhook.merged_meta; rewrite !lookup_obj_put;
    repeat case_decide; done.
Qed.

Lemma webhook_records_delivery_witness :
  exists row' m',
    Webhook.POST Webhook.healthy
      (Scenario.callback "succeeded"
         [("url", JStr "https://cdn/x.mp4");
          ("metadata", JStr (JSON.stringify Scenario.metadata_object))])
      (Scenario.world pending JNull)
    = (Normal (NextResponse_json (obj1 "received" (JBool true)) 200),
       {| videos := <["V1" := row']> (videos (Scenario.world pending JNull));
          effects := effects (Scenario.world pending JNull) |})
    /\ Videos.status row' = Some completed
    /\ Videos.video_url row' = JStr "https://cdn/x.mp4"
    /\ Videos.meta row' = Some m'
    /\ m' !! "creatomate_id" = Some (JStr "R1")
    /\ m' !! "render_url" = Some (JStr "https://cdn/x.mp4")
    /\ m' !! "last_webhook_status" = Some (JStr "succeeded").
Proof.
  apply (webhook_records_delivery Webhook.healthy
           (JObj [("id", JStr "R1"); ("status", JStr "succeeded");
                  ("url", JStr "https://cdn/x.mp4");
                  ("metadata", JStr (JSON.stringify Scenario.metadata_object))])
           None (Scenario.world pending JNull) (JStr "V1")
           (Scenario.V1 pending JNull)); try reflexivity.
  right. exists (JSON.stringify Scenario.metadata_object), Scenario.metadata_object.
  split; [reflexivity|]. split; [vm_compute; reflexivity|].
  split; [vm_compute; reflexivity|reflexivity].
Defined.

(** X2: a delivery that names a record the table does not hold is
    acknowledged like any other and changes nothing: the update matches
    no row, which is not an error.  The id is one that [String] prints
    as the model does. *)
Theorem webhook_drops_unknown_record env body origin w vid :
  truthy (opt_get "id" (Some body)) = true ->
  truthy (opt_get "status" (Some body)) = true ->
  names_job (opt_get "metadata" (Some body)) vid ->
  truthy (Some vid) = true ->
  Fragment.value vid = true ->
  videos w !! ToString vid = None ->
  Webhook.update_rejected env = None ->
  Webhook.POST env {| req_json := inr body; req_origin := origin |} w
  = (Normal (NextResponse_json (obj1 "received" (JBool true)) 200), w).
Proof.
  intros Hid Hst Hvid Ht _ Hrow Hupd. apply names_job_videoId in Hvid.
  rewrite (webhook_correlated _ _ _ _ vid) by done.
  by rewrite Hupd, (alter_missing _ _ _ Hrow), world_eta.
Qed.

Lemma webhook_drops_unknown_record_witness :
  Webhook.POST Webhook.healthy
    (Scenario.callback "succeeded" [("metadata", Scenario.metadata_object)])
    Scenario.empty
  = (Normal (NextResponse_json (obj1 "received" (JBool true)) 200), Scenario.empty).
Proof.
  apply (webhook_drops_unknown_record Webhook.healthy
           (JObj [("id", JStr "R1"); ("status", JStr "succeeded");
                  ("metadata", Scenario.metadata_object)])
           None Scenario.empty (JStr "V1")); try reflexivity.
  left. exists Scenario.metadata_object. split; [reflexivity|].
  split; [discriminate|reflexivity].
Defined.

(** X3: When the store rejects the update of a correlated delivery, the
    handler answers with status 500 and the store's message, and the
    table is as it was. *)
Theorem webhook_reports_store_error env body origin w vid m :
  truthy (opt_get "id" (Some body)) = true ->
  truthy (opt_get "status" (Some body)) = true ->
  Webhook.videoId (opt_get "metadata" (Some body)) = Some vid ->
  truthy (Some vid) = true ->
  Webhook.update_rejected env = Some m ->
  Webhook.POST env {| req_json := inr body; req_origin := origin |} w
  = (Normal (NextResponse_json (obj1 "error" (JStr m)) 500), w).
Proof.
  intros Hid Hst Hvid Ht Hupd.
  rewrite (webhook_correlated _ _ _ _ vid) by done. by rewrite Hupd.
Qed.

Lemma webhook_reports_store_error_witness :
  Webhook.POST
    {| Webhook.select_fails := false; Webhook.update_rejected := Some "connection lost" |}
    (Scenario.callback "succeeded" [("metadata", Scenario.metadata_object)])
    (Scenario.world pending JNull)
  = (Normal (NextResponse_json (obj1 "error" (JStr "connection lost")) 500),
     Scenario.world pending JNull).
Proof.
  apply (webhook_reports_store_error _
           (JObj [("id", JStr "R1"); ("status", JStr "succeeded");
                  ("metadata", Scenario.metadata_object)])
           None (Scenario.world pending JNull) (JStr "V1")); reflexivity.
Defined.

(** X4: A delivery never adds or removes a row, never changes the id, the
    owner, the property or the script of a row, and never calls out. *)
Theorem webhook_keeps_rows_and_identity env req w k :
  effects (snd (Webhook.POST env req w)) = effects w
  /\ match videos w !! k with
     | None => videos (snd (Webhook.POST env req w)) !! k = None
     | Some row =>
         exists row',
           videos (snd (Webhook.POST env req w)) !! k = Some row'
           /\ Videos.id row' = Videos.id row
           /\ Videos.user_id row' = Videos.user_id row
           /\ Videos.property_id row' = Videos.property_id row
           /\ Videos.script_content row' = Videos.script_content row
     end.
Proof.
  assert (Hsame : effects w = effects w
                 /\ match videos w !! k with
                    | None => videos w !! k = None
                    | Some row =>
                        exists row',
                          videos w !! k = Some row'
                          /\ Videos.id row' = Videos.id row
                          /\ Videos.user_id row' = Videos.user_id row
                          /\ Videos.property_id row' = Videos.property_id row
                          /\ Videos.script_content row' = Videos.script_content row
                    end).
  { split; [done|]. destruct (videos w !! k) as [row|]; [|done]. by exists row. }
  rewrite webhook_state.
  destruct (req_json req) as [e|body]; [exact Hsame|].
  destruct (Webhook.videoId _) as [vid|]; [|exact Hsame].
  destruct (_ && _ && _); [|exact Hsame].
  destruct (Webhook.update_rejected env); [exact Hsame|].
  clear Hsame. cbn [videos effects]. split; [done|]. rewrite lookup_alter.
  case_decide as Hk; [subst k|];
    (destruct (videos w !! _) as [row|] eqn:Hrow; [|done]).
  - eexists. split; [reflexivity|]. done.
  - by exists row.
Qed.

(** X5: a delivery leaves every row alone except the one its metadata
    names: a row is as it was when the metadata carries no job id, and
    when it names a job whose id, as a text, is not the key of the
    row. *)
Theorem webhook_leaves_other_rows env body origin w k :
  carries_no_job_id (opt_get "metadata" (Some body))
  \/ (exists vid, names_job (opt_get "metadata" (Some body)) vid
                  /\ Fragment.value vid = true /\ ToString vid <> k) ->
  videos (snd (Webhook.POST env {| req_json := inr body; req_origin := origin |} w)) !! k
  = videos w !! k.
Proof.
  intros Hk. rewrite webhook_state. cbn [req_json].
  destruct Hk as [Hno | (vid & Hvid & _ & Hne)].
  - apply carries_no_job_id_videoId in Hno.
    destruct (Webhook.videoId _) as [vid|]; [|done].
    by rewrite Hno, andb_false_r.
  - rewrite (names_job_videoId _ _ Hvid).
    destruct (_ && _ && _); [|done].
    destruct (Webhook.update_rejected env); [done|].
    cbn [videos]. by apply lookup_alter_ne.
Qed.

Lemma webhook_leaves_other_rows_witness :
  videos (snd (Webhook.POST Webhook.healthy
                 (Scenario.callback "failed"
                    [("metadata", JStr (JSON.stringify Scenario.metadata_object))])
                 {| videos := <["V2" := Scenario.V1 completed JNull]>
                                (videos (Scenario.world pending JNull));
                    effects := [] |})) !! "V2"
  = Some (Scenario.V1 completed JNull).
Proof.
  rewrite (webhook_leaves_other_rows Webhook.healthy
             (JObj [("id", JStr "R1"); ("status", JStr "failed");
                    ("metadata", JStr (JSON.stringify Scenario.metadata_object))])
             None _ "V2").
  - reflexivity.
  - right. exists (JStr "V1"). split; [|split; [reflexivity|discriminate]].
    right. exists (JSON.stringify Scenario.metadata_object), Scenario.metadata_object.
    split; [reflexivity|]. split; [vm_compute; reflexivity|].
    split; [vm_compute; reflexivity|reflexivity].
Defined.

(** X6: Whenever the handler answers with a status other than 200, no row
    was written; and it answers 500 only when the request body could not
    be read as JSON, was [null], or the store rejected the update. *)
Theorem webhook_failure_writes_nothing env req w resp w' :
  Webhook.POST env req w = (Normal resp, w') ->
  resp_status resp <> 200 ->
  w' = w
  /\ (resp_status resp = 500 ->
      (exists e, req_json req = inl e) \/ req_json req = inr JNull
      \/ (exists m, Webhook.update_rejected env = Some m)).
Proof.
  unfold Webhook.POST, Webhook.try_block. destruct req as [[e|body] origin]; run.
  { intros [= <- <-] _. eauto. }
  destruct (null_or_not body) as [->|Hn]; [intros [= <- <-] _; eauto|].
  rewrite !destructure_nonnull by done.
  destruct (negb _ || negb _); [intros [= <- <-] _; split; [done|]; by cbn|].
  destruct (Webhook.videoId _) as [vid|]; [|by intros [= <- <-]].
  destruct (truthy (Some vid)); [|by intros [= <- <-]].
  destruct (Webhook.update_rejected env) as [m|]; [|by intros [= <- <-]].
  intros [= <- <-] _. eauto.
Qed.

Lemma webhook_failure_writes_nothing_witness :
  Scenario.world pending JNull = Scenario.world pending JNull
  /\ (resp_status (NextResponse_json (obj1 "error" (JStr "Invalid payload")) 400) = 500 ->
      (exists e, req_json (Scenario.callback "" []) = inl e)
      \/ req_json (Scenario.callback "" []) = inr JNull
      \/ (exists m, Webhook.update_rejected Webhook.healthy = Some m)).
Proof.
  apply (webhook_failure_writes_nothing Webhook.healthy (Scenario.callback "" [])
           (Scenario.world pending JNull)
           (NextResponse_json (obj1 "error" (JStr "Invalid payload")) 400)).
  - vm_compute. reflexivity.
  - discriminate.
Defined.

(* ===================================================================== *)
(** ** More on the status poller                                         *)
(* ===================================================================== *)

(** X7: A read that finds nothing (no [videoId], a failing select, or no
    such row) leaves the hook showing what it showed before. *)
Theorem poller_keeps_state_when_unreadable fails videoId st w :
  videoId = "" \/ fails = true \/ videos w !! videoId = None ->
  UseVideoStatus.tick fails videoId st w = (Normal st, w).
Proof.
  intros H. unfold UseVideoStatus.tick, UseVideoStatus.fetchStatus.
  destruct (String.eqb videoId "") eqn:He; run; [done|].
  destruct H as [-> | [-> | H]]; [done|done|].
  cbn [ToString]. rewrite H. by destruct fails.
Qed.

Lemma poller_keeps_state_when_unreadable_witness :
  UseVideoStatus.tick false "V9"
    {| UseVideoStatus.status := "completed";
       UseVideoStatus.video := Some (Scenario.V1 completed JNull) |}
    (Scenario.world pending JNull)
  = (Normal {| UseVideoStatus.status := "completed";
               UseVideoStatus.video := Some (Scenario.V1 completed JNull) |},
     Scenario.world pending JNull).
Proof.
  apply poller_keeps_state_when_unreadable. right. right. reflexivity.
Defined.

(** X8: Push, then pull: after a delivery for an existing record that the
    store served, the next read of that record shows the mapped status
    of the payload, so the hook shows ["completed"] exactly when the
    payload's status is the string ["succeeded"]. *)
Theorem poller_shows_delivered_status body origin w vid row st :
  truthy (opt_get "id" (Some body)) = true ->
  truthy (opt_get "status" (Some body)) = true ->
  Webhook.videoId (opt_get "metadata" (Some body)) = Some (JStr vid) ->
  vid <> "" ->
  videos w !! vid = Some row ->
  let w' := snd (Webhook.POST Webhook.healthy
                   {| req_json := inr body; req_origin := origin |} w) in
  exists st',
    UseVideoStatus.tick false vid st w' = (Normal st', w')
    /\ UseVideoStatus.status st'
       = status_name (Webhook.internal_status (opt_get "status" (Some body)))
    /\ (UseVideoStatus.status st' = "completed"
        <-> strict_eq_lit (opt_get "status" (Some body)) "succeeded" = true).
Proof.
  intros Hid Hst Hvid Hne Hrow w'. subst w'.
  assert (Ht : truthy (Some (JStr vid)) = true).
  { cbn. destruct vid; [done|reflexivity]. }
  rewrite (webhook_correlated _ _ _ _ (JStr vid)) by done.
  cbn [Webhook.healthy Webhook.update_rejected Webhook.select_fails snd ToString].
  rewrite Hrow, (alter_present _ _ _ row Hrow).
  unfold UseVideoStatus.tick, UseVideoStatus.fetchStatus.
  apply String.eqb_neq in Hne. rewrite Hne. run. cbn [ToString].
  rewrite lookup_insert_eq. eexists. split; [reflexivity|].
  cbn [UseVideoStatus.status Videos.apply Videos.status Webhook.updateData
       Videos.set_status].
  split; [done|]. unfold Webhook.internal_status.
  destruct (strict_eq_lit _ "succeeded"); [done|].
  destruct (strict_eq_lit _ "failed"); done.
Qed.

Lemma poller_shows_delivered_status_witness :
  let w' := snd (Webhook.POST Webhook.healthy
                   (Scenario.callback "succeeded" [("metadata", Scenario.metadata_object)])
                   (Scenario.world pending JNull)) in
  exists st',
    UseVideoStatus.tick false "V1" UseVideoStatus.initial w' = (Normal st', w')
    /\ UseVideoStatus.status st' = status_name (Webhook.internal_status (Some (JStr "succeeded")))
    /\ (UseVideoStatus.status st' = "completed"
        <-> strict_eq_lit (Some (JStr "succeeded")) "succeeded" = true).
Proof.
  apply (poller_shows_delivered_status
           (JObj [("id", JStr "R1"); ("status", JStr "succeeded");
                  ("metadata", Scenario.metadata_object)])
           None (Scenario.world pending JNull) "V1" (Scenario.V1 pending JNull)
           UseVideoStatus.initial); (reflexivity || discriminate).
Defined.

(* ===================================================================== *)
(** ** More on the generation gateway                                    *)
(* ===================================================================== *)

(** The trace of the first [n] iterations from index [start]. *)
Lemma loop_trace_retry data n :
  flat_map (fun i => (if (0 <? i)%nat then [Delay (backoff i)] else []) ++ [Fetch data])
           (seq 0 (S n))
  = retry_trace data n.
Proof.
  unfold retry_trace. cbn [seq flat_map app Nat.ltb Nat.leb]. f_equal.
  rewrite <- seq_shift, !flat_map_concat_map, !map_map. reflexivity.
Qed.

(** An iteration whose call is rejected records the error and keeps the
    response of an earlier iteration. *)
Lemma iteration_rejected env data i v w err :
  Generate.renderer env i = Generate.Rejected err ->
  Generate.iteration env data i v w
  = (Normal ({| Generate.response := Generate.response v;
                Generate.lastError := Some err |}, false),
     {| videos := videos w;
        effects := effects w ++
                   (if (0 <? i)%nat then [Delay (backoff i)] else []) ++ [Fetch data] |}).
Proof.
  intros Hr. destruct (iteration_run env data i v w) as (v' & Hit & Hv').
  rewrite Hr in Hit, Hv'. by subst v'.
Qed.

(** An iteration whose call is answered with a status of 500 or more
    keeps that response and leaves [lastError] as it was. *)
Lemma iteration_server_error env data i v w r :
  Generate.renderer env i = Generate.Responded r ->
  500 <= Generate.status r ->
  Generate.iteration env data i v w
  = (Normal ({| Generate.response := Some r;
                Generate.lastError := Generate.lastError v |}, false),
     {| videos := videos w;
        effects := effects w ++
                   (if (0 <? i)%nat then [Delay (backoff i)] else []) ++ [Fetch data] |}).
Proof.
  intros Hr Hs. unfold Generate.iteration, Generate.try_block, backoff. rewrite Hr.
  assert (Hok : Generate.ok r = false).
  { unfold Generate.ok. apply andb_false_intro2. lia. }
  assert (Hlt : (Generate.status r <? 500) = false) by lia.
  destruct (0 <? i)%nat; run; rewrite <- ?app_assoc; cbn [app]; by rewrite Hok, Hlt.
Qed.

(** Whatever the renderer does, the loop touches no row and makes at
    most [remaining] calls, one per index. *)
Lemma for_loop_shape env data :
  forall remaining start v w,
  exists v' n,
    (n <= remaining)%nat
    /\ (0 < remaining -> 0 < n)%nat
    /\ Generate.for_loop env data remaining start v w
       = (Normal v',
          {| videos := videos w;
             effects :=
               effects w ++
               flat_map (fun i => (if (0 <? i)%nat then [Delay (backoff i)] else [])
                                  ++ [Fetch data])
                        (seq start n) |}).
Proof.
  induction remaining as [|remaining IH]; intros start v w; cbn [Generate.for_loop].
  - exists v, 0%nat. split; [lia|]. split; [lia|]. unfold ret. cbn. by rewrite app_nil_r, world_eta.
  - destruct (iteration_run env data start v w) as (v1 & Hit & _).
    unfold bind. rewrite Hit. destruct (Generate.is_success _).
    + exists v1, 1%nat. split; [lia|]. split; [lia|]. unfold ret. cbn [seq flat_map].
      by rewrite app_nil_r.
    + destruct (IH (S start) v1
                  {| videos := videos w;
                     effects := effects w ++
                                (if (0 <? start)%nat then [Delay (backoff start)] else [])
                                ++ [Fetch data] |}) as (v' & n & Hn & _ & Hloop).
      exists v', (S n). split; [lia|]. split; [lia|]. rewrite Hloop. cbn [videos effects].
      f_equal. f_equal. rewrite <- app_assoc. f_equal.
Qed.

(** Lines 68-102 for any renderer: no row is touched, and the trace is
    one call followed by at most two retries, each after its wait. *)
Lemma fetch_with_retry_shape env data w :
  exists c k,
    (k < Generate.maxRetries)%nat
    /\ Generate.fetch_with_retry env data w
       = (c, {| videos := videos w; effects := effects w ++ retry_trace data k |}).
Proof.
  unfold Generate.fetch_with_retry.
  destruct (for_loop_shape env data Generate.maxRetries 0%nat
              {| Generate.response := None; Generate.lastError := None |} w)
    as (v' & n & Hn & Hpos & Hloop).
  unfold bind. rewrite Hloop.
  destruct n as [|k]; [exfalso; unfold Generate.maxRetries in Hpos; lia|].
  rewrite loop_trace_retry.
  destruct (Generate.response v') as [r|]; [destruct (Generate.ok r)|];
    eexists _, k; (split; [lia|reflexivity]).
Qed.

(** Lines 34-122, however they end: either nothing happened and an
    error is thrown, or the insert went through and the stage ends with
    an error or with the answer that names the new row. *)
Lemma generate_world env uid origin pid tid mods w :
  exists c w',
    Generate.generate env uid origin pid tid mods w = (c, w')
    /\ ((w' = w /\ exists e, c = Throw e)
        \/ exists new_id,
             left_by_generate env uid origin pid tid mods new_id w w'
             /\ ((exists e, c = Throw e)
                 \/ c = Normal (NextResponse_json
                                  (JObj [("success", JBool true);
                                         ("videoId", JStr new_id)]) 200))).
Proof.
  unfold Generate.generate, left_by_generate.
  destruct (Generate.CREATOMATE_API_KEY env) as [apiKey|]; [|unfold throw; eauto 10].
  destruct (String.eqb apiKey ""); [unfold throw; eauto 10|].
  unfold bind at 1, Generate.insert_select_single.
  destruct (Generate.insert_result env) as [m|new_id]; [unfold throw; eauto 10|].
  destruct (videos w !! new_id) eqn:Hfresh; [unfold throw; eauto 10|].
  change (Videos.id (Generate.new_row uid pid tid mods new_id)) with new_id.
  set (row0 := Generate.new_row uid pid tid mods new_id).
  match goal with
  | |- context [Generate.fetch_with_retry env ?d] =>
      destruct (fetch_with_retry_shape env d
                  {| videos := <[new_id := row0]> (videos w); effects := effects w |})
        as (c & k & Hk & Hfetch)
  end.
  unfold bind at 1. rewrite Hfetch. cbn [videos effects].
  destruct c as [r|e].
  2:{ eexists _, _. split; [reflexivity|]. right. exists new_id. split; [|eauto].
      eexists _, k, row0. split_and!; try done. by left. }
  unfold bind at 1, await.
  destruct (Generate.json_body r) as [e|result].
  { unfold throw. eexists _, _. split; [reflexivity|]. right. exists new_id.
    split; [|eauto]. eexists _, k, row0. split_and!; try done. by left. }
  unfold ret at 1, if_truthy.
  destruct (Generate.first_render result) as [render|];
    [destruct (truthy (Some render))|]; run.
  - destruct (Generate.update_rejected env) as [m|].
    + eexists _, _. split; [reflexivity|]. right. exists new_id. split; [|by right].
      eexists _, k, row0. split_and!; try done. by left.
    + eexists _, _. split; [reflexivity|]. right. exists new_id. split; [|by right].
      eexists _, k, _. split_and!; try done; [right; by exists render|].
      cbn [ToString videos effects]. f_equal.
      rewrite (alter_present _ _ _ row0) by apply lookup_insert_eq.
      apply insert_insert_eq.
  - eexists _, _. split; [reflexivity|]. right. exists new_id. split; [|by right].
    eexists _, k, row0. split_and!; try done. by left.
  - eexists _, _. split; [reflexivity|]. right. exists new_id. split; [|by right].
    eexists _, k, row0. split_and!; try done. by left.
Qed.

(** The same for the whole handler, which always answers: with a status
    other than 200 and nothing done, or, once the insert went through,
    with status 500 or with the answer that names the new row. *)
Lemma gateway_world env req w :
  exists resp w',
    Generate.POST env req w = (Normal resp, w')
    /\ ((w' = w /\ resp_status resp <> 200)
        \/ exists uid pid tid mods new_id,
             Generate.user env = Some uid
             /\ left_by_generate env uid (req_origin req) pid tid mods new_id w w'
             /\ (resp_status resp = 500
                 \/ resp = NextResponse_json
                             (JObj [("success", JBool true);
                                    ("videoId", JStr new_id)]) 200)).
Proof.
  unfold Generate.POST. destruct (Generate.user env) as [uid|] eqn:Huser.
  2:{ unfold ret. eexists _, _. split; [reflexivity|]. left. by cbn. }
  assert (Hgen : forall pid tid mods,
             exists resp w',
               try_catch (Generate.generate env uid (req_origin req) pid tid mods)
                 (fun error =>
                    ret (NextResponse_json (obj1 "error" (JStr (message error))) 500)) w
               = (Normal resp, w')
               /\ ((w' = w /\ resp_status resp <> 200)
                   \/ exists uid0 pid0 tid0 mods0 new_id,
                        Some uid = Some uid0
                        /\ left_by_generate env uid0 (req_origin req) pid0 tid0 mods0
                             new_id w w'
                        /\ (resp_status resp = 500
                            \/ resp = NextResponse_json
                                        (JObj [("success", JBool true);
                                               ("videoId", JStr new_id)]) 200))).
  { intros pid tid mods.
    destruct (generate_world env uid (req_origin req) pid tid mods w)
      as (c & w' & Hrun & Hw').
    unfold try_catch. rewrite Hrun.
    destruct Hw' as [[-> [e ->]] | (new_id & Hleft & [[e ->] | ->])]; unfold ret.
    - eexists _, _. split; [reflexivity|]. left. by cbn.
    - eexists _, _. split; [reflexivity|]. right.
      exists uid, pid, tid, mods, new_id. split_and!; try done. by left.
    - eexists _, _. split; [reflexivity|]. right.
      exists uid, pid, tid, mods, new_id. split_and!; try done. by right. }
  unfold try_catch in *. run.
  destruct (req_json req) as [e|body].
  { eexists _, _. split; [reflexivity|]. left. by cbn. }
  destruct (null_or_not body) as [->|Hn].
  { cbn. eexists _, _. split; [reflexivity|]. left. by cbn. }
  rewrite !destructure_nonnull by done.
  destruct (opt_get "templateId" (Some body)) as [t|] eqn:Ht; [|apply Hgen].
  destruct (truthy (Some t)); [|apply Hgen].
  destruct (truthy (Some (Generate.getTemplate env t))).
  2:{ eexists _, _. split; [reflexivity|]. left. by cbn. }
  destruct (Generate.applyTemplate env _ _) as [e|applied]; [|apply Hgen].
  eexists _, _. split; [reflexivity|]. left. by cbn.
Qed.

(** X9: Whatever the request and the renderer, one run of the gateway makes
    at most three calls, and waits 500 ms before the second and 1000 ms
    before the third, so never more than 1500 ms in all. *)
Theorem gateway_bounded_effort env req w :
  exists tr,
    effects (snd (Generate.POST env req w)) = effects w ++ tr
    /\ (attempts tr <= 3)%nat
    /\ (delays tr = [] \/ delays tr = [500] \/ delays tr = [500; 1000]).
Proof.
  destruct (gateway_world env req w)
    as (resp & w' & -> & [[-> _] | (uid & pid & tid & mods & new_id & _ & H & _)]).
  - exists []. cbn. rewrite app_nil_r. split_and!; [done|lia|by left].
  - destruct H as (ctid & k & row1 & _ & _ & Hk & _ & ->). cbn [snd effects].
    eexists. split; [reflexivity|]. rewrite attempts_retry_trace, delays_retry_trace.
    unfold Generate.maxRetries in Hk. split; [lia|].
    destruct k as [|[|[|k]]]; [by left|right; by left|right; by right|lia].
Qed.

(** X10: A run of the gateway changes no row that was in the table before. *)
Theorem gateway_keeps_existing_rows env req w key row :
  videos w !! key = Some row ->
  videos (snd (Generate.POST env req w)) !! key = Some row.
Proof.
  intros Hrow.
  destruct (gateway_world env req w)
    as (resp & w' & -> & [[-> _] | (uid & pid & tid & mods & new_id & _ & H & _)]);
    [done|].
  destruct H as (ctid & k & row1 & _ & Hfresh & _ & _ & ->). cbn [snd videos].
  rewrite lookup_insert_ne; [done|]. intros ->. congruence.
Qed.

Lemma gateway_keeps_existing_rows_witness :
  videos (snd (Generate.POST
                 (Scenario.gateway (Scenario.always (Scenario.created "succeeded" [])))
                 Scenario.submit
                 {| videos := {[ "V0" := Scenario.V1 failed JNull ]}; effects := [] |}))
    !! "V0"
  = Some (Scenario.V1 failed JNull).
Proof. apply gateway_keeps_existing_rows. reflexivity. Defined.

(** X11: A run of the gateway adds at most one row: a row that was not in
    the table before sits under the id the store issued, belongs to the
    signed-in user, and is [pending] or [completed]; the gateway never
    marks a record [failed], whatever the renderer answered. *)
Theorem gateway_adds_one_pending_or_completed_row env req w key row :
  videos w !! key = None ->
  videos (snd (Generate.POST env req w)) !! key = Some row ->
  Generate.insert_result env = inr key
  /\ Generate.user env = Some (Videos.user_id row)
  /\ Videos.id row = key
  /\ (Videos.status row = Some pending \/ Videos.status row = Some completed).
Proof.
  intros Hnone Hrow.
  destruct (gateway_world env req w)
    as (resp & w' & Hrun & [[-> _] | (uid & pid & tid & mods & new_id & Huser & H & _)]);
    rewrite Hrun in Hrow; cbn [snd] in Hrow; [congruence|].
  destruct H as (ctid & k & row1 & Hins & Hfresh & _ & Hrow1 & ->). cbn [videos] in Hrow.
  destruct (decide (new_id = key)) as [->|Hne];
    [|rewrite lookup_insert_ne in Hrow by done; congruence].
  rewrite lookup_insert_eq in Hrow. injection Hrow as ->.
  destruct Hrow1 as [-> | (render & ->)]; cbn; split_and!; try done; [by left|].
  destruct (strict_eq_lit _ "succeeded"); [by right|by left].
Qed.

Lemma gateway_adds_one_pending_or_completed_row_witness :
  Generate.insert_result (Scenario.gateway (Scenario.always Scenario.bad_request)) = inr "V1"
  /\ Generate.user (Scenario.gateway (Scenario.always Scenario.bad_request))
     = Some (Videos.user_id (Generate.new_row "U1" (Some (JStr "P1")) None
                               (Some Scenario.modifications) "V1"))
  /\ Videos.id (Generate.new_row "U1" (Some (JStr "P1")) None
                  (Some Scenario.modifications) "V1") = "V1"
  /\ (Videos.status (Generate.new_row "U1" (Some (JStr "P1")) None
                       (Some Scenario.modifications) "V1") = Some pending
      \/ Videos.status (Generate.new_row "U1" (Some (JStr "P1")) None
                          (Some Scenario.modifications) "V1") = Some completed).
Proof.
  apply (gateway_adds_one_pending_or_completed_row
           (Scenario.gateway (Scenario.always Scenario.bad_request))
           Scenario.submit Scenario.empty "V1").
  - reflexivity.
  - vm_compute. reflexivity.
Defined.

(** The handler on a request without a template, for a signed-in user:
    lines 14-33 pass the body's fields on to lines 34-122. *)
Lemma gateway_without_template env req w uid body :
  Generate.user env = Some uid ->
  req_json req = inr body ->
  body <> JNull ->
  truthy (opt_get "templateId" (Some body)) = false ->
  Generate.POST env req w
  = try_catch
      (Generate.generate env uid (req_origin req) (opt_get "propertyId" (Some body))
         (opt_get "templateId" (Some body)) (opt_get "modifications" (Some body)))
      (fun error => ret (NextResponse_json (obj1 "error" (JStr (message error))) 500)) w.
Proof.
  intros Huser Hbody Hn Ht. unfold Generate.POST. rewrite Huser, Hbody.
  unfold try_catch. run. rewrite !destructure_nonnull by done.
  destruct (opt_get "templateId" (Some body)) as [t|]; [|done]. by rewrite Ht.
Qed.

(** Lines 34-58, up to the insert, when the key is set and the store
    issues a fresh id. *)
Lemma generate_after_insert env uid origin pid tid mods w apiKey new_id :
  Generate.CREATOMATE_API_KEY env = Some apiKey ->
  apiKey <> "" ->
  Generate.insert_result env = inr new_id ->
  videos w !! new_id = None ->
  exists ctid,
    Generate.generate env uid origin pid tid mods w
    = (let* response :=
         Generate.fetch_with_retry env
           (Generate.request_data env ctid mods new_id uid origin) in
       let* result := await (Generate.json_body response) in
       (if_truthy (Generate.first_render result)
          (fun render =>
             update_eq (Generate.update_rejected env)
               (Generate.render_update (Generate.new_row uid pid tid mods new_id) render)
               (JStr new_id) ;;
             ret tt)
          (ret tt)) ;;
       ret (NextResponse_json
              (JObj [("success", JBool true); ("videoId", JStr new_id)]) 200))%js
        {| videos := <[new_id := Generate.new_row uid pid tid mods new_id]> (videos w);
           effects := effects w |}.
Proof.
  intros Hkey Hne Hins Hfresh. unfold Generate.generate. rewrite Hkey.
  apply String.eqb_neq in Hne. rewrite Hne.
  unfold bind at 1, Generate.insert_select_single. rewrite Hins, Hfresh.
  eexists. reflexivity.
Qed.

(** X12: Without an API key nothing is created and the renderer is not
    called: the request is answered with status 500 and the message
    "Missing CREATOMATE_API_KEY". *)
Theorem gateway_needs_api_key env req w uid body :
  Generate.user env = Some uid ->
  req_json req = inr body ->
  body <> JNull ->
  truthy (opt_get "templateId" (Some body)) = false ->
  Generate.CREATOMATE_API_KEY env = None \/ Generate.CREATOMATE_API_KEY env = Some "" ->
  Generate.POST env req w
  = (Normal (NextResponse_json (obj1 "error" (JStr "Missing CREATOMATE_API_KEY")) 500), w).
Proof.
  intros Huser Hbody Hn Ht Hkey. rewrite (gateway_without_template _ _ _ uid body) by done.
  unfold try_catch, Generate.generate. by destruct Hkey as [-> | ->].
Qed.

Lemma gateway_needs_api_key_witness :
  Generate.POST
    {| Generate.user := Some "U1";
       Generate.CREATOMATE_API_KEY := None;
       Generate.NEXT_PUBLIC_APP_URL := None;
       Generate.getTemplate := fun _ => JNull;
       Generate.applyTemplate := fun _ data => inr data;
       Generate.insert_result := inr "V1";
       Generate.renderer := Scenario.always (Scenario.created "succeeded" []);
       Generate.update_rejected := None |}
    Scenario.submit Scenario.empty
  = (Normal (NextResponse_json (obj1 "error" (JStr "Missing CREATOMATE_API_KEY")) 500),
     Scenario.empty).
Proof.
  apply (gateway_needs_api_key _ Scenario.submit Scenario.empty "U1"
           (JObj [("propertyId", JStr "P1"); ("modifications", Scenario.modifications)]));
    try reflexivity; [discriminate|by left].
Defined.

(** X13: When the store rejects the insert, the renderer is not called: the
    request is answered with status 500 and the store's message, and the
    table is as it was. *)
Theorem gateway_reports_insert_error env req w uid body apiKey m :
  Generate.user env = Some uid ->
  req_json req = inr body ->
  body <> JNull ->
  truthy (opt_get "templateId" (Some body)) = false ->
  Generate.CREATOMATE_API_KEY env = Some apiKey ->
  apiKey <> "" ->
  Generate.insert_result env = inl m ->
  Generate.POST env req w
  = (Normal (NextResponse_json (obj1 "error" (JStr m)) 500), w).
Proof.
  intros Huser Hbody Hn Ht Hkey Hne Hins.
  rewrite (gateway_without_template _ _ _ uid body) by done.
  unfold try_catch, Generate.generate. rewrite Hkey.
  apply String.eqb_neq in Hne. rewrite Hne.
  unfold bind at 1, Generate.insert_select_single. by rewrite Hins.
Qed.

Lemma gateway_reports_insert_error_witness :
  Generate.POST
    {| Generate.user := Some "U1";
       Generate.CREATOMATE_API_KEY := Some "secret";
       Generate.NEXT_PUBLIC_APP_URL := None;
       Generate.getTemplate := fun _ => JNull;
       Generate.applyTemplate := fun _ data => inr data;
       Generate.insert_result := inl "violates foreign key constraint";
       Generate.renderer := Scenario.always (Scenario.created "succeeded" []);
       Generate.update_rejected := None |}
    Scenario.submit Scenario.empty
  = (Normal (NextResponse_json (obj1 "error" (JStr "violates foreign key constraint")) 500),
     Scenario.empty).
Proof.
  apply (gateway_reports_insert_error _ Scenario.submit Scenario.empty "U1"
           (JObj [("propertyId", JStr "P1"); ("modifications", Scenario.modifications)])
           "secret"); (reflexivity || discriminate).
Defined.



(** Lines 68-102 when all three calls are rejected: the error of the
    last call is thrown. *)
Lemma fetch_with_retry_all_rejected env data w e0 e1 e2 :
  Generate.renderer env 0%nat = Generate.Rejected e0 ->
  Generate.renderer env 1%nat = Generate.Rejected e1 ->
  Generate.renderer env 2%nat = Generate.Rejected e2 ->
  Generate.fetch_with_retry env data w
  = (Throw e2, {| videos := videos w; effects := effects w ++ retry_trace data 2 |}).
Proof.
  intros H0 H1 H2. unfold Generate.fetch_with_retry, Generate.maxRetries.
  cbn [Generate.for_loop]. unfold bind.
  rewrite (iteration_rejected _ _ _ _ _ e0 H0).
  rewrite (iteration_rejected _ _ _ _ _ e1 H1).
  rewrite (iteration_rejected _ _ _ _ _ e2 H2).
  unfold ret, throw. cbn [Generate.response Generate.lastError videos effects].
  rewrite <- !app_assoc. reflexivity.
Qed.

(** Lines 68-102 when all three calls are answered with a status of 500
    or more: no error was recorded, and the fallback error is thrown. *)
Lemma fetch_with_retry_all_server_errors env data w r0 r1 r2 :
  Generate.renderer env 0%nat = Generate.Responded r0 -> 500 <= Generate.status r0 ->
  Generate.renderer env 1%nat = Generate.Responded r1 -> 500 <= Generate.status r1 ->
  Generate.renderer env 2%nat = Generate.Responded r2 -> 500 <= Generate.status r2 ->
  Generate.fetch_with_retry env data w
  = (Throw (Error "Failed to connect to Creatomate API"),
     {| videos := videos w; effects := effects w ++ retry_trace data 2 |}).
Proof.
  intros H0 S0 H1 S1 H2 S2. unfold Generate.fetch_with_retry, Generate.maxRetries.
  cbn [Generate.for_loop]. unfold bind.
  rewrite (iteration_server_error _ _ _ _ _ r0 H0 S0).
  rewrite (iteration_server_error _ _ _ _ _ r1 H1 S1).
  rewrite (iteration_server_error _ _ _ _ _ r2 H2 S2).
  unfold ret, throw. cbn [Generate.response Generate.lastError videos effects].
  assert (Hok : Generate.ok r2 = false).
  { unfold Generate.ok. apply andb_false_intro2. lia. }
  rewrite Hok, <- !app_assoc. reflexivity.
Qed.

(** X15: When every call is a transport failure the gateway gives up after
    the third: it answers with status 500 and the message of the last
    failure, and the row it created stays in the table, [pending], with
    no provider id. *)
Theorem gateway_gives_up_after_three_failures env req w uid body apiKey new_id e0 e1 e2 :
  Generate.user env = Some uid ->
  req_json req = inr body ->
  body <> JNull ->
  truthy (opt_get "templateId" (Some body)) = false ->
  Generate.CREATOMATE_API_KEY env = Some apiKey ->
  apiKey <> "" ->
  Generate.insert_result env = inr new_id ->
  videos w !! new_id = None ->
  Generate.renderer env 0%nat = Generate.Rejected e0 ->
  Generate.renderer env 1%nat = Generate.Rejected e1 ->
  Generate.renderer env 2%nat = Generate.Rejected e2 ->
  exists data row,
    Generate.POST env req w
    = (Normal (NextResponse_json (obj1 "error" (JStr (message e2))) 500),
       {| videos := <[new_id := row]> (videos w);
          effects := effects w ++ retry_trace data 2 |})
    /\ Videos.status row = Some pending
    /\ Videos.video_url row = JNull
    /\ (forall m, Videos.meta row = Some m -> m !! "creatomate_id" = None).
Proof.
  intros Huser Hbody Hn Ht Hkey Hne Hins Hfresh H0 H1 H2.
  rewrite (gateway_without_template _ _ _ uid body) by done.
  destruct (generate_after_insert env uid (req_origin req)
              (opt_get "propertyId" (Some body)) (opt_get "templateId" (Some body))
              (opt_get "modifications" (Some body)) w apiKey new_id Hkey Hne Hins Hfresh)
    as (ctid & Hgen).
  unfold try_catch. rewrite Hgen. unfold bind at 1.
  rewrite (fetch_with_retry_all_rejected _ _ _ e0 e1 e2) by done.
  eexists _, _. split; [reflexivity|]. split_and!; try done.
  intros m [= <-]. rewrite !lookup_obj_put. repeat case_decide; done.
Qed.

Lemma gateway_gives_up_after_three_failures_witness :
  exists data row,
    Generate.POST
      (Scenario.gateway (Scenario.after_failures 3 (Scenario.created "succeeded" [])))
      Scenario.submit Scenario.empty
    = (Normal (NextResponse_json (obj1 "error" (JStr (message (TypeError "fetch failed")))) 500),
       {| videos := <["V1" := row]> (videos Scenario.empty);
          effects := effects Scenario.empty ++ retry_trace data 2 |})
    /\ Videos.status row = Some pending
    /\ Videos.video_url row = JNull
    /\ (forall m, Videos.meta row = Some m -> m !! "creatomate_id" = None).
Proof.
  apply (gateway_gives_up_after_three_failures
           (Scenario.gateway (Scenario.after_failures 3 (Scenario.created "succeeded" [])))
           Scenario.submit Scenario.empty "U1"
           (JObj [("propertyId", JStr "P1"); ("modifications", Scenario.modifications)])
           "secret" "V1" (TypeError "fetch failed") (TypeError "fetch failed"));
    (reflexivity || discriminate).
Defined.

(** X16: When every call is answered with a status of 500 or more, the
    gateway answers with status 500 and the fixed message "Failed to
    connect to Creatomate API": neither the renderer's status nor its
    body reaches the caller.  The row stays [pending]. *)
Theorem gateway_hides_server_errors env req w uid body apiKey new_id r0 r1 r2 :
  Generate.user env = Some uid ->
  req_json req = inr body ->
  body <> JNull ->
  truthy (opt_get "templateId" (Some body)) = false ->
  Generate.CREATOMATE_API_KEY env = Some apiKey ->
  apiKey <> "" ->
  Generate.insert_result env = inr new_id ->
  videos w !! new_id = None ->
  Generate.renderer env 0%nat = Generate.Responded r0 -> 500 <= Generate.status r0 ->
  Generate.renderer env 1%nat = Generate.Responded r1 -> 500 <= Generate.status r1 ->
  Generate.renderer env 2%nat = Generate.Responded r2 -> 500 <= Generate.status r2 ->
  exists data row,
    Generate.POST env req w
    = (Normal (NextResponse_json
                 (obj1 "error" (JStr "Failed to connect to Creatomate API")) 500),
       {| videos := <[new_id := row]> (videos w);
          effects := effects w ++ retry_trace data 2 |})
    /\ Videos.status row = Some pending.
Proof.
  intros Huser Hbody Hn Ht Hkey Hne Hins Hfresh H0 S0 H1 S1 H2 S2.
  rewrite (gateway_without_template _ _ _ uid body) by done.
  destruct (generate_after_insert env uid (req_origin req)
              (opt_get "propertyId" (Some body)) (opt_get "templateId" (Some body))
              (opt_get "modifications" (Some body)) w apiKey new_id Hkey Hne Hins Hfresh)
    as (ctid & Hgen).
  unfold try_catch. rewrite Hgen. unfold bind at 1.
  rewrite (fetch_with_retry_all_server_errors _ _ _ r0 r1 r2) by done.
  eexists _, _. split; [reflexivity|]. done.
Qed.

Lemma gateway_hides_server_errors_witness :
  let unavailable :=
    {| Generate.status := 503;
       Generate.json_body := inr (JObj [("error", JStr "Service Unavailable")]) |} in
  exists data row,
    Generate.POST (Scenario.gateway (Scenario.always unavailable))
      Scenario.submit Scenario.empty
    = (Normal (NextResponse_json
                 (obj1 "error" (JStr "Failed to connect to Creatomate API")) 500),
       {| videos := <["V1" := row]> (videos Scenario.empty);
          effects := effects Scenario.empty ++ retry_trace data 2 |})
    /\ Videos.status row = Some pending.
Proof.
  intros unavailable.
  apply (gateway_hides_server_errors (Scenario.gateway (Scenario.always unavailable))
           Scenario.submit Scenario.empty "U1"
           (JObj [("propertyId", JStr "P1"); ("modifications", Scenario.modifications)])
           "secret" "V1" unavailable unavailable unavailable);
    (reflexivity || discriminate || (cbn; lia)).
Defined.

Lemma in_retry_trace d d' k : In (Fetch d) (retry_trace d' k) -> d = d'.
Proof.
  unfold retry_trace. intros [H | H]; [congruence|].
  apply in_flat_map in H as (i & _ & [H | [H | []]]); congruence.
Qed.

(** The [metadata] member of the request body of lines 60-66. *)
Lemma request_data_metadata env ctid mods video_id user_id origin :
  opt_get "metadata" (Some (Generate.request_data env ctid mods video_id user_id origin))
  = Some (JStr (JSON.stringify
                  (JObj [("videoId", JStr video_id); ("userId", JStr user_id)]))).
Proof. unfold Generate.request_data. by destruct mods. Qed.

(** X17: Gateway, then webhook.  After a run of the gateway that answered
    with the id [vid] of the new record, a callback that carries the
    metadata of a request the gateway sent in that run (the renderer
    echoes it) reaches exactly that record: the store holds it, and a
    served delivery gives it the mapped status of the callback. *)
Theorem gateway_then_webhook env req w vid w1 tr data body origin :
  Generate.POST env req w
  = (Normal (NextResponse_json
               (JObj [("success", JBool true); ("videoId", JStr vid)]) 200), w1) ->
  vid <> "" ->
  effects w1 = effects w ++ tr ->
  In (Fetch data) tr ->
  truthy (opt_get "id" (Some body)) = true ->
  truthy (opt_get "status" (Some body)) = true ->
  opt_get "metadata" (Some body) = opt_get "metadata" (Some data) ->
  exists row row',
    videos w1 !! vid = Some row
    /\ Generate.user env = Some (Videos.user_id row)
    /\ Webhook.POST Webhook.healthy {| req_json := inr body; req_origin := origin |} w1
       = (Normal (NextResponse_json (obj1 "received" (JBool true)) 200),
          {| videos := <[vid := row']> (videos w1); effects := effects w1 |})
    /\ Videos.status row'
       = Some (Webhook.internal_status (opt_get "status" (Some body)))
    /\ Videos.user_id row' = Videos.user_id row.
Proof.
  intros Hrun Hne Heff Hin Hid Hst Hmeta.
  destruct (gateway_world env req w)
    as (resp & w' & Hrun' & [[_ H200] | (uid & pid & tid & mods & new_id & Huser & H & Hresp)]);
    rewrite Hrun in Hrun'; injection Hrun' as <- <-; [by cbn in H200|].
  destruct Hresp as [H500 | Hresp]; [by cbn in H500|]. injection Hresp as ->.
  destruct H as (ctid & k & row1 & _ & _ & _ & Hrow1 & ->).
  cbn [effects] in Heff. apply app_inv_head in Heff. subst tr.
  apply in_retry_trace in Hin. subst data.
  rewrite request_data_metadata in Hmeta.
  assert (Hvid : Webhook.videoId (opt_get "metadata" (Some body)) = Some (JStr new_id)).
  { rewrite Hmeta. apply webhook_reads_gateway_metadata. }
  assert (Ht : truthy (Some (JStr new_id)) = true).
  { cbn. destruct new_id; [done|reflexivity]. }
  rewrite (webhook_correlated _ _ _ _ (JStr new_id)) by done.
  cbn [Webhook.healthy Webhook.update_rejected Webhook.select_fails ToString videos effects].
  rewrite lookup_insert_eq.
  rewrite (alter_present _ _ _ row1) by apply lookup_insert_eq.
  eexists row1, _. split_and!; try done.
  destruct Hrow1 as [-> | (render & ->)]; by rewrite Huser.
Qed.

Lemma gateway_then_webhook_witness :
  let w1 := snd (Generate.POST
                   (Scenario.gateway (Scenario.always (Scenario.created "planned" [])))
                   Scenario.submit Scenario.empty) in
  let body := JObj [("id", JStr "R1"); ("status", JStr "succeeded");
                    ("url", JStr "https://cdn/x.mp4");
                    ("metadata", JStr (JSON.stringify Scenario.metadata_object))] in
  exists row row',
    videos w1 !! "V1" = Some row
    /\ Generate.user (Scenario.gateway (Scenario.always (Scenario.created "planned" [])))
       = Some (Videos.user_id row)
    /\ Webhook.POST Webhook.healthy {| req_json := inr body; req_origin := None |} w1
       = (Normal (NextResponse_json (obj1 "received" (JBool true)) 200),
          {| videos := <["V1" := row']> (videos w1); effects := effects w1 |})
    /\ Videos.status row'
       = Some (Webhook.internal_status (opt_get "status" (Some body)))
    /\ Videos.user_id row' = Videos.user_id row.
Proof.
  intros w1 body.
  apply (gateway_then_webhook
           (Scenario.gateway (Scenario.always (Scenario.created "planned" [])))
           Scenario.submit Scenario.empty "V1" w1 [Fetch Scenario.data] Scenario.data
           body None).
  - vm_compute. reflexivity.
  - discriminate.
  - vm_compute. reflexivity.
  - left. reflexivity.
  - reflexivity.
  - reflexivity.
  - vm_compute. reflexivity.
Defined.

(* ===================================================================== *)
(** ** The earlier gateway against the current one                       *)
(* ===================================================================== *)

(** What an iteration yields does not depend on the request body or on
    the world it runs in; only the trace records the body. *)
Lemma iteration_uniform env i v :
  exists v',
    forall data w,
      Generate.iteration env data i v w
      = (Normal (v', Generate.is_success (Generate.renderer env i)),
         {| videos := videos w;
            effects := effects w ++
                       (if (0 <? i)%nat then [Delay (backoff i)] else []) ++ [Fetch data] |}).
Proof.
  unfold Generate.iteration, Generate.try_block, Generate.is_success, backoff.
  destruct (Generate.renderer env i) as [err|r].
  { eexists. intros data w. destruct (0 <? i)%nat; run; rewrite <- ?app_assoc; reflexivity. }
  destruct (Generate.ok r) eqn:Hok.
  { eexists. intros data w. destruct (0 <? i)%nat; run; rewrite <- ?app_assoc; reflexivity. }
  destruct (Generate.status r <? 500).
  2:{ eexists. intros data w. destruct (0 <? i)%nat; run; rewrite <- ?app_assoc; reflexivity. }
  destruct (Generate.json_body r) as [e|result].
  { eexists. intros data w. destruct (0 <? i)%nat; run; rewrite <- ?app_assoc; reflexivity. }
  destruct (get_prop "error" result) as [e|msg];
    eexists; intros data w; destruct (0 <? i)%nat; run; rewrite <- ?app_assoc; reflexivity.
Qed.

Lemma for_loop_uniform env :
  forall remaining start v,
  exists v' n,
    (0 < remaining -> 0 < n)%nat
    /\ forall data w,
         Generate.for_loop env data remaining start v w
         = (Normal v',
            {| videos := videos w;
               effects :=
                 effects w ++
                 flat_map (fun i => (if (0 <? i)%nat then [Delay (backoff i)] else [])
                                    ++ [Fetch data])
                          (seq start n) |}).
Proof.
  induction remaining as [|remaining IH]; intros start v; cbn [Generate.for_loop].
  - exists v, 0%nat. split; [lia|]. intros data w. unfold ret. cbn.
    by rewrite app_nil_r, world_eta.
  - destruct (iteration_uniform env start v) as (v1 & Hit).
    destruct (Generate.is_success (Generate.renderer env start)) eqn:Hs.
    + exists v1, 1%nat. split; [lia|]. intros data w. unfold bind. rewrite Hit, ?Hs.
      unfold ret. cbn [seq flat_map]. by rewrite app_nil_r.
    + destruct (IH (S start) v1) as (v' & n & _ & Hloop).
      exists v', (S n). split; [lia|]. intros data w. unfold bind.
      rewrite Hit, ?Hs, Hloop. cbn [videos effects seq flat_map].
      by rewrite <- !app_assoc.
Qed.

(** Lines 68-102 on two request bodies: the same completion after the
    same number of calls. *)
Lemma fetch_with_retry_uniform env :
  exists c k,
    forall data w,
      Generate.fetch_with_retry env data w
      = (c, {| videos := videos w; effects := effects w ++ retry_trace data k |}).
Proof.
  unfold Generate.fetch_with_retry.
  destruct (for_loop_uniform env Generate.maxRetries 0%nat
              {| Generate.response := None; Generate.lastError := None |})
    as (v' & n & Hpos & Hloop).
  destruct n as [|k]; [exfalso; unfold Generate.maxRetries in Hpos; lia|].
  destruct (Generate.response v') as [r|] eqn:Hr; [destruct (Generate.ok r) eqn:Hok|];
    eexists _, k; intros data w; unfold bind; rewrite Hloop, loop_trace_retry, Hr, ?Hok;
    reflexivity.
Qed.

Lemma new_row_without_template uid pid mods new_id :
  Generate.new_row uid pid None mods new_id = LegacyGenerate.new_row uid pid mods new_id.
Proof.
  unfold Generate.new_row, LegacyGenerate.new_row. f_equal. f_equal.
  cbn [obj_put]. apply delete_id. rewrite !lookup_obj_put. by repeat case_decide.
Qed.

(** X18: For a request that names no template, with an API key set, the
    earlier handler and the current one agree: the same answer, the same
    table, and the same calls and waits; only the request body differs
    (the current one adds [webhook_url]). *)
Theorem legacy_gateway_agrees env req w apiKey :
  Generate.CREATOMATE_API_KEY env = Some apiKey ->
  apiKey <> "" ->
  (forall body, req_json req = inr body -> opt_get "templateId" (Some body) = None) ->
  fst (LegacyGenerate.POST env req w) = fst (Generate.POST env req w)
  /\ videos (snd (LegacyGenerate.POST env req w)) = videos (snd (Generate.POST env req w))
  /\ attempts (effects (snd (LegacyGenerate.POST env req w)))
     = attempts (effects (snd (Generate.POST env req w)))
  /\ delays (effects (snd (LegacyGenerate.POST env req w)))
     = delays (effects (snd (Generate.POST env req w))).
Proof.
  intros Hkey Hne Hnt. unfold LegacyGenerate.POST, Generate.POST.
  destruct (Generate.user env) as [uid|]; [|done].
  unfold try_catch. run.
  destruct (req_json req) as [e|body] eqn:Hbody; [done|].
  destruct (null_or_not body) as [->|Hn]; [done|].
  rewrite !destructure_nonnull by done. rewrite (Hnt body eq_refl).
  unfold Generate.generate. rewrite Hkey. apply String.eqb_neq in Hne. rewrite Hne.
  unfold bind, Generate.insert_select_single.
  destruct (Generate.insert_result env) as [m|new_id]; [done|].
  destruct (videos w !! new_id); [done|].
  rewrite new_row_without_template.
  change (Videos.id (LegacyGenerate.new_row uid (opt_get "propertyId" (Some body))
                       (opt_get "modifications" (Some body)) new_id)) with new_id.
  destruct (fetch_with_retry_uniform env) as (c & k & Hfetch).
  rewrite !Hfetch. cbn [videos effects].
  assert (Htr : forall d1 d2 pre,
             attempts (pre ++ retry_trace d1 k) = attempts (pre ++ retry_trace d2 k)
             /\ delays (pre ++ retry_trace d1 k) = delays (pre ++ retry_trace d2 k)).
  { intros d1 d2 pre. induction pre as [|[ms|d] pre [IH1 IH2]]; cbn [app attempts delays].
    - by rewrite !attempts_retry_trace, !delays_retry_trace.
    - by rewrite IH1, IH2.
    - by rewrite IH1, IH2. }
  destruct c as [r|e]; [|cbn; split_and!; try done; apply Htr].
  unfold await. destruct (Generate.json_body r) as [e|result];
    [cbn; split_and!; try done; apply Htr|].
  unfold if_truthy, ret.
  destruct (Generate.first_render result) as [render|];
    [destruct (truthy (Some render))|]; run;
    try (destruct (Generate.update_rejected env)); cbn; split_and!; try done; apply Htr.
Qed.

Lemma legacy_gateway_agrees_witness :
  let env := Scenario.gateway
               (Scenario.after_failures 1
                  (Scenario.created "succeeded" [("url", JStr "https://cdn/x.mp4")])) in
  fst (LegacyGenerate.POST env Scenario.submit Scenario.empty)
  = fst (Generate.POST env Scenario.submit Scenario.empty)
  /\ videos (snd (LegacyGenerate.POST env Scenario.submit Scenario.empty))
     = videos (snd (Generate.POST env Scenario.submit Scenario.empty))
  /\ attempts (effects (snd (LegacyGenerate.POST env Scenario.submit Scenario.empty)))
     = attempts (effects (snd (Generate.POST env Scenario.submit Scenario.empty)))
  /\ delays (effects (snd (LegacyGenerate.POST env Scenario.submit Scenario.empty)))
     = delays (effects (snd (Generate.POST env Scenario.submit Scenario.empty))).
Proof.
  intros env. apply (legacy_gateway_agrees env Scenario.submit Scenario.empty "secret").
  - reflexivity.
  - discriminate.
  - intros body [= <-]. reflexivity.
Defined.

(* ===================================================================== *)
(** ** The template branch of the gateway                                *)
(* ===================================================================== *)



(* ===================================================================== *)
(** ** The gateway from the request to the answer                        *)
(* ===================================================================== *)

(** Lines 13-32: a request that gets as far as the renderer runs lines
    34-122 with the modifications it sent, or with the ones the
    template gave. *)
Lemma reaches_generate env req w uid body new_id :
  reaches_renderer env req w uid body new_id ->
  exists pid tid mods,
    Generate.POST env req w
    = try_catch (Generate.generate env uid (req_origin req) pid tid mods)
        (fun error => ret (NextResponse_json (obj1 "error" (JStr (message error))) 500)) w.
Proof.
  intros (Huser & Hbody & Hn & Htpl & _).
  destruct Htpl as [Ht | (t & applied & Ht & Htt & Hfound & Happ)].
  - eexists _, _, _. by apply gateway_without_template.
  - exists (opt_get "propertyId" (Some body)), (Some t), (Some applied).
    unfold Generate.POST. rewrite Huser, Hbody. unfold try_catch. run.
    rewrite !destructure_nonnull by done. by rewrite Ht, Htt, Hfound, Happ.
Qed.

(** Lines 34-122 when the first 2xx answer comes to call [f]. *)
Lemma generate_first_success env uid origin pid tid mods w new_id f r :
  (exists apiKey, Generate.CREATOMATE_API_KEY env = Some apiKey /\ apiKey <> "") ->
  Generate.insert_result env = inr new_id ->
  videos w !! new_id = None ->
  first_success env f r ->
  exists data row0,
    Videos.status row0 = Some pending
    /\ Videos.video_url row0 = JNull
    /\ Generate.generate env uid origin pid tid mods w
       = match Generate.json_body r with
         | inl e =>
             (Throw e,
              {| videos := <[new_id := row0]> (videos w);
                 effects := effects w ++ retry_trace data f |})
         | inr result =>
             (Normal (NextResponse_json
                        (JObj [("success", JBool true); ("videoId", JStr new_id)]) 200),
              {| videos :=
                   <[new_id :=
                       match Generate.first_render result, Generate.update_rejected env with
                       | Some render, None =>
                           if truthy (Some render)
                           then Videos.apply (Generate.render_update row0 render) row0
                           else row0
                       | _, _ => row0
                       end]> (videos w);
                 effects := effects w ++ retry_trace data f |})
         end.
Proof.
  intros (apiKey & Hkey & Hne) Hins Hfresh (Hlt & Hfail' & Hr & Hok).
  assert (Hfail : forall j, (j < f)%nat ->
                            Generate.is_success (Generate.renderer env j) = false).
  { intros j Hj. specialize (Hfail' j Hj). unfold Generate.is_success.
    by destruct (Generate.renderer env j). }
  destruct (generate_after_insert env uid origin pid tid mods w apiKey new_id
              Hkey Hne Hins Hfresh) as (ctid & ->).
  set (row0 := Generate.new_row uid pid tid mods new_id).
  exists (Generate.request_data env ctid mods new_id uid origin), row0.
  split; [done|]. split; [done|].
  unfold bind at 1. rewrite (fetch_with_retry_success env _ f r) by done.
  cbn [videos effects]. unfold bind at 1, await.
  destruct (Generate.json_body r) as [e|result]; [done|].
  unfold ret at 1, if_truthy.
  destruct (Generate.first_render result) as [render|];
    [destruct (truthy (Some render))|]; run;
    destruct (Generate.update_rejected env); try done.
  cbn [ToString videos effects]. do 2 f_equal.
  rewrite (alter_present _ _ _ row0) by apply lookup_insert_eq.
  apply insert_insert_eq.
Qed.

(** The same for the whole handler. *)
Lemma gateway_first_success env req w uid body new_id f r :
  reaches_renderer env req w uid body new_id ->
  first_success env f r ->
  exists data row0,
    Videos.status row0 = Some pending
    /\ Videos.video_url row0 = JNull
    /\ Generate.POST env req w
       = match Generate.json_body r with
         | inl e =>
             (Normal (NextResponse_json (obj1 "error" (JStr (message e))) 500),
              {| videos := <[new_id := row0]> (videos w);
                 effects := effects w ++ retry_trace data f |})
         | inr result =>
             (Normal (NextResponse_json
                        (JObj [("success", JBool true); ("videoId", JStr new_id)]) 200),
              {| videos :=
                   <[new_id :=
                       match Generate.first_render result, Generate.update_rejected env with
                       | Some render, None =>
                           if truthy (Some render)
                           then Videos.apply (Generate.render_update row0 render) row0
                           else row0
                       | _, _ => row0
                       end]> (videos w);
                 effects := effects w ++ retry_trace data f |})
         end.
Proof.
  intros Hreach Hfirst.
  destruct (reaches_generate _ _ _ _ _ _ Hreach) as (pid & tid & mods & ->).
  destruct Hreach as (_ & _ & _ & _ & Hkey & Hins & Hfresh).
  destruct (generate_first_success env uid (req_origin req) pid tid mods w new_id f r
              Hkey Hins Hfresh Hfirst) as (data & row0 & Hst & Hurl & Hgen).
  exists data, row0. split; [done|]. split; [done|].
  unfold try_catch. rewrite Hgen. by destruct (Generate.json_body r).
Qed.





Lemma reports_first_render result render :
  reports result render -> Generate.first_render result = Some (JObj render).
Proof. by intros [-> | (rest & ->)]. Qed.

Lemma first_render_reports result render :
  Generate.first_render result = Some (JObj render) -> reports result render.
Proof.
  destruct result as [| | | |[|x rest]|ms]; try done.
  - intros [= ->]. right. by exists rest.
  - intros [= ->]. by left.
Qed.

(** C4, as the specification states it, fails: the renderer answers at
    once with status ["succeeded"] and a URL, the store rejects the
    update of lines 109-119, whose outcome the gateway does not look
    at, and the record stays [pending]. *)
Lemma rejected_update_leaves_record_pending : ~ synchronous_status_is_recorded.
Proof.
  intros H.
  destruct (H (Faults.read_only
                 (Scenario.gateway
                    (Scenario.always
                       (Scenario.created "succeeded" [("url", JStr "https://cdn/x.mp4")]))))
              Scenario.submit Scenario.empty "U1"
              (JObj [("propertyId", JStr "P1"); ("modifications", Scenario.modifications)])
              "V1" 0%nat
              (Scenario.created "succeeded" [("url", JStr "https://cdn/x.mp4")])
              (JObj [("id", JStr "R1"); ("status", JStr "succeeded");
                     ("url", JStr "https://cdn/x.mp4")]))
    as (row & Hrow & Hdone & _).
  - split_and!; try done. { by left. } by exists "secret".
  - split_and!; try done. { unfold Generate.maxRetries. lia. } intros j Hj. lia.
  - reflexivity.
  - destruct (Hdone [("id", JStr "R1"); ("status", JStr "succeeded");
                     ("url", JStr "https://cdn/x.mp4")] (JStr "https://cdn/x.mp4"))
      as [Hst _]; [by left|reflexivity|reflexivity|].
    vm_compute in Hrow. injection Hrow as <-. discriminate Hst.
Qed.

(** C4 as amended: for a request that gets as far as the renderer, let
    [result] be the body of the renderer's first 2xx answer.  The
    gateway answers with the id of the new record.  When the store
    accepts the update of lines 109-119: if the render in [result]
    reports status ["succeeded"] and a URL the record is [completed]
    with that URL as [video_url], and if it reports any other status,
    or [result] holds no render, the record is [pending].  The gateway
    does not look at the outcome of that update: when the store rejects
    it the record stays [pending] without a URL, whatever the renderer
    reported. *)
Theorem gateway_records_synchronous_answer env req w uid body new_id f r result :
  reaches_renderer env req w uid body new_id ->
  first_success env f r ->
  Generate.json_body r = inr result ->
  exists row,
    videos (snd (Generate.POST env req w)) !! new_id = Some row
    /\ fst (Generate.POST env req w)
       = Normal (NextResponse_json
                   (JObj [("success", JBool true); ("videoId", JStr new_id)]) 200)
    /\ match Generate.update_rejected env with
       | None =>
           (forall render url,
              reports result render ->
              lookup_member "status" render = Some (JStr "succeeded") ->
              lookup_member "url" render = Some url ->
              Videos.status row = Some completed /\ Videos.video_url row = url)
           /\ ((forall render, reports result render ->
                               lookup_member "status" render <> Some (JStr "succeeded")) ->
               Videos.status row = Some pending)
       | Some _ => Videos.status row = Some pending /\ Videos.video_url row = JNull
       end.
Proof.
  intros Hreach Hfirst Hbody.
  destruct (gateway_first_success _ _ _ _ _ _ _ _ Hreach Hfirst)
    as (data & row0 & Hst0 & Hurl0 & ->).
  rewrite Hbody. cbn [fst snd videos]. rewrite lookup_insert_eq.
  eexists. split; [reflexivity|]. split; [reflexivity|].
  destruct (Generate.update_rejected env) as [m|].
  { by destruct (Generate.first_render result). }
  split.
  - intros render url Hrep Hs Hu. rewrite (reports_first_render _ _ Hrep).
    cbn [truthy Videos.apply Generate.render_update Videos.status Videos.video_url
         Videos.set_status Videos.set_video_url opt_get strict_eq_lit].
    rewrite Hs, Hu. done.
  - intros Hother. destruct (Generate.first_render result) as [render|] eqn:Hrender;
      [|done].
    destruct (truthy (Some render)); [|done].
    cbn [Videos.apply Generate.render_update Videos.status Videos.set_status].
    destruct (strict_eq_lit (opt_get "status" (Some render)) "succeeded") eqn:Hs; [|done].
    exfalso. destruct render as [| | | | |ms]; try done.
    apply (Hother ms); [by apply first_render_reports|].
    cbn [opt_get] in Hs. unfold strict_eq_lit in Hs.
    destruct (lookup_member "status" ms) as [[| | |s| |]|]; try done.
    apply String.eqb_eq in Hs. by subst s.
Qed.

Lemma gateway_records_synchronous_answer_witness :
  let result := JArr [JObj [("id", JStr "R1"); ("status", JStr "succeeded");
                            ("url", JStr "https://cdn/x.mp4")]] in
  let env := Scenario.gateway
               (Scenario.always
                  {| Generate.status := 200; Generate.json_body := inr result |}) in
  exists row,
    videos (snd (Generate.POST env Scenario.submit Scenario.empty)) !! "V1" = Some row
    /\ fst (Generate.POST env Scenario.submit Scenario.empty)
       = Normal (NextResponse_json
                   (JObj [("success", JBool true); ("videoId", JStr "V1")]) 200)
    /\ (forall render url,
          reports result render ->
          lookup_member "status" render = Some (JStr "succeeded") ->
          lookup_member "url" render = Some url ->
          Videos.status row = Some completed /\ Videos.video_url row = url)
       /\ ((forall render, reports result render ->
                           lookup_member "status" render <> Some (JStr "succeeded")) ->
           Videos.status row = Some pending).
Proof.
  intros result env.
  apply (gateway_records_synchronous_answer env Scenario.submit Scenario.empty "U1"
           (JObj [("propertyId", JStr "P1"); ("modifications", Scenario.modifications)])
           "V1" 0%nat {| Generate.status := 200; Generate.json_body := inr result |}
           result).
  - split; [reflexivity|]. split; [reflexivity|]. split; [discriminate|].
    split; [left; reflexivity|]. split; [exists "secret"; split; [reflexivity|discriminate]|].
    split; reflexivity.
  - split; [unfold Generate.maxRetries; lia|]. split; [intros j Hj; lia|].
    split; reflexivity.
  - reflexivity.
Defined.

(* ===================================================================== *)
(** ** The template registry                                             *)
(* ===================================================================== *)

Lemma span_path_closing p r :
  TemplateManager.occurs "}" p = false ->
  TemplateManager.span_path (p +:+ String "}" r) = (p, String "}" r).
Proof.
  induction p as [|c p IH]; simpl; [done|].
  intros H. apply orb_false_elim in H as [Hc Hp]. by rewrite Hc, IH.
Qed.

Lemma match_placeholder_here p post :
  p <> "" ->
  TemplateManager.occurs "}" p = false ->
  TemplateManager.match_placeholder ("{{" +:+ p +:+ "}}" +:+ post) = Some (p, post).
Proof.
  intros Hp Hocc.
  change ("{{" +:+ p +:+ "}}" +:+ post)
    with (String "{" (String "{" (p +:+ String "}" (String "}" post)))).
  unfold TemplateManager.match_placeholder.
  rewrite span_path_closing by done. by destruct p.
Qed.

Lemma match_placeholder_other c r :
  c <> "{"%char -> TemplateManager.match_placeholder (String c r) = None.
Proof.
  intros Hc. unfold TemplateManager.match_placeholder. destruct r; [done|].
  apply Ascii.eqb_neq in Hc. by rewrite Hc.
Qed.

Lemma match_placeholder_opening s :
  TemplateManager.has_opening s = false -> TemplateManager.match_placeholder s = None.
Proof.
  destruct s as [|a [|b r]]; try done. cbn [TemplateManager.has_opening].
  intros H. apply orb_false_elim in H as [H _].
  unfold TemplateManager.match_placeholder. by rewrite H.
Qed.

Lemma replace_from_skip cb a b :
  TemplateManager.replace_from cb (String.length a) (a +:+ b)
  = TemplateManager.replace_from cb 0 b.
Proof. induction a as [|c a IH]; [by destruct b|exact IH]. Qed.

Lemma occurs_neq c d s : TemplateManager.occurs c (String d s) = false -> d <> c.
Proof. simpl. intros H. apply orb_false_elim in H as [H _]. by apply Ascii.eqb_neq. Qed.






Lemma assign_entries_shape inherited data es ms :
  TemplateManager.assign_entries inherited data es = inr ms ->
  List.map fst ms
  = List.filter (fun k => negb (String.eqb k "__proto__")) (List.map fst es)
  /\ forall k v, In (k, v) es -> k <> "__proto__" -> (forall s, v <> JStr s) ->
                 In (k, v) ms.
Proof.
  revert ms. induction es as [|[key value] rest IH]; intros ms; simpl.
  - intros [= <-]. split; [done|]. by intros k v [].
  - destruct (match value with
              | JStr s =>
                  match TemplateManager.replace_placeholders
                          (TemplateManager.callback inherited data) s with
                  | inl e => inl e
                  | inr t => inr (JStr t)
                  end
              | _ => inr value
              end) as [e|v'] eqn:Hv; [done|].
    destruct (TemplateManager.assign_entries inherited data rest) as [e|ms'];
      [done|].
    intros [= <-]. destruct (IH ms' eq_refl) as [Hkeys Hvals].
    destruct (String.eqb key "__proto__") eqn:Hkey; simpl.
    + split; [done|]. intros k v [Heq|Hin] Hk Hs; [|by apply Hvals].
      apply String.eqb_eq in Hkey. congruence.
    + split; [by rewrite Hkeys|]. intros k v [Heq|Hin] Hk Hs; [|right; by apply Hvals].
      left. rewrite <- Heq. f_equal. assert (value = v) as -> by congruence.
      destruct v; try congruence; by destruct (Hs s).
Qed.

Lemma replace_from_behind cb p a b post :
  TemplateManager.replace_from cb (S (S (String.length p)))
    (p +:+ String a (String b post))
  = TemplateManager.replace_from cb 0 post.
Proof. induction p as [|c p IH]; [by destruct post|exact IH]. Qed.

(** X20: A text in which no two opening braces follow one another comes out
    of the replacement as it went in, and the callback is not run. *)
Theorem text_without_placeholder_unchanged cb s :
  TemplateManager.has_opening s = false ->
  TemplateManager.replace_placeholders cb s = inr s.
Proof.
  unfold TemplateManager.replace_placeholders.
  induction s as [|c s IH]; [done|]. intros H.
  cbn [TemplateManager.replace_from]. rewrite match_placeholder_opening by done.
  rewrite IH; [done|].
  destruct s as [|b r]; [done|]. cbn [TemplateManager.has_opening] in H.
  by apply orb_false_elim in H as [_ H].
Qed.

Lemma text_without_placeholder_unchanged_witness :
  TemplateManager.replace_placeholders (fun _ => inl (Error "not run"))
    "Price: {1} }} { {"
  = inr "Price: {1} }} { {".
Proof. apply text_without_placeholder_unchanged. reflexivity. Defined.

(** X21: The first placeholder of a text: what stands before it is kept,
    the placeholder gives way to what the callback makes of its path,
    and the replacement goes on behind the closing braces; a callback
    that throws ends it. *)
Theorem placeholder_is_replaced cb pre p post :
  TemplateManager.occurs "{" pre = false ->
  p <> "" ->
  TemplateManager.occurs "}" p = false ->
  TemplateManager.replace_placeholders cb (pre +:+ "{{" +:+ p +:+ "}}" +:+ post)
  = match cb p with
    | inl e => inl e
    | inr t =>
        match TemplateManager.replace_placeholders cb post with
        | inl e => inl e
        | inr r => inr (pre +:+ t +:+ r)
        end
    end.
Proof.
  intros Hpre Hp Hocc. unfold TemplateManager.replace_placeholders.
  induction pre as [|c pre IH].
  - change ("" +:+ "{{" +:+ p +:+ "}}" +:+ post) with ("{{" +:+ p +:+ "}}" +:+ post).
    pose proof (match_placeholder_here p post Hp Hocc) as Hm.
    change ("{{" +:+ p +:+ "}}" +:+ post)
      with (String "{" (String "{" (p +:+ String "}" (String "}" post)))) in Hm |- *.
    cbn [TemplateManager.replace_from]. rewrite Hm.
    destruct (cb p) as [e|t]; [done|].
    rewrite Nat.add_comm. cbn [Nat.add TemplateManager.replace_from].
    by rewrite replace_from_behind.
  - pose proof (occurs_neq _ _ _ Hpre) as Hc.
    simpl in Hpre. apply orb_false_elim in Hpre as [_ Hpre].
    change (String c pre +:+ "{{" +:+ p +:+ "}}" +:+ post)
      with (String c (pre +:+ "{{" +:+ p +:+ "}}" +:+ post)).
    cbn [TemplateManager.replace_from]. rewrite match_placeholder_other by done.
    rewrite (IH Hpre). destruct (cb p) as [e|t]; [done|].
    by destruct (TemplateManager.replace_from cb 0 post).
Qed.

Lemma placeholder_is_replaced_witness :
  TemplateManager.replace_placeholders
    (fun p => if String.eqb p "price" then inr "100" else inl (Error p))
    ("Only " +:+ "{{" +:+ "price" +:+ "}}" +:+ " today")
  = inr "Only 100 today".
Proof.
  apply (placeholder_is_replaced
           (fun p => if String.eqb p "price" then inr "100" else inl (Error p))
           "Only " "price" " today"); (reflexivity || discriminate).
Defined.





(** X24: What [applyTemplate] returns has the keys of the template's
    modifications, in their order and without [__proto__]; a value
    that is not a string is handed on as it is. *)
Theorem applyTemplate_keeps_keys inherited template data m out :
  opt_get "modifications" (Some template) = Some m ->
  TemplateManager.applyTemplate inherited template data = inr out ->
  exists ms,
    out = JObj ms
    /\ List.map fst ms
       = List.filter (fun k => negb (String.eqb k "__proto__"))
           (List.map fst (TemplateManager.entries m))
    /\ forall k v, In (k, v) (TemplateManager.entries m) -> k <> "__proto__" ->
                   (forall s, v <> JStr s) -> In (k, v) ms.
Proof.
  intros Hm. unfold TemplateManager.applyTemplate, get_prop.
  destruct template; try done; rewrite Hm.
  all: destruct m; try done.
  all: match goal with
       | |- context [TemplateManager.assign_entries ?i ?d ?es] =>
           destruct (TemplateManager.assign_entries i d es) as [e|ms] eqn:Ha; [done|]
       end.
  all: intros [= <-]; exists ms; split; [done|];
       by apply (assign_entries_shape _ _ _ _ Ha).
Qed.

Lemma applyTemplate_keeps_keys_witness :
  exists ms,
    JObj [("Title", JStr "Flat"); ("Duration", JNum 5)] = JObj ms
    /\ List.map fst ms
       = List.filter (fun k => negb (String.eqb k "__proto__"))
           (List.map fst
              (TemplateManager.entries
                 (JObj [("Title", JStr "{{kind}}"); ("Duration", JNum 5)])))
    /\ forall k v,
         In (k, v) (TemplateManager.entries
                      (JObj [("Title", JStr "{{kind}}"); ("Duration", JNum 5)])) ->
         k <> "__proto__" -> (forall s, v <> JStr s) -> In (k, v) ms.
Proof.
  apply (applyTemplate_keeps_keys (fun _ _ => None)
           (JObj [("modifications",
                   JObj [("Title", JStr "{{kind}}"); ("Duration", JNum 5)])])
           (JObj [("kind", JStr "Flat")])); reflexivity.
Defined.









(* ===================================================================== *)
(** ** The amenities field of the property wizard                        *)
(* ===================================================================== *)

Lemma starts_with_before c p x y :
  TemplateManager.occurs c p = false ->
  PropertyWizard.starts_with p (x +:+ String c y) = PropertyWizard.starts_with p x.
Proof.
  revert x. induction p as [|a p IH]; intros x Hp; [by destruct x|].
  cbn [TemplateManager.occurs] in Hp. apply orb_false_elim in Hp as [Hac Hp].
  destruct x as [|d x]; simpl.
  - by rewrite Hac.
  - by rewrite IH.
Qed.

Lemma includes_split c p x y :
  TemplateManager.occurs c p = false ->
  PropertyWizard.includes (x +:+ String c y) p
  = PropertyWizard.includes x p || PropertyWizard.includes y p.
Proof.
  intros Hp. induction x as [|d x IH].
  - change ("" +:+ String c y) with (String c y). cbn [PropertyWizard.includes].
    rewrite <- (starts_with_before c p "" y Hp).
    change ("" +:+ String c y) with (String c y).
    by rewrite orb_false_r.
  - change (String d x +:+ String c y) with (String d (x +:+ String c y)).
    cbn [PropertyWizard.includes]. rewrite IH.
    change (String d (x +:+ String c y)) with (String d x +:+ String c y).
    rewrite starts_with_before by done. by rewrite !orb_assoc.
Qed.

Lemma append_assoc (a b c : string) : (a +:+ b) +:+ c = a +:+ b +:+ c.
Proof.
  induction a as [|x a IH]; [done|].
  change (String x ((a +:+ b) +:+ c) = String x (a +:+ b +:+ c)). by f_equal.
Qed.

Lemma append_empty (a : string) : a +:+ "" = a.
Proof.
  induction a as [|x a IH]; [done|].
  change (String x (a +:+ "") = String x a). by f_equal.
Qed.

Lemma includes_join pre es p :
  TemplateManager.occurs "|" p = false ->
  PropertyWizard.includes (pre +:+ join " | " es) p = scan pre es p.
Proof.
  intros Hp. revert pre. induction es as [|e rest IH]; intros pre.
  - by rewrite append_empty.
  - destruct rest as [|e' rest].
    + cbn [join scan]. by rewrite append_empty.
    + change (join " | " (e :: e' :: rest))
        with (e +:+ " | " +:+ join " | " (e' :: rest)).
      change (scan pre (e :: e' :: rest) p)
        with (PropertyWizard.includes (pre +:+ e +:+ " ") p
              || scan " " (e' :: rest) p).
      rewrite <- IH.
      replace (pre +:+ e +:+ " | " +:+ join " | " (e' :: rest))
        with ((pre +:+ e +:+ " ") +:+ String "|" (" " +:+ join " | " (e' :: rest))).
      * by apply includes_split.
      * by rewrite !append_assoc.
Qed.

Lemma entries_checked_all : entries_checked = true.
Proof. reflexivity. Qed.

Lemma includes_entry k a b pre post :
  In k PropertyWizard.AMENITY_LIST -> In a PropertyWizard.AMENITY_LIST ->
  In pre [""; " "] -> In post [""; " "] ->
  PropertyWizard.includes (pre +:+ PropertyWizard.entry_text (k, b) +:+ post)
    (a +:+ ":Yes")
  = String.eqb k a && b.
Proof.
  intros Hk Ha Hpre Hpost. pose proof entries_checked_all as Hall.
  unfold entries_checked in Hall.
  rewrite forallb_forall in Hall. specialize (Hall k Hk).
  rewrite forallb_forall in Hall. specialize (Hall a Ha).
  rewrite forallb_forall in Hall.
  specialize (Hall b ltac:(destruct b; simpl; auto)).
  rewrite forallb_forall in Hall. specialize (Hall pre Hpre).
  rewrite forallb_forall in Hall. specialize (Hall post Hpost).
  by apply Bool.eqb_prop in Hall.
Qed.

Lemma scan_entries kvs a pre :
  List.Forall (fun kv => In (fst kv) PropertyWizard.AMENITY_LIST) kvs ->
  In a PropertyWizard.AMENITY_LIST ->
  In pre [""; " "] ->
  kvs <> [] ->
  scan pre (List.map PropertyWizard.entry_text kvs) (a +:+ ":Yes")
  = existsb (fun kv => String.eqb (fst kv) a && snd kv) kvs.
Proof.
  intros Hall Ha. revert pre. induction Hall as [|[k b] rest Hk Hrest IH];
    intros pre Hpre Hne; [done|].
  destruct rest as [|kv rest].
  - cbn [List.map scan existsb fst snd]. rewrite orb_false_r.
    apply includes_entry; simpl; auto.
  - change (scan pre (List.map PropertyWizard.entry_text ((k, b) :: kv :: rest))
              (a +:+ ":Yes"))
      with (PropertyWizard.includes (pre +:+ PropertyWizard.entry_text (k, b) +:+ " ")
              (a +:+ ":Yes")
            || scan " " (List.map PropertyWizard.entry_text (kv :: rest)) (a +:+ ":Yes")).
    rewrite includes_entry by (simpl; auto).
    rewrite IH by (simpl; auto || discriminate). done.
Qed.

Lemma handleAmenityChange_text (f : string -> bool) amenity checked :
  In amenity PropertyWizard.AMENITY_LIST ->
  PropertyWizard.map_set amenity checked
    (fold_left (fun m a => PropertyWizard.map_set a (f a) m)
       PropertyWizard.AMENITY_LIST [])
  = List.map (fun a => (a, if String.eqb a amenity then checked else f a))
      PropertyWizard.AMENITY_LIST.
Proof.
  intros Hin. unfold PropertyWizard.AMENITY_LIST in Hin. cbn [In] in Hin.
  repeat (destruct Hin as [<-|Hin]; [reflexivity|]). done.
Qed.

Lemma tick_of_entries (g : string -> bool) a :
  In a PropertyWizard.AMENITY_LIST ->
  existsb (fun kv => String.eqb (fst kv) a && snd kv)
    (List.map (fun a => (a, g a)) PropertyWizard.AMENITY_LIST)
  = g a.
Proof.
  intros Hin. unfold PropertyWizard.AMENITY_LIST in Hin. cbn [In] in Hin.
  repeat (destruct Hin as [<-|Hin];
          [cbn; by rewrite ?orb_false_r|]). done.
Qed.

Lemma pattern_without_bar a :
  In a PropertyWizard.AMENITY_LIST -> TemplateManager.occurs "|" (a +:+ ":Yes") = false.
Proof.
  intros Hin. unfold PropertyWizard.AMENITY_LIST in Hin. cbn [In] in Hin.
  repeat (destruct Hin as [<-|Hin]; [reflexivity|]). done.
Qed.

(** X28: Ticking or clearing the box of one amenity sets that box and
    leaves the nine others as they were shown, whatever text the field
    held before. *)
Theorem amenity_change_sets_one_box cur amenity checked :
  In amenity PropertyWizard.AMENITY_LIST ->
  ticks (PropertyWizard.handleAmenityChange cur amenity checked)
  = List.map (fun a => if String.eqb a amenity then checked
                       else PropertyWizard.isChecked cur a)
      PropertyWizard.AMENITY_LIST.
Proof.
  intros Hin. unfold ticks. apply map_ext_in. intros a Ha.
  unfold PropertyWizard.handleAmenityChange, PropertyWizard.isChecked at 1.
  rewrite (handleAmenityChange_text
             (fun a => PropertyWizard.includes cur (a +:+ ":Yes"))) by done.
  change (join " | " ?es) with ("" +:+ join " | " es).
  rewrite includes_join by (by apply pattern_without_bar).
  rewrite scan_entries.
  - apply (tick_of_entries
             (fun a => if String.eqb a amenity then checked
                       else PropertyWizard.isChecked cur a) a Ha).
  - apply List.Forall_forall. intros kv Hkv. apply in_map_iff in Hkv as (k & <- & Hk).
    exact Hk.
  - exact Ha.
  - by left.
  - discriminate.
Qed.

Lemma amenity_change_sets_one_box_witness :
  ticks (PropertyWizard.handleAmenityChange "Gym:Yes | Garden:No" "Garden" true)
  = [false; true; false; false; false; false; false; false; false; true].
Proof.
  apply (amenity_change_sets_one_box "Gym:Yes | Garden:No" "Garden" true).
  unfold PropertyWizard.AMENITY_LIST. simpl. auto 20.
Defined.
